(** * EELS analysis plug-in: background subtraction and menu registration

    A shallow embedding of the two Python modules of the plug-in,

    - [nionswift_plugin/nion_eels_analysis/BackgroundSubtraction.py] and
    - [PlugIns/EELS/UI.py],

    together with the properties of the plug-in that can be read off them.

    Python objects owned by the host application (data items, graphics,
    display items, computations) live in explicit stores that are threaded
    through the code; exceptions are results of type [outcome]; Python
    floats are IEEE 754 binary64 numbers, i.e. Rocq's primitive floats. *)

From Stdlib Require Import Floats.
From stdpp Require Import base option list strings gmap.

Open Scope string_scope.
Open Scope list_scope.

(* ===================================================================== *)
(** * Python: exceptions, floats, [min] and [max]                         *)
(* ===================================================================== *)

Module Py.

(** The exceptions that the modelled code can raise. [ExternalError]
    stands for whatever an external collaborator (a background-model
    component, a host library function) raises. *)
Inductive exn : Set :=
| AssertionError
| ValueError
| KeyError (key : string)
| IndexError
| TypeError
| AttributeError (attr : string)
| ExternalError (msg : string).

Inductive outcome (A : Type) : Type :=
| Ret (a : A)
| Raise (e : exn).
Arguments Ret {A} a.
Arguments Raise {A} e.

Definition returned {A} (o : outcome A) : bool :=
  match o with Ret _ => true | Raise _ => false end.

(** A Python procedure over a mutable state [S]. A raised exception keeps
    the mutations made before it: Python has no roll-back. *)
Definition M (S A : Type) : Type := S -> outcome A * S.

Definition ret {S A} (a : A) : M S A := fun s => (Ret a, s).
Definition raise {S A} (e : exn) : M S A := fun s => (Raise e, s).
Definition bind {S A B} (m : M S A) (k : A -> M S B) : M S B :=
  fun s => match m s with
           | (Ret a, s') => k a s'
           | (Raise e, s') => (Raise e, s')
           end.
Definition get {S} : M S S := fun s => (Ret s, s).
Definition gets {S A} (f : S -> A) : M S A := fun s => (Ret (f s), s).
Definition modify {S} (f : S -> S) : M S unit := fun s => (Ret tt, f s).
Definition lift {S A} (o : outcome A) : M S A := fun s => (o, s).

(** [assert e] *)
Definition assert {S} (b : bool) : M S unit :=
  if b then ret tt else raise AssertionError.

(** [for x in l: body x] *)
Fixpoint for_each {S A} (l : list A) (body : A -> M S unit) : M S unit :=
  match l with
  | [] => ret tt
  | x :: l' => bind (body x) (fun _ => for_each l' body)
  end.

(** ** Floats *)

Definition float_lt (x y : float) : bool := PrimFloat.ltb x y.   (* x < y  *)
Definition float_gt (x y : float) : bool := PrimFloat.ltb y x.   (* x > y  *)
Definition float_le (x y : float) : bool := PrimFloat.leb x y.   (* x <= y *)
Definition float_eq (x y : float) : bool := PrimFloat.eqb x y.   (* x == y *)

(** [min(iterable)] and [max(iterable)]: the running result is replaced
    only by an item that compares strictly below (above) it, so among
    items that are not ordered the first one wins. *)
Fixpoint min_from (best : float) (items : list float) : float :=
  match items with
  | [] => best
  | x :: items' => min_from (if float_lt x best then x else best) items'
  end.

Fixpoint max_from (best : float) (items : list float) : float :=
  match items with
  | [] => best
  | x :: items' => max_from (if float_gt x best then x else best) items'
  end.

Definition min (items : list float) : outcome float :=
  match items with
  | [] => Raise ValueError
  | x :: items' => Ret (min_from x items')
  end.

Definition max (items : list float) : outcome float :=
  match items with
  | [] => Raise ValueError
  | x :: items' => Ret (max_from x items')
  end.

(** [min(a, b)] and [max(a, b)] with two positional arguments. *)
Definition min2 (a b : float) : float := min_from a [b].
Definition max2 (a b : float) : float := max_from a [b].

(** [==] on pairs of floats. *)
Definition pair_eq (p q : float * float) : bool :=
  float_eq (fst p) (fst q) && float_eq (snd p) (snd q).

End Py.

Export Py.

Declare Scope py_scope.
Delimit Scope py_scope with py.
Notation "'let*' x ':=' m 'in' k" := (bind m (fun x => k))
  (at level 10, x pattern, m at level 100, k at level 200) : py_scope.
Notation "m ';;' k" := (bind m (fun _ => k))
  (at level 100, k at level 200, right associativity) : py_scope.
Open Scope py_scope.

(* ===================================================================== *)
(** * BackgroundSubtraction.py: [normalized_interval]                      *)
(* ===================================================================== *)

Definition interval_t : Type := float * float.

(** [return min(interval), max(interval)] on a 2-tuple. *)
Definition normalized_interval (interval : interval_t) : interval_t :=
  (min_from (fst interval) [snd interval], max_from (fst interval) [snd interval]).

(* ===================================================================== *)
(** * The host's data API                                                  *)
(* ===================================================================== *)

(** The plug-in reads and builds scientific data only through the host's
    libraries ([nion.data], [numpy], [nion.eels_analysis.BackgroundModel]),
    none of which is part of this repository. Their types and functions
    are taken as an interface; the plug-in's code is embedded over any
    implementation of it.

    An [xdata] object and a data item are truthy Python objects: the
    tests [assert x], [if x:] and [x or y] on them distinguish [None]
    from an object. *)
Class DataAPI : Type := {
  Calibration : Type;
  units : Calibration -> string;
  ndarray : Type;
  (** [DataAndMetadata.DataAndMetadata] *)
  DataAndMetadata : Type;
  data : DataAndMetadata -> ndarray;
  intensity_calibration : DataAndMetadata -> Calibration;
  dimensional_calibrations : DataAndMetadata -> list Calibration;
  is_datum_1d : DataAndMetadata -> bool;
  is_navigable : DataAndMetadata -> bool;
  datum_dimensional_calibrations : DataAndMetadata -> list Calibration;
  navigation_dimension_shape : DataAndMetadata -> list nat;
  navigation_dimensional_calibrations : DataAndMetadata -> list Calibration;
  (** [numpy.zeros(shape)], [numpy.zeros_like(array)] *)
  numpy_zeros : list nat -> ndarray;
  numpy_zeros_like : ndarray -> ndarray;
  (** [DataAndMetadata.new_data_and_metadata(data, intensity_calibration=...,
      dimensional_calibrations=...)]; an omitted keyword is [None]. *)
  new_data_and_metadata :
    ndarray -> option Calibration -> option (list Calibration) -> DataAndMetadata;
  (** [BackgroundModel.get_calibrated_interval_slice(xdata, interval)] *)
  get_calibrated_interval_slice :
    DataAndMetadata -> interval_t -> outcome DataAndMetadata;
  (** [Core.calibrated_subtract_spectrum(xdata1, xdata2)] *)
  calibrated_subtract_spectrum :
    DataAndMetadata -> DataAndMetadata -> outcome DataAndMetadata;
  (** [Facade.DataItem] / [DataItem.DataItem] *)
  DataItem : Type;
  xdata : DataItem -> option DataAndMetadata;
  datum_dimension_count : DataItem -> nat;
  (** the data item made by [library.create_data_item()] *)
  new_data_item : DataItem;
  (** the data item made by [library.create_data_item_from_data(array)] *)
  new_data_item_from_data : ndarray -> DataItem
}.

(** Objects of the host are addressed by reference. *)
Definition ref : Type := nat.

(** [Facade.Graphic] *)
Record Graphic : Type := {
  graphic_type : string;
  graphic_id : option string;
  label : option string;
  interval : interval_t
}.

(** [DataStructure.DataStructure] *)
Record DataStructure : Type := {
  structure_type : string;
  source : option ref
}.

(** A Python [dict] with string keys. *)
Definition dict (V : Type) : Type := gmap string V.

(** [d[key]] *)
Definition getitem {V} (d : dict V) (key : string) : outcome V :=
  match d !! key with
  | Some v => Ret v
  | None => Raise (KeyError key)
  end.

(** [l[0]] *)
Definition first_item {A} (l : list A) : outcome A :=
  match l with
  | x :: _ => Ret x
  | [] => Raise IndexError
  end.

(** [assert x] for an optional object [x]. *)
Definition assert_object {S A} (x : option A) : M S A :=
  match x with
  | Some a => ret a
  | None => raise AssertionError
  end.

(** [x == y] on strings *)
Definition str_eq (x y : string) : bool := String.eqb x y.
Arguments str_eq : simpl never.

(* ===================================================================== *)
(** * Background-model components and the component registry              *)
(* ===================================================================== *)

Section Components.
Context `{DataAPI}.

(** A component registered under ["background-model"]: what the plug-in
    reads of it and the three methods it calls. The methods are the
    external algorithms; they return a [dict] of results or raise. *)
Record Component : Type := {
  background_model_id : string;
  title : string;
  package_title : string;
  (** [fit_background(spectrum_xdata=, fit_intervals=, background_interval=)] *)
  fit_background :
    DataAndMetadata -> list interval_t -> interval_t ->
    outcome (dict DataAndMetadata);
  (** [subtract_background(spectrum_xdata=, fit_intervals=)] *)
  subtract_background_method :
    DataAndMetadata -> list interval_t -> outcome (dict DataAndMetadata);
  (** [integrate_signal(spectrum_xdata=, eels_spectrum_xdata=, fit_intervals=,
      signal_interval=)] *)
  integrate_signal :
    DataAndMetadata -> option DataAndMetadata -> list interval_t -> interval_t ->
    outcome (dict DataAndMetadata)
}.

(** [nion.utils.Registry]: the registered components, each with the set
    of component types it was registered under, in iteration order. *)
Definition Registry : Type := list (Component * gset string).

Definition has_type (component_type : string) (entry : Component * gset string) : bool :=
  bool_decide (component_type ∈ entry.2).

(** [Registry.get_components_by_type(component_type)] *)
Definition get_components_by_type (registry : Registry) (component_type : string)
  : list Component :=
  map fst (List.filter (has_type component_type) registry).

(** The calls the handlers make to objects they do not own. *)
Inductive Call : Type :=
| CallFitBackground (component : Component)
| CallSubtractBackground (component : Component)
| CallIntegrateSignal (component : Component)
| CallSetReferencedXData (name : string) (value : DataAndMetadata).

(** What a computation handler runs against: the global component
    registry, the outputs of its [Facade.Computation] (owned by the
    host and written by [set_referenced_xdata]), and the journal of the
    calls made so far. *)
Record World : Type := {
  registry : Registry;
  referenced_xdata : dict DataAndMetadata;
  journal : list Call
}.

Definition record_call (c : Call) (w : World) : World :=
  {| registry := registry w;
     referenced_xdata := referenced_xdata w;
     journal := journal w ++ [c] |}.

(** A method of a handler object of class [Self]. *)
Definition Method (Self A : Type) : Type := M (Self * World) A.

Definition call {Self} (c : Call) : Method Self unit :=
  modify (fun sw => (sw.1, record_call c sw.2)).

(** What [computation.set_referenced_xdata(name, value)] does to the
    host: the output [name] of the computation now holds [value]. *)
Definition publish (name : string) (value : DataAndMetadata) (w : World) : World :=
  {| registry := registry w;
     referenced_xdata := <[name := value]> (referenced_xdata w);
     journal := journal w ++ [CallSetReferencedXData name value] |}.

(** [self.computation.set_referenced_xdata(name, value)] *)
Definition set_referenced_xdata {Self} (name : string) (value : DataAndMetadata)
  : Method Self unit :=
  modify (fun sw => (sw.1, publish name value sw.2)).

(** The calls of [set_referenced_xdata] made so far. *)
Definition is_publication (c : Call) : bool :=
  match c with
  | CallSetReferencedXData _ _ => true
  | _ => false
  end.

Definition publications (w : World) : list Call :=
  List.filter is_publication (journal w).

(** [for x in l:] with local variables [acc] assigned in the body *)
Fixpoint for_fold {S A B} (l : list A) (acc : B) (body : B -> A -> M S B) : M S B :=
  match l with
  | [] => ret acc
  | x :: l' => let* acc' := body acc x in for_fold l' acc' body
  end.

(** [[normalized_interval(g.interval) for g in fit_interval_graphics]] *)
Definition collect_fit_intervals (fit_interval_graphics : list Graphic)
  : list interval_t :=
  map (fun fit_interval_graphic => normalized_interval (interval fit_interval_graphic))
      fit_interval_graphics.

End Components.

(* ===================================================================== *)
(** * class EELSFitBackground                                              *)
(* ===================================================================== *)

Module EELSFitBackground.
Section Handler.
Context `{DataAPI}.

Record Self : Type := {
  __background_xdata : option DataAndMetadata;
  __subtracted_xdata : option DataAndMetadata
}.

Definition __init__ : Self :=
  {| __background_xdata := None; __subtracted_xdata := None |}.

Definition set___background_xdata (v : DataAndMetadata) : Method Self unit :=
  modify (fun sw =>
    ({| __background_xdata := Some v;
        __subtracted_xdata := __subtracted_xdata sw.1 |}, sw.2)).

Definition set___subtracted_xdata (v : DataAndMetadata) : Method Self unit :=
  modify (fun sw =>
    ({| __background_xdata := __background_xdata sw.1;
        __subtracted_xdata := Some v |}, sw.2)).

(** The body of the loop over the registered components: the local
    variables [background_xdata] and [subtracted_xdata] are the
    accumulator. *)
Definition execute_component
    (spectrum_xdata : DataAndMetadata) (fit_intervals : list interval_t)
    (signal_interval : interval_t) (the_background_model_id : string)
    (locals : option DataAndMetadata * option DataAndMetadata)
    (component : Component)
  : Method Self (option DataAndMetadata * option DataAndMetadata) :=
  if str_eq the_background_model_id (background_model_id component) then
    call (CallFitBackground component) ;;
    let* fit_result :=
      lift (fit_background component spectrum_xdata fit_intervals signal_interval) in
    let* background_xdata := lift (getitem fit_result "background_model") in
    let* subtracted_xdata :=
      match fit_result !! "subtracted_spectrum" with
      | Some subtracted_spectrum => ret subtracted_spectrum
      | None => lift (calibrated_subtract_spectrum spectrum_xdata background_xdata)
      end in
    ret (Some background_xdata, Some subtracted_xdata)
  else ret locals.

Definition execute
    (eels_spectrum_data_item : DataItem) (background_model : DataStructure)
    (fit_interval_graphics : list Graphic)
  : Method Self unit :=
  let* spectrum_xdata := assert_object (xdata eels_spectrum_data_item) in
  assert (is_datum_1d spectrum_xdata) ;;
  let* calibration := lift (first_item (datum_dimensional_calibrations spectrum_xdata)) in
  assert (str_eq (units calibration) "eV") ;;
  let fit_intervals := collect_fit_intervals fit_interval_graphics in
  let* fit_minimum := lift (Py.min (map fst fit_intervals)) in
  let signal_interval := (fit_minimum, 1%float) in
  let* signal_xdata := lift (get_calibrated_interval_slice spectrum_xdata signal_interval) in
  let the_background_model_id := structure_type background_model in
  let* w := gets snd in
  let* locals :=
    for_fold (get_components_by_type (registry w) "background-model") (None, None)
      (execute_component spectrum_xdata fit_intervals signal_interval
                         the_background_model_id) in
  let background_xdata :=
    match locals.1 with
    | Some background_xdata => background_xdata
    | None =>
        new_data_and_metadata (numpy_zeros_like (data signal_xdata))
          (Some (intensity_calibration signal_xdata))
          (Some (dimensional_calibrations signal_xdata))
    end in
  let subtracted_xdata :=
    match locals.2 with
    | Some subtracted_xdata => subtracted_xdata
    | None =>
        new_data_and_metadata (data signal_xdata)
          (Some (intensity_calibration signal_xdata))
          (Some (dimensional_calibrations signal_xdata))
    end in
  set___background_xdata background_xdata ;;
  set___subtracted_xdata subtracted_xdata.

Definition commit : Method Self unit :=
  let* self := gets fst in
  let* background_xdata := assert_object (__background_xdata self) in
  let* subtracted_xdata := assert_object (__subtracted_xdata self) in
  set_referenced_xdata "background" background_xdata ;;
  set_referenced_xdata "subtracted" subtracted_xdata.

End Handler.
End EELSFitBackground.

(* ===================================================================== *)
(** * class EELSSubtractBackground                                         *)
(* ===================================================================== *)

Module EELSSubtractBackground.
Section Handler.
Context `{DataAPI}.

(** [__init__] does not create the buffer attribute: [None] below is an
    attribute that does not exist yet, and reading it is an
    [AttributeError]. *)
Record Self : Type := {
  __subtracted_xdata : option DataAndMetadata
}.

Definition __init__ : Self := {| __subtracted_xdata := None |}.

Definition set___subtracted_xdata (v : DataAndMetadata) : Method Self unit :=
  modify (fun sw => ({| __subtracted_xdata := Some v |}, sw.2)).

Definition get___subtracted_xdata : Method Self DataAndMetadata :=
  let* self := gets fst in
  match __subtracted_xdata self with
  | Some v => ret v
  | None => raise (AttributeError "_EELSSubtractBackground__subtracted_xdata")
  end.

Definition execute_component
    (spectrum_image_xdata : DataAndMetadata) (fit_intervals : list interval_t)
    (the_background_model_id : string)
    (subtracted_xdata : option DataAndMetadata) (component : Component)
  : Method Self (option DataAndMetadata) :=
  if str_eq the_background_model_id (background_model_id component) then
    call (CallSubtractBackground component) ;;
    let* integrate_result :=
      lift (subtract_background_method component spectrum_image_xdata fit_intervals) in
    let* subtracted := lift (getitem integrate_result "subtracted") in
    ret (Some subtracted)
  else ret subtracted_xdata.

Definition execute
    (spectrum_image_data_item : DataItem) (background_model : DataStructure)
    (fit_interval_graphics : list Graphic)
  : Method Self unit :=
  let* spectrum_image_xdata := assert_object (xdata spectrum_image_data_item) in
  assert (is_datum_1d spectrum_image_xdata) ;;
  assert (is_navigable spectrum_image_xdata) ;;
  let* calibration :=
    lift (first_item (datum_dimensional_calibrations spectrum_image_xdata)) in
  assert (str_eq (units calibration) "eV") ;;
  let fit_intervals := collect_fit_intervals fit_interval_graphics in
  let the_background_model_id := structure_type background_model in
  let* w := gets snd in
  let* subtracted_xdata :=
    for_fold (get_components_by_type (registry w) "background-model") None
      (execute_component spectrum_image_xdata fit_intervals the_background_model_id) in
  let subtracted_xdata :=
    match subtracted_xdata with
    | Some subtracted_xdata => subtracted_xdata
    | None =>
        new_data_and_metadata
          (numpy_zeros (navigation_dimension_shape spectrum_image_xdata))
          None
          (Some (navigation_dimensional_calibrations spectrum_image_xdata))
    end in
  set___subtracted_xdata subtracted_xdata.

Definition commit : Method Self unit :=
  let* subtracted_xdata := get___subtracted_xdata in
  set_referenced_xdata "subtracted" subtracted_xdata.

End Handler.
End EELSSubtractBackground.

(* ===================================================================== *)
(** * class EELSMapBackgroundSubtractedSignal                              *)
(* ===================================================================== *)

Module EELSMapBackgroundSubtractedSignal.
Section Handler.
Context `{DataAPI}.

Record Self : Type := {
  __mapped_xdata : option DataAndMetadata
}.

Definition __init__ : Self := {| __mapped_xdata := None |}.

Definition set___mapped_xdata (v : DataAndMetadata) : Method Self unit :=
  modify (fun sw => ({| __mapped_xdata := Some v |}, sw.2)).

Definition get___mapped_xdata : Method Self DataAndMetadata :=
  let* self := gets fst in
  match __mapped_xdata self with
  | Some v => ret v
  | None => raise (AttributeError "_EELSMapBackgroundSubtractedSignal__mapped_xdata")
  end.

Definition execute_component
    (spectrum_image_xdata : DataAndMetadata)
    (eels_spectrum_xdata : option DataAndMetadata)
    (fit_intervals : list interval_t) (signal_interval : interval_t)
    (the_background_model_id : string)
    (mapped_xdata : option DataAndMetadata) (component : Component)
  : Method Self (option DataAndMetadata) :=
  if str_eq the_background_model_id (background_model_id component) then
    call (CallIntegrateSignal component) ;;
    let* integrate_result :=
      lift (integrate_signal component spectrum_image_xdata eels_spectrum_xdata
              fit_intervals signal_interval) in
    let* integrated := lift (getitem integrate_result "integrated") in
    ret (Some integrated)
  else ret mapped_xdata.

(** The optional [eels_spectrum_data_item] input and its three checks. *)
Definition check_eels_spectrum (eels_spectrum_data_item : option DataItem)
  : Method Self (option DataAndMetadata) :=
  match eels_spectrum_data_item with
  | Some eels_spectrum_data_item =>
      let* eels_spectrum_xdata := assert_object (xdata eels_spectrum_data_item) in
      assert (is_datum_1d eels_spectrum_xdata) ;;
      let* calibration :=
        lift (first_item (datum_dimensional_calibrations eels_spectrum_xdata)) in
      assert (str_eq (units calibration) "eV") ;;
      ret (Some eels_spectrum_xdata)
  | None => ret None
  end.

(** [execute] takes keyword arguments only: the four keywords read with
    [kwargs[...]] are arguments here, the one read with [kwargs.get] is
    optional. *)
Definition execute
    (spectrum_image_data_item : DataItem) (background_model : DataStructure)
    (fit_interval_graphics : list Graphic) (signal_interval_graphic : Graphic)
    (eels_spectrum_data_item : option DataItem)
  : Method Self unit :=
  let* spectrum_image_xdata := assert_object (xdata spectrum_image_data_item) in
  assert (is_datum_1d spectrum_image_xdata) ;;
  assert (is_navigable spectrum_image_xdata) ;;
  let* calibration :=
    lift (first_item (datum_dimensional_calibrations spectrum_image_xdata)) in
  assert (str_eq (units calibration) "eV") ;;
  let* eels_spectrum_xdata := check_eels_spectrum eels_spectrum_data_item in
  let fit_intervals := collect_fit_intervals fit_interval_graphics in
  let signal_interval := normalized_interval (interval signal_interval_graphic) in
  let the_background_model_id := structure_type background_model in
  let* w := gets snd in
  let* mapped_xdata :=
    for_fold (get_components_by_type (registry w) "background-model") None
      (execute_component spectrum_image_xdata eels_spectrum_xdata fit_intervals
                         signal_interval the_background_model_id) in
  let mapped_xdata :=
    match mapped_xdata with
    | Some mapped_xdata => mapped_xdata
    | None =>
        new_data_and_metadata
          (numpy_zeros (navigation_dimension_shape spectrum_image_xdata))
          None
          (Some (navigation_dimensional_calibrations spectrum_image_xdata))
    end in
  set___mapped_xdata mapped_xdata.

Definition commit : Method Self unit :=
  let* mapped_xdata := get___mapped_xdata in
  set_referenced_xdata "map" mapped_xdata.

End Handler.
End EELSMapBackgroundSubtractedSignal.

(* ===================================================================== *)
(** * Registration of the computation types                                *)
(* ===================================================================== *)

(** The three handler classes, as the host's registry of computation
    types stores them. *)
Inductive HandlerClass : Set :=
| EELSFitBackground
| EELSSubtractBackground
| EELSMapBackgroundSubtractedSignal.

Global Instance HandlerClass_eq_dec : EqDecision HandlerClass.
Proof. solve_decision. Defined.

(** [Symbolic._computation_types]: processing id to handler class *)
Abbreviation ComputationTypes := (gmap string HandlerClass).

(** [Symbolic.register_computation_type(computation_type_id, compute_class)] *)
Definition register_computation_type (computation_type_id : string)
    (compute_class : HandlerClass) (types : ComputationTypes) : ComputationTypes :=
  <[computation_type_id := compute_class]> types.

(** The registrations made when the module is loaded, in order. *)
Definition module_registrations : list (string * HandlerClass) :=
  [ ("eels.background_subtraction3", EELSFitBackground);
    ("eels.mapping3", EELSMapBackgroundSubtractedSignal);
    ("eels.subtract_background", EELSSubtractBackground) ].

Definition register_computation_types (types : ComputationTypes) : ComputationTypes :=
  fold_left (fun types registration =>
               register_computation_type registration.1 registration.2 types)
            module_registrations types.

Section HandlerProtocol.
Context `{DataAPI}.

(** The inputs the host passes to [execute] by keyword. *)
Record Inputs : Type := {
  kw_eels_spectrum_data_item : option DataItem;
  kw_spectrum_image_data_item : option DataItem;
  kw_background_model : option DataStructure;
  kw_fit_interval_graphics : option (list Graphic);
  kw_signal_interval_graphic : option Graphic
}.

(** [Symbolic.ComputationHandlerLike]: what the host requires of a handler
    object, namely a constructor and the two phases. A missing mandatory
    keyword is a [TypeError] (a named parameter) or a [KeyError]
    ([kwargs[...]]). *)
Record ComputationHandlerLike : Type := {
  handler_self : Type;
  handler_init : handler_self;
  handler_execute : Inputs -> Method handler_self unit;
  handler_commit : Method handler_self unit
}.

Definition handler_of (c : HandlerClass) : ComputationHandlerLike :=
  match c with
  | EELSFitBackground =>
      {| handler_self := EELSFitBackground.Self;
         handler_init := EELSFitBackground.__init__;
         handler_execute := fun kwargs =>
           match kw_eels_spectrum_data_item kwargs, kw_background_model kwargs,
                 kw_fit_interval_graphics kwargs with
           | Some d, Some m, Some gs => EELSFitBackground.execute d m gs
           | _, _, _ => raise TypeError
           end;
         handler_commit := EELSFitBackground.commit |}
  | EELSSubtractBackground =>
      {| handler_self := EELSSubtractBackground.Self;
         handler_init := EELSSubtractBackground.__init__;
         handler_execute := fun kwargs =>
           match kw_spectrum_image_data_item kwargs, kw_background_model kwargs,
                 kw_fit_interval_graphics kwargs with
           | Some d, Some m, Some gs => EELSSubtractBackground.execute d m gs
           | _, _, _ => raise TypeError
           end;
         handler_commit := EELSSubtractBackground.commit |}
  | EELSMapBackgroundSubtractedSignal =>
      {| handler_self := EELSMapBackgroundSubtractedSignal.Self;
         handler_init := EELSMapBackgroundSubtractedSignal.__init__;
         handler_execute := fun kwargs =>
           match kw_spectrum_image_data_item kwargs with
           | None => raise (KeyError "spectrum_image_data_item")
           | Some d =>
           match kw_background_model kwargs with
           | None => raise (KeyError "background_model")
           | Some m =>
           match kw_fit_interval_graphics kwargs with
           | None => raise (KeyError "fit_interval_graphics")
           | Some gs =>
           match kw_signal_interval_graphic kwargs with
           | None => raise (KeyError "signal_interval_graphic")
           | Some g =>
               EELSMapBackgroundSubtractedSignal.execute d m gs g
                 (kw_eels_spectrum_data_item kwargs)
           end end end end;
         handler_commit := EELSMapBackgroundSubtractedSignal.commit |}
  end.

End HandlerProtocol.

(* ===================================================================== *)
(** * Schema entities for registered background models                     *)
(* ===================================================================== *)

(** [Schema.EntityType] as built by [Schema.entity(entity_id, base, version,
    field_type_map)]; the plug-in always passes version [None] and an
    empty field map. *)
#[local] Set Warnings "-register-all".
Inductive EntityType : Type :=
| entity (entity_id : string) (base : option EntityType)
         (version : option nat) (field_type_map : list (string * string)).

Definition entity_id_of (e : EntityType) : string :=
  match e with entity entity_id _ _ _ => entity_id end.

Definition base_of (e : EntityType) : option EntityType :=
  match e with entity _ base _ _ => base end.

(** The value of the module's [BackgroundModelEntity]. *)
Definition BackgroundModelEntity : EntityType :=
  entity "background_model" None None [].

(** One call [DataStructure.register_entity(entity, entity_name=,
    entity_package_name=)]. *)
Record EntityRegistration : Type := {
  registered_entity : EntityType;
  entity_name : string;
  entity_package_name : string
}.

(** The entity types registered with [DataStructure.DataStructure], in
    registration order. *)
Definition EntityRegistry : Type := list EntityRegistration.

(** The host's two tables: the entity types that [Schema] knows, by
    their id, and the entities registered with
    [DataStructure.DataStructure]. *)
Record Entities : Type := {
  schema_entity_types : gmap string EntityType;
  data_structure_entities : EntityRegistry
}.

(** [Schema.entity(entity_id, base, version, field_type_map)]: the host
    asserts that no entity type has the id yet, makes the entity type
    and enters it in its table. *)
Definition Schema_entity (entity_id : string) (base : option EntityType)
    (version : option nat) (field_type_map : list (string * string))
  : M Entities EntityType :=
  let* entities := get in
  match schema_entity_types entities !! entity_id with
  | Some _ => raise AssertionError
  | None =>
      let entity_type := entity entity_id base version field_type_map in
      modify (fun entities =>
        {| schema_entity_types :=
             <[entity_id := entity_type]> (schema_entity_types entities);
           data_structure_entities := data_structure_entities entities |}) ;;
      ret entity_type
  end.

Definition register_entity (e : EntityType) (name package_name : string)
  : M Entities unit :=
  modify (fun entities =>
    {| schema_entity_types := schema_entity_types entities;
       data_structure_entities :=
         (data_structure_entities entities
          ++ [ {| registered_entity := e;
                  entity_name := name;
                  entity_package_name := package_name |} ])%list |}).

Section ComponentRegistered.
Context `{DataAPI}.

Definition component_registered (component : Component) (component_types : gset string)
  : M Entities unit :=
  if bool_decide ("background-model" ∈ component_types) then
    let* background_model_entity :=
      Schema_entity (background_model_id component) (Some BackgroundModelEntity)
                    None [] in
    register_entity background_model_entity (title component) (package_title component)
  else ret tt.

(** The end of the module: components registered before the plug-in was
    loaded are replayed through [component_registered]. *)
Definition replay_registered_components (registry : Registry) : M Entities unit :=
  for_each (get_components_by_type registry "background-model") (fun component =>
    component_registered component {["background-model"]}).

(** The statements of the module that make entities, in the order in
    which they are run when it is loaded: [BackgroundModelEntity] is
    made, then the components already registered are replayed. *)
Definition load_entities (registry : Registry) : M Entities unit :=
  let* module_BackgroundModelEntity := Schema_entity "background_model" None None [] in
  replay_registered_components registry.

End ComponentRegistered.

(* ===================================================================== *)
(** * The host's document model                                            *)
(* ===================================================================== *)

Section Document.
Context `{DataAPI}.

(** The inputs of a computation, by the names the handler classes declare
    in their [inputs] tables. An input that a computation does not have
    reads as [None]; the list of fit interval graphics reads as a list. *)
Record ComputationInputs : Type := {
  in_eels_spectrum_data_item : option ref;
  in_spectrum_image_data_item : option ref;
  in_background_model : option ref;
  in_fit_interval_graphics : list ref;
  in_signal_interval_graphic : option ref
}.

(** [Symbolic.Computation] *)
Record Computation : Type := {
  processing_id : string;
  inputs : ComputationInputs;
  outputs : dict ref
}.

(** [computation.get_output(name)] *)
Definition get_output (computation : Computation) (name : string) : option ref :=
  outputs computation !! name.

(** The calls that the plug-in makes on a display item. The first adds a
    data item to those the display item shows; the others arrange its
    layers, which the plug-in never reads back. *)
Inductive DisplayCall : Type :=
| append_display_data_channel_for_data_item (data_item : ref)
| move_display_layer_at_index_backward (index : nat)
| _set_display_layer_properties (index : nat) (layer_label fill_color : string)
| set_display_property (property value : string).

(** [DisplayItem.DisplayItem] *)
Record DisplayItem : Type := {
  display_data_items : list ref;
  selected_graphics : list ref;
  display_calls : list DisplayCall
}.

(** [DocumentModel.DocumentModel]: the object stores and the document's
    lists. [next_ref] is the reference of the next object created. *)
Record DocumentModel : Type := {
  data_item_at : ref -> DataItem;
  data_structure_at : ref -> DataStructure;
  graphic_at : ref -> Graphic;
  display_item_at : ref -> DisplayItem;
  next_ref : ref;
  data_items : list ref;
  data_structures : list ref;
  computations : list Computation
}.

(** [Facade.DocumentWindow]: the two targets that the plug-in reads, and
    the data items it asked the window to display. *)
Record DocumentWindow : Type := {
  target_data_item : option ref;
  target_display : option ref;
  displayed : list ref
}.

Record Session : Type := {
  document_model : DocumentModel;
  window : DocumentWindow
}.

Definition update {A} (store : ref -> A) (r : ref) (a : A) : ref -> A :=
  fun r' => if Nat.eqb r' r then a else store r'.

Definition on_document (f : DocumentModel -> DocumentModel) : M Session unit :=
  modify (fun s => {| document_model := f (document_model s); window := window s |}).

Definition on_window (f : DocumentWindow -> DocumentWindow) : M Session unit :=
  modify (fun s => {| document_model := document_model s; window := f (window s) |}).

Definition document : M Session DocumentModel := gets document_model.

(** [api.library.create_data_item()] and
    [api.library.create_data_item_from_data(array)]: a new data item is
    made and appended to the document. *)
Definition add_data_item (item : DataItem) : M Session ref :=
  let* d := document in
  let r := next_ref d in
  on_document (fun d =>
    {| data_item_at := update (data_item_at d) r item;
       data_structure_at := data_structure_at d;
       graphic_at := graphic_at d;
       display_item_at := display_item_at d;
       next_ref := S (next_ref d);
       data_items := data_items d ++ [r];
       data_structures := data_structures d;
       computations := computations d |}) ;;
  ret r.

Definition create_data_item : M Session ref := add_data_item new_data_item.

Definition create_data_item_from_data (array : ndarray) : M Session ref :=
  add_data_item (new_data_item_from_data array).

(** [DataStructure.DataStructure(structure_type=...)]: a new object that
    is not yet part of the document. *)
Definition new_DataStructure (the_structure_type : string) : M Session ref :=
  let* d := document in
  let r := next_ref d in
  on_document (fun d =>
    {| data_item_at := data_item_at d;
       data_structure_at :=
         update (data_structure_at d) r
                {| structure_type := the_structure_type; source := None |};
       graphic_at := graphic_at d;
       display_item_at := display_item_at d;
       next_ref := S (next_ref d);
       data_items := data_items d;
       data_structures := data_structures d;
       computations := computations d |}) ;;
  ret r.

(** [document_model.append_data_structure(data_structure)] *)
Definition append_data_structure (data_structure : ref) : M Session unit :=
  on_document (fun d =>
    {| data_item_at := data_item_at d;
       data_structure_at := data_structure_at d;
       graphic_at := graphic_at d;
       display_item_at := display_item_at d;
       next_ref := next_ref d;
       data_items := data_items d;
       data_structures := data_structures d ++ [data_structure];
       computations := computations d |}).

Definition set_data_structure (r : ref) (f : DataStructure -> DataStructure)
  : M Session unit :=
  on_document (fun d =>
    {| data_item_at := data_item_at d;
       data_structure_at := update (data_structure_at d) r (f (data_structure_at d r));
       graphic_at := graphic_at d;
       display_item_at := display_item_at d;
       next_ref := next_ref d;
       data_items := data_items d;
       data_structures := data_structures d;
       computations := computations d |}).

(** [data_structure.source = data_item] *)
Definition set_source (data_structure : ref) (data_item : ref) : M Session unit :=
  set_data_structure data_structure (fun s =>
    {| structure_type := structure_type s; source := Some data_item |}).

Definition set_graphic (r : ref) (f : Graphic -> Graphic) : M Session unit :=
  on_document (fun d =>
    {| data_item_at := data_item_at d;
       data_structure_at := data_structure_at d;
       graphic_at := update (graphic_at d) r (f (graphic_at d r));
       display_item_at := display_item_at d;
       next_ref := next_ref d;
       data_items := data_items d;
       data_structures := data_structures d;
       computations := computations d |}).

(** [graphic.graphic_id = value] *)
Definition set_graphic_id (graphic : ref) (value : string) : M Session unit :=
  set_graphic graphic (fun g =>
    {| graphic_type := graphic_type g; graphic_id := Some value;
       label := label g; interval := interval g |}).

(** [graphic.label = value] *)
Definition set_label (graphic : ref) (value : string) : M Session unit :=
  set_graphic graphic (fun g =>
    {| graphic_type := graphic_type g; graphic_id := graphic_id g;
       label := Some value; interval := interval g |}).

(** [api.library.create_computation(processing_id, inputs=..., outputs=...)] *)
Definition create_computation (the_processing_id : string)
    (the_inputs : ComputationInputs) (the_outputs : dict ref) : M Session unit :=
  on_document (fun d =>
    {| data_item_at := data_item_at d;
       data_structure_at := data_structure_at d;
       graphic_at := graphic_at d;
       display_item_at := display_item_at d;
       next_ref := next_ref d;
       data_items := data_items d;
       data_structures := data_structures d;
       computations :=
         computations d ++ [ {| processing_id := the_processing_id;
                                inputs := the_inputs;
                                outputs := the_outputs |} ] |}).

(** [display_item.data_item]: the data item of a display item that shows
    exactly one. *)
Definition data_item_of (shown : list ref) : option ref :=
  match shown with
  | [data_item] => Some data_item
  | _ => None
  end.

(** A call on [display_item._display_item]. The host records every call
    in the layers of the display item; the plug-in never reads the
    layers back. [append_display_data_channel_for_data_item] also adds
    the data item to the data items of the display item, which
    [subtract_background] and [use_signal_for_map] read, and the
    window's target data item follows the target display: it is the
    data item of that display when it shows exactly one. *)
Definition display_call (display_item : ref) (c : DisplayCall) : M Session unit :=
  modify (fun s =>
    let d := document_model s in
    let shown :=
      match c with
      | append_display_data_channel_for_data_item data_item =>
          display_data_items (display_item_at d display_item) ++ [data_item]
      | _ => display_data_items (display_item_at d display_item)
      end in
    {| document_model :=
         {| data_item_at := data_item_at d;
            data_structure_at := data_structure_at d;
            graphic_at := graphic_at d;
            display_item_at :=
              update (display_item_at d) display_item
                {| display_data_items := shown;
                   selected_graphics := selected_graphics (display_item_at d display_item);
                   display_calls :=
                     display_calls (display_item_at d display_item) ++ [c] |};
            next_ref := next_ref d;
            data_items := data_items d;
            data_structures := data_structures d;
            computations := computations d |};
       window :=
         match c with
         | append_display_data_channel_for_data_item _ =>
             if bool_decide (target_display (window s) = Some display_item)
             then {| target_data_item := data_item_of shown;
                     target_display := target_display (window s);
                     displayed := displayed (window s) |}
             else window s
         | _ => window s
         end |}).

(** [window.display_data_item(data_item)] *)
Definition display_data_item (data_item : ref) : M Session unit :=
  on_window (fun w =>
    {| target_data_item := target_data_item w;
       target_display := target_display w;
       displayed := displayed w ++ [data_item] |}).

(** [x in data_items] for an optional object [x] and a list of data items. *)
Definition is_in (x : option ref) (items : list ref) : bool :=
  match x with
  | Some r => bool_decide (r ∈ items)
  | None => false
  end.

(* ===================================================================== *)
(** * The menu actions of BackgroundSubtraction.py                         *)
(* ===================================================================== *)

(** [gettext.gettext], the translation of user-visible text. *)
Variable gettext : string -> string.

(** [document_model.get_source_data_items(data_item)]: the host derives
    the sources of a data item from its document. *)
Variable get_source_data_items : DocumentModel -> ref -> list ref.

Definition add_background_subtraction_computation
    (display_item : ref) (data_item : ref) (intervals : list ref) : M Session unit :=
  let* background := create_data_item in
  let* signal := create_data_item in
  let* background_model := new_DataStructure "power_law_fit_background_model" in
  append_data_structure background_model ;;
  set_source background_model background ;;
  create_computation "eels.background_subtraction3"
    {| in_eels_spectrum_data_item := Some data_item;
       in_spectrum_image_data_item := None;
       in_background_model := Some background_model;
       in_fit_interval_graphics := intervals;
       in_signal_interval_graphic := None |}
    {[ "background" := background; "subtracted" := signal ]} ;;
  for_each intervals (fun target_interval =>
    set_graphic_id target_interval "background" ;;
    set_label target_interval (gettext "Background")) ;;
  display_call display_item (append_display_data_channel_for_data_item background) ;;
  display_call display_item (append_display_data_channel_for_data_item signal) ;;
  display_call display_item (move_display_layer_at_index_backward 0) ;;
  display_call display_item (move_display_layer_at_index_backward 1) ;;
  display_call display_item
    (_set_display_layer_properties 0 (gettext "Background") "rgba(255, 0, 0, 0.3)") ;;
  display_call display_item (_set_display_layer_properties 1 (gettext "Signal") "#0F0") ;;
  display_call display_item (_set_display_layer_properties 2 (gettext "Data") "#1E90FF") ;;
  display_call display_item (set_display_property "legend_position" "top-right").

(** [[graphic for graphic in display.selected_graphics
      if graphic.graphic_type == "interval-graphic"]] *)
Definition selected_intervals (d : DocumentModel) (display_item : ref) : list ref :=
  List.filter (fun graphic => str_eq (graphic_type (graphic_at d graphic)) "interval-graphic")
              (selected_graphics (display_item_at d display_item)).

Definition subtract_background_from_signal : M Session unit :=
  let* s := get in
  match target_display (window s), target_data_item (window s) with
  | Some target_display_item, Some the_target_data_item =>
      let target_intervals := selected_intervals (document_model s) target_display_item in
      match target_intervals with
      | _ :: _ =>
          add_background_subtraction_computation target_display_item
            the_target_data_item target_intervals
      | [] => ret tt
      end
  | _, _ => ret tt
  end.

(** The first test on a computation in the loops of [subtract_background]
    and [use_signal_for_map]. *)
Definition is_displayed_background_subtraction (target_display_item_data_items : list ref)
    (computation : Computation) : bool :=
  str_eq (processing_id computation) "eels.background_subtraction3"
  && (is_in (in_eels_spectrum_data_item (inputs computation)) target_display_item_data_items
      && is_in (get_output computation "subtracted") target_display_item_data_items).

(** The body run for the first computation that passes the test, up to
    the [break]. *)
Definition subtract_background_body (computation : Computation) : M Session unit :=
  match in_eels_spectrum_data_item (inputs computation) with
  | None => raise (AttributeError "_data_item")
  | Some eels_spectrum_data_item =>
      let fit_interval_graphics := in_fit_interval_graphics (inputs computation) in
      let background_model := in_background_model (inputs computation) in
      let* d := document in
      let source_data_items := get_source_data_items d eels_spectrum_data_item in
      match source_data_items with
      | [source_data_item] =>
          let* source_xdata := assert_object (xdata (data_item_at d source_data_item)) in
          if is_navigable source_xdata
             && Nat.eqb (datum_dimension_count (data_item_at d source_data_item)) 1
          then
            let spectrum_image := source_data_item in
            let* subtracted :=
              create_data_item_from_data
                (numpy_zeros (navigation_dimension_shape source_xdata)) in
            create_computation "eels.subtract_background"
              {| in_eels_spectrum_data_item := None;
                 in_spectrum_image_data_item := Some spectrum_image;
                 in_background_model := background_model;
                 in_fit_interval_graphics := fit_interval_graphics;
                 in_signal_interval_graphic := None |}
              {[ "subtracted" := subtracted ]} ;;
            display_data_item subtracted
          else ret tt
      | _ => ret tt
      end
  end.

(** [for computation in ...computations:] with its [break] *)
Fixpoint for_first {S A} (test : A -> bool) (l : list A) (body : A -> M S unit)
  : M S unit :=
  match l with
  | [] => ret tt
  | x :: l' => if test x then body x else for_first test l' body
  end.

Definition subtract_background : M Session unit :=
  let* s := get in
  match target_display (window s) with
  | Some the_target_display =>
      let target_display_item_data_items :=
        display_data_items (display_item_at (document_model s) the_target_display) in
      for_first (is_displayed_background_subtraction target_display_item_data_items)
        (computations (document_model s)) subtract_background_body
  | None => ret tt
  end.

Definition use_signal_for_map_body (target_interval : ref) (computation : Computation)
  : M Session unit :=
  match in_eels_spectrum_data_item (inputs computation) with
  | None => raise (AttributeError "_data_item")
  | Some eels_spectrum_data_item =>
      let fit_interval_graphics := in_fit_interval_graphics (inputs computation) in
      let background_model := in_background_model (inputs computation) in
      let* d := document in
      let source_data_items := get_source_data_items d eels_spectrum_data_item in
      match source_data_items with
      | [source_data_item] =>
          let* source_xdata := assert_object (xdata (data_item_at d source_data_item)) in
          if is_navigable source_xdata
             && Nat.eqb (datum_dimension_count (data_item_at d source_data_item)) 1
          then
            let spectrum_image := source_data_item in
            let* map :=
              create_data_item_from_data
                (numpy_zeros (navigation_dimension_shape source_xdata)) in
            let signal_interval_graphic := target_interval in
            create_computation "eels.mapping3"
              {| in_eels_spectrum_data_item := Some eels_spectrum_data_item;
                 in_spectrum_image_data_item := Some spectrum_image;
                 in_background_model := background_model;
                 in_fit_interval_graphics := fit_interval_graphics;
                 in_signal_interval_graphic := Some signal_interval_graphic |}
              {[ "map" := map ]} ;;
            display_data_item map
          else ret tt
      | _ => ret tt
      end
  end.

Definition use_signal_for_map : M Session unit :=
  let* s := get in
  let d := document_model s in
  match target_display (window s) with
  | Some the_target_display =>
      let target_graphic :=
        match selected_graphics (display_item_at d the_target_display) with
        | [g] => Some g
        | _ => None
        end in
      let target_interval :=
        match target_graphic with
        | Some g =>
            if str_eq (graphic_type (graphic_at d g)) "interval-graphic"
            then Some g else None
        | None => None
        end in
      match target_interval with
      | Some target_interval =>
          let target_display_item_data_items :=
            display_data_items (display_item_at d the_target_display) in
          for_first (is_displayed_background_subtraction target_display_item_data_items)
            (computations d) (use_signal_for_map_body target_interval)
      | None => ret tt
      end
  | None => ret tt
  end.

End Document.

(* ===================================================================== *)
(** * PlugIns/EELS/UI.py                                                   *)
(* ===================================================================== *)

Module UI.
Section Menus.

(** [gettext.gettext] *)
Variable gettext : string -> string.

(** The bodies of the seven [lambda]s of [build_menus]: a call of one of
    the module's processing functions on the document controller the
    menu was built for, with the energy windows of [filter_element]. *)
Inductive ProcessingCall : Type :=
| processing_extract_signal (document_controller : ref)
| processing_subtract_linear_background (document_controller : ref)
| processing_subtract_background_signal (document_controller : ref)
| show_color_channels (document_controller : ref)
| filter_channel (document_controller : ref)
| filter_element (document_controller : ref) (f s : Z * Z).

Record MenuItem : Type := {
  menu_title : string;
  triggers : ProcessingCall
}.

Record DocumentController : Type := {
  controller : ref;
  processing_menu : list MenuItem
}.

(** [menu.add_menu_item(title, callback)] on the processing menu *)
Definition add_menu_item (title : string) (callback : ProcessingCall)
    (document_controller : DocumentController) : DocumentController :=
  {| controller := controller document_controller;
     processing_menu :=
       processing_menu document_controller
         ++ [ {| menu_title := title; triggers := callback |} ] |}.

Definition build_menus (document_controller : DocumentController) : DocumentController :=
  let dc := controller document_controller in
  let document_controller :=
    add_menu_item (gettext "Subtract Linear Background")
      (processing_subtract_linear_background dc) document_controller in
  let document_controller :=
    add_menu_item (gettext "Subtract Background Signal")
      (processing_subtract_background_signal dc) document_controller in
  let document_controller :=
    add_menu_item (gettext "Extract Signal")
      (processing_extract_signal dc) document_controller in
  let document_controller :=
    add_menu_item (gettext "Show Color Channels")
      (show_color_channels dc) document_controller in
  let document_controller :=
    add_menu_item (gettext "Filter Channel")
      (filter_channel dc) document_controller in
  let document_controller :=
    add_menu_item (gettext "Elemental Map (Si K)")
      (filter_element dc (1700, 1800)%Z (1839, 2039)%Z) document_controller in
  add_menu_item (gettext "Elemental Map (Ga L)")
    (filter_element dc (1100, 1200)%Z (1220, 1420)%Z) document_controller.

(** [Application.app]: the running application and its menu handlers. *)
Record Application : Type := {
  menu_handlers : list (DocumentController -> DocumentController)
}.

(** [app.register_menu_handler(handler)] *)
Definition register_menu_handler
    (handler : DocumentController -> DocumentController) (app : Application)
  : Application :=
  {| menu_handlers := menu_handlers app ++ [handler] |}.

(** What the [try: from nion.swift import ...] block finds: the imports
    raise [ImportError], or they succeed and [Application.app] is the
    running application or [None]. *)
Inductive Imports : Type :=
| ImportError
| Imported (app : option Application).

Definition import_ok (imports : Imports) : bool :=
  match imports with
  | ImportError => false
  | Imported _ => true
  end.

Definition Application_app (imports : Imports) : option Application :=
  match imports with
  | ImportError => None
  | Imported app => app
  end.

(** The statements run when the module is imported,
    [if import_ok and Application.app is not None:
         Application.app.register_menu_handler(build_menus)];
    the result is the state of the host's modules afterwards. *)
Definition import_module (imports : Imports) : Imports :=
  if import_ok imports then
    match Application_app imports with
    | Some app => Imported (Some (register_menu_handler build_menus app))
    | None => imports
    end
  else imports.

(** The menu handlers registered with the host, if any. *)
Definition registered_menu_handlers (imports : Imports)
  : list (DocumentController -> DocumentController) :=
  match imports with
  | Imported (Some app) => menu_handlers app
  | _ => []
  end.

End Menus.
End UI.

(* ===================================================================== *)
(** * A small implementation of the data API                               *)
(* ===================================================================== *)

(** Arrays are a shape with their cells, calibrations are their units,
    and an [xdata] records how many of its leading dimensions are
    navigation dimensions. The statements below are instantiated on it. *)
Module Sample.

Record array : Type := {
  shape : list nat;
  cells : list float
}.

Record sample_xdata : Type := {
  x_data : array;
  x_intensity : string;
  x_dimensional : list string;
  x_navigation : nat
}.

Definition zeros (the_shape : list nat) : array :=
  {| shape := the_shape; cells := repeat 0%float (fold_right Nat.mul 1 the_shape) |}.

Definition zeros_like (a : array) : array :=
  {| shape := shape a; cells := repeat 0%float (length (cells a)) |}.

Definition make_xdata (a : array) (intensity : option string)
    (dimensional : option (list string)) : sample_xdata :=
  {| x_data := a;
     x_intensity := default "" intensity;
     x_dimensional := default (map (fun _ => "") (shape a)) dimensional;
     x_navigation := 0 |}.

#[export] Instance api : DataAPI := {|
  Calibration := string;
  units := fun u => u;
  ndarray := array;
  DataAndMetadata := sample_xdata;
  data := x_data;
  intensity_calibration := x_intensity;
  dimensional_calibrations := x_dimensional;
  is_datum_1d := fun x => Nat.eqb (length (x_dimensional x) - x_navigation x) 1;
  is_navigable := fun x => Nat.ltb 0 (x_navigation x);
  datum_dimensional_calibrations := fun x => drop (x_navigation x) (x_dimensional x);
  navigation_dimension_shape := fun x => take (x_navigation x) (shape (x_data x));
  navigation_dimensional_calibrations := fun x => take (x_navigation x) (x_dimensional x);
  numpy_zeros := zeros;
  numpy_zeros_like := zeros_like;
  new_data_and_metadata := make_xdata;
  get_calibrated_interval_slice := fun x _ => Ret x;
  calibrated_subtract_spectrum := fun x _ => Ret x;
  DataItem := option sample_xdata * nat;
  xdata := fst;
  datum_dimension_count := snd;
  new_data_item := (None, 0);
  new_data_item_from_data := fun a => (Some (make_xdata a None None), length (shape a))
|}.

(** A spectrum of three channels calibrated in eV. *)
Definition spectrum : DataAndMetadata :=
  {| x_data := {| shape := [3]; cells := [5; 4; 3]%float |};
     x_intensity := "counts";
     x_dimensional := ["eV"];
     x_navigation := 0 |}.

(** A spectrum image: two by two pixels of three channels. *)
Definition spectrum_image : DataAndMetadata :=
  {| x_data := {| shape := [2; 2; 3]; cells := repeat 1%float 12 |};
     x_intensity := "counts";
     x_dimensional := ["nm"; "nm"; "eV"];
     x_navigation := 2 |}.

Definition spectrum_item : DataItem := (Some spectrum, 1).
Definition spectrum_image_item : DataItem := (Some spectrum_image, 1).
Definition empty_item : DataItem := (None, 0).

Definition fit_graphic : Graphic :=
  {| graphic_type := "interval-graphic"; graphic_id := None; label := None;
     interval := (0.5, 0.25)%float |}.

Definition signal_graphic : Graphic :=
  {| graphic_type := "interval-graphic"; graphic_id := None; label := None;
     interval := (0.625, 0.75)%float |}.

Definition power_law : DataStructure :=
  {| structure_type := "power_law_fit_background_model"; source := None |}.

(** A component that answers every request with the data it was given. *)
Definition echo_component (id : string) : Component :=
  {| background_model_id := id;
     title := "Echo";
     package_title := "Sample";
     fit_background := fun x _ _ => Ret {[ "background_model" := x ]};
     subtract_background_method := fun x _ => Ret {[ "subtracted" := x ]};
     integrate_signal := fun x _ _ _ => Ret {[ "integrated" := x ]} |}.

(** A component whose algorithms all fail. *)
Definition failing_component (id : string) : Component :=
  {| background_model_id := id;
     title := "Failing";
     package_title := "Sample";
     fit_background := fun _ _ _ => Raise (ExternalError "fit failed");
     subtract_background_method := fun _ _ => Raise (ExternalError "fit failed");
     integrate_signal := fun _ _ _ _ => Raise (ExternalError "fit failed") |}.

Definition world (the_registry : Registry) : World :=
  {| registry := the_registry; referenced_xdata := ∅; journal := [] |}.

Definition power_law_registry : Registry :=
  [ (echo_component "polynomial_background_model", {[ "background-model" ]});
    (echo_component "power_law_fit_background_model", {[ "background-model" ]});
    (echo_component "power_law_fit_background_model", {[ "other-type" ]}) ].

Definition polynomial_registry : Registry :=
  [ (echo_component "polynomial_background_model", {[ "background-model" ]}) ].

(** A document: the spectrum image [0], a spectrum [1] picked from it, the
    background [3] and the subtracted spectrum [2] computed from the
    spectrum by an ["eels.background_subtraction3"] computation with the
    fit interval [7] and the background model [5]; the display item [4]
    shows the spectrum and the subtracted spectrum and is the target of
    the window. *)
Definition background_subtraction : Computation :=
  {| processing_id := "eels.background_subtraction3";
     inputs := {| in_eels_spectrum_data_item := Some 1;
                  in_spectrum_image_data_item := None;
                  in_background_model := Some 5;
                  in_fit_interval_graphics := [7];
                  in_signal_interval_graphic := None |};
     outputs := {[ "background" := 3; "subtracted" := 2 ]} |}.

Definition document_sample : DocumentModel :=
  {| data_item_at := fun r =>
       match r with
       | 0 => spectrum_image_item
       | 1 | 2 | 3 => spectrum_item
       | _ => empty_item
       end;
     data_structure_at := fun _ => power_law;
     graphic_at := fun _ => fit_graphic;
     display_item_at := fun _ =>
       {| display_data_items := [1; 2];
          selected_graphics := [7];
          display_calls := [] |};
     next_ref := 10;
     data_items := [0; 1; 2; 3];
     data_structures := [5];
     computations := [background_subtraction] |}.

Definition session : Session :=
  {| document_model := document_sample;
     window := {| target_data_item := Some 1;
                  target_display := Some 4;
                  displayed := [] |} |}.

(** The sources of the data items of [document_sample]. *)
Definition sources (d : DocumentModel) (data_item : ref) : list ref :=
  match data_item with
  | 1 => [0]
  | 2 | 3 => [1]
  | _ => []
  end.

End Sample.

(* ===================================================================== *)
(** * Vocabulary of the statements                                         *)
(* ===================================================================== *)

(** The definitions below are not code of the plug-in: they name the
    conditions and the results that the statements about it speak of. *)

Section Vocabulary.
Context `{DataAPI}.
Variable gettext : string -> string.
Variable get_source_data_items : DocumentModel -> ref -> list ref.

(** ** The selected components and the journal *)

(** The world after further calls [cs] were journalled. *)
Definition add_calls (cs : list Call) (w : World) : World :=
  {| registry := registry w;
     referenced_xdata := referenced_xdata w;
     journal := journal w ++ cs |}.

(** The components that a handler selects: those registered under
    ["background-model"] whose [background_model_id] equals the structure
    type of the [background_model] input. *)
Definition is_selected (the_id : string) (component : Component) : bool :=
  str_eq the_id (background_model_id component).

Definition matching_components (the_registry : Registry) (the_id : string)
  : list Component :=
  List.filter (is_selected the_id) (get_components_by_type the_registry "background-model").

(** The value of the loop's local variables after the components [cs]
    all answered. *)
Definition last_result {B} (work : Component -> outcome B) (acc : B)
    (cs : list Component) : B :=
  fold_left (fun acc c => match work c with Ret b => b | Raise _ => acc end) cs acc.

(** ** The fitting handler *)

(** The fall-back buffers built from the signal slice. *)
Definition zero_background (signal_xdata : DataAndMetadata) : DataAndMetadata :=
  new_data_and_metadata (numpy_zeros_like (data signal_xdata))
    (Some (intensity_calibration signal_xdata))
    (Some (dimensional_calibrations signal_xdata)).

Definition signal_copy (signal_xdata : DataAndMetadata) : DataAndMetadata :=
  new_data_and_metadata (data signal_xdata)
    (Some (intensity_calibration signal_xdata))
    (Some (dimensional_calibrations signal_xdata)).

(** What a selected component contributes to the local variables
    [background_xdata] and [subtracted_xdata]. *)
Definition fit_work (spectrum_xdata : DataAndMetadata) (fit_intervals : list interval_t)
    (signal_interval : interval_t) (component : Component)
  : outcome (option DataAndMetadata * option DataAndMetadata) :=
  match fit_background component spectrum_xdata fit_intervals signal_interval with
  | Raise e => Raise e
  | Ret fit_result =>
      match fit_result !! "background_model" with
      | None => Raise (KeyError "background_model")
      | Some background_xdata =>
          match fit_result !! "subtracted_spectrum" with
          | Some subtracted_xdata => Ret (Some background_xdata, Some subtracted_xdata)
          | None =>
              match calibrated_subtract_spectrum spectrum_xdata background_xdata with
              | Ret subtracted_xdata => Ret (Some background_xdata, Some subtracted_xdata)
              | Raise e => Raise e
              end
          end
      end
  end.

(** The inputs pass the three assertions, there is a least fit-interval
    start, and the signal slice above it can be taken. *)
Definition fit_inputs_ok (eels_spectrum_data_item : DataItem)
    (fit_interval_graphics : list Graphic)
    (spectrum_xdata : DataAndMetadata) (fit_minimum : float)
    (signal_xdata : DataAndMetadata) : Prop :=
  xdata eels_spectrum_data_item = Some spectrum_xdata
  /\ is_datum_1d spectrum_xdata = true
  /\ (exists calibration rest,
        datum_dimensional_calibrations spectrum_xdata = calibration :: rest
        /\ units calibration = "eV")
  /\ Py.min (map fst (collect_fit_intervals fit_interval_graphics)) = Ret fit_minimum
  /\ get_calibrated_interval_slice spectrum_xdata (fit_minimum, 1%float)
     = Ret signal_xdata.

(** [execute] from the loop over the components on. *)
Definition fit_run (spectrum_xdata : DataAndMetadata) (fit_minimum : float)
    (signal_xdata : DataAndMetadata) (background_model : DataStructure)
    (fit_interval_graphics : list Graphic) (sw : EELSFitBackground.Self * World)
  : outcome unit * (EELSFitBackground.Self * World) :=
  let r :=
    for_fold (get_components_by_type (registry sw.2) "background-model") (None, None)
      (EELSFitBackground.execute_component spectrum_xdata
         (collect_fit_intervals fit_interval_graphics) (fit_minimum, 1%float)
         (structure_type background_model)) sw in
  match r.1 with
  | Ret locals =>
      (Ret tt,
       ({| EELSFitBackground.__background_xdata :=
             Some (default (zero_background signal_xdata) locals.1);
           EELSFitBackground.__subtracted_xdata :=
             Some (default (signal_copy signal_xdata) locals.2) |},
        r.2.2))
  | Raise e => (Raise e, r.2)
  end.

(** ** The subtracting and the mapping handler *)

(** The fall-back buffer: zeros over the navigation dimensions. *)
Definition zero_map (spectrum_image_xdata : DataAndMetadata) : DataAndMetadata :=
  new_data_and_metadata (numpy_zeros (navigation_dimension_shape spectrum_image_xdata))
    None (Some (navigation_dimensional_calibrations spectrum_image_xdata)).

(** The four assertions on the spectrum image pass. *)
Definition image_inputs_ok (spectrum_image_data_item : DataItem)
    (spectrum_image_xdata : DataAndMetadata) : Prop :=
  xdata spectrum_image_data_item = Some spectrum_image_xdata
  /\ is_datum_1d spectrum_image_xdata = true
  /\ is_navigable spectrum_image_xdata = true
  /\ (exists calibration rest,
        datum_dimensional_calibrations spectrum_image_xdata = calibration :: rest
        /\ units calibration = "eV").

Definition subtract_work (spectrum_image_xdata : DataAndMetadata)
    (fit_intervals : list interval_t) (component : Component)
  : outcome (option DataAndMetadata) :=
  match subtract_background_method component spectrum_image_xdata fit_intervals with
  | Raise e => Raise e
  | Ret integrate_result =>
      match integrate_result !! "subtracted" with
      | None => Raise (KeyError "subtracted")
      | Some subtracted => Ret (Some subtracted)
      end
  end.

Definition subtract_run (spectrum_image_xdata : DataAndMetadata)
    (background_model : DataStructure) (fit_interval_graphics : list Graphic)
    (sw : EELSSubtractBackground.Self * World)
  : outcome unit * (EELSSubtractBackground.Self * World) :=
  let r :=
    for_fold (get_components_by_type (registry sw.2) "background-model") None
      (EELSSubtractBackground.execute_component spectrum_image_xdata
         (collect_fit_intervals fit_interval_graphics)
         (structure_type background_model)) sw in
  match r.1 with
  | Ret subtracted_xdata =>
      (Ret tt,
       ({| EELSSubtractBackground.__subtracted_xdata :=
             Some (default (zero_map spectrum_image_xdata) subtracted_xdata) |},
        r.2.2))
  | Raise e => (Raise e, r.2)
  end.

(** The optional spectrum input of the mapping handler passes its checks
    and gives the optional [eels_spectrum_xdata]. *)
Definition eels_spectrum_ok (eels_spectrum_data_item : option DataItem)
    (eels_spectrum_xdata : option DataAndMetadata) : Prop :=
  match eels_spectrum_data_item with
  | None => eels_spectrum_xdata = None
  | Some item =>
      exists x, eels_spectrum_xdata = Some x
        /\ xdata item = Some x
        /\ is_datum_1d x = true
        /\ (exists calibration rest,
              datum_dimensional_calibrations x = calibration :: rest
              /\ units calibration = "eV")
  end.

Definition map_work (spectrum_image_xdata : DataAndMetadata)
    (eels_spectrum_xdata : option DataAndMetadata)
    (fit_intervals : list interval_t) (signal_interval : interval_t)
    (component : Component) : outcome (option DataAndMetadata) :=
  match integrate_signal component spectrum_image_xdata eels_spectrum_xdata
                         fit_intervals signal_interval with
  | Raise e => Raise e
  | Ret integrate_result =>
      match integrate_result !! "integrated" with
      | None => Raise (KeyError "integrated")
      | Some integrated => Ret (Some integrated)
      end
  end.

Definition map_run (spectrum_image_xdata : DataAndMetadata)
    (eels_spectrum_xdata : option DataAndMetadata)
    (background_model : DataStructure) (fit_interval_graphics : list Graphic)
    (signal_interval_graphic : Graphic)
    (sw : EELSMapBackgroundSubtractedSignal.Self * World)
  : outcome unit * (EELSMapBackgroundSubtractedSignal.Self * World) :=
  let r :=
    for_fold (get_components_by_type (registry sw.2) "background-model") None
      (EELSMapBackgroundSubtractedSignal.execute_component spectrum_image_xdata
         eels_spectrum_xdata (collect_fit_intervals fit_interval_graphics)
         (normalized_interval (interval signal_interval_graphic))
         (structure_type background_model)) sw in
  match r.1 with
  | Ret mapped_xdata =>
      (Ret tt,
       ({| EELSMapBackgroundSubtractedSignal.__mapped_xdata :=
             Some (default (zero_map spectrum_image_xdata) mapped_xdata) |},
        r.2.2))
  | Raise e => (Raise e, r.2)
  end.

(** A selected component answers [fit_background] with a result that
    has a ["background_model"], and the spectrum subtraction succeeds
    where the result has no ["subtracted_spectrum"]. *)
Definition fit_background_answers (spectrum_xdata : DataAndMetadata)
    (fit_intervals : list interval_t) (signal_interval : interval_t)
    (component : Component) : Prop :=
  exists fit_result background_xdata,
    fit_background component spectrum_xdata fit_intervals signal_interval
    = Ret fit_result
    /\ fit_result !! "background_model" = Some background_xdata
    /\ (fit_result !! "subtracted_spectrum" = None ->
        returned (calibrated_subtract_spectrum spectrum_xdata background_xdata) = true).

(** ** Registrations *)

(** The entity type made for a background-model component, and its
    registration with [DataStructure]. *)
Definition background_model_entity_type (component : Component) : EntityType :=
  entity (background_model_id component) (Some BackgroundModelEntity) None [].

Definition background_model_entity_of (component : Component) : EntityRegistration :=
  {| registered_entity := background_model_entity_type component;
     entity_name := title component;
     entity_package_name := package_title component |}.

(** The host's tables after the entity of [component] was made and
    registered. *)
Definition with_background_model_entity (entities : Entities) (component : Component)
  : Entities :=
  {| schema_entity_types :=
       <[background_model_id component := background_model_entity_type component]>
         (schema_entity_types entities);
     data_structure_entities :=
       data_structure_entities entities ++ [background_model_entity_of component] |}.

Definition with_background_model_entities (components : list Component)
    (entities : Entities) : Entities :=
  fold_left with_background_model_entity components entities.

(** The seven menu items of the plug-in, for the document controller
    [dc], in the order in which [build_menus] adds them. *)
Definition plugin_menu_items (dc : ref) : list UI.MenuItem :=
  [ {| UI.menu_title := gettext "Subtract Linear Background";
       UI.triggers := UI.processing_subtract_linear_background dc |};
    {| UI.menu_title := gettext "Subtract Background Signal";
       UI.triggers := UI.processing_subtract_background_signal dc |};
    {| UI.menu_title := gettext "Extract Signal";
       UI.triggers := UI.processing_extract_signal dc |};
    {| UI.menu_title := gettext "Show Color Channels";
       UI.triggers := UI.show_color_channels dc |};
    {| UI.menu_title := gettext "Filter Channel";
       UI.triggers := UI.filter_channel dc |};
    {| UI.menu_title := gettext "Elemental Map (Si K)";
       UI.triggers := UI.filter_element dc (1700, 1800)%Z (1839, 2039)%Z |};
    {| UI.menu_title := gettext "Elemental Map (Ga L)";
       UI.triggers := UI.filter_element dc (1100, 1200)%Z (1220, 1420)%Z |} ].

(** ** Sessions *)

(** What the loop of [add_background_subtraction_computation] makes of
    an interval graphic. *)
Definition marked_background (g : Graphic) : Graphic :=
  {| graphic_type := graphic_type g;
     graphic_id := Some "background";
     label := Some (gettext "Background");
     interval := interval g |}.

Definition mark_intervals (intervals : list ref) : M Session unit :=
  for_each intervals (fun target_interval =>
    set_graphic_id target_interval "background" ;;
    set_label target_interval (gettext "Background")).

(** Two sessions that differ in their graphics at most. *)
Definition same_but_graphics (s s' : Session) : Prop :=
  window s' = window s
  /\ data_item_at (document_model s') = data_item_at (document_model s)
  /\ data_structure_at (document_model s') = data_structure_at (document_model s)
  /\ display_item_at (document_model s') = display_item_at (document_model s)
  /\ next_ref (document_model s') = next_ref (document_model s)
  /\ data_items (document_model s') = data_items (document_model s)
  /\ data_structures (document_model s') = data_structures (document_model s)
  /\ computations (document_model s') = computations (document_model s).

(** The state a procedure leaves. *)
Definition after {S A} (m : M S A) (s : S) : S := (m s).2.

(** [c] is the first element of [l] that passes [test]. *)
Definition first_passing {A} (test : A -> bool) (l : list A) (c : A) : Prop :=
  exists earlier later,
    l = earlier ++ c :: later
    /\ (forall c', c' ∈ earlier -> test c' = false)
    /\ test c = true.

(** The condition under which [subtract_background] (and
    [use_signal_for_map]) goes on to build a computation from the
    computation [c]: the window has a target display; [c] is the first
    computation of the document that is an
    ["eels.background_subtraction3"] computation whose
    [eels_spectrum_data_item] input [spectrum] and whose ["subtracted"]
    output are both among the data items of that display; and [spectrum]
    has exactly one source data item [spectrum_image], which has xdata
    [x] that is navigable, and one datum dimension. *)
Definition background_subtraction_found (s : Session) (c : Computation)
    (spectrum_image : ref) (x : DataAndMetadata) : Prop :=
  let d := document_model s in
  exists the_target_display spectrum subtracted,
    target_display (window s) = Some the_target_display
    /\ first_passing
         (is_displayed_background_subtraction
            (display_data_items (display_item_at d the_target_display)))
         (computations d) c
    /\ processing_id c = "eels.background_subtraction3"
    /\ in_eels_spectrum_data_item (inputs c) = Some spectrum
    /\ spectrum ∈ display_data_items (display_item_at d the_target_display)
    /\ get_output c "subtracted" = Some subtracted
    /\ subtracted ∈ display_data_items (display_item_at d the_target_display)
    /\ get_source_data_items d spectrum = [spectrum_image]
    /\ xdata (data_item_at d spectrum_image) = Some x
    /\ is_navigable x = true
    /\ datum_dimension_count (data_item_at d spectrum_image) = 1.

(** The session after [subtract_background] built its computation. *)
Definition with_subtract_background_computation (s : Session) (c : Computation)
    (spectrum_image : ref) (x : DataAndMetadata) : Session :=
  let d := document_model s in
  let subtracted := next_ref d in
  {| document_model :=
       {| data_item_at :=
            update (data_item_at d) subtracted
              (new_data_item_from_data (numpy_zeros (navigation_dimension_shape x)));
          data_structure_at := data_structure_at d;
          graphic_at := graphic_at d;
          display_item_at := display_item_at d;
          next_ref := S (next_ref d);
          data_items := data_items d ++ [subtracted];
          data_structures := data_structures d;
          computations :=
            computations d
            ++ [ {| processing_id := "eels.subtract_background";
                    inputs :=
                      {| in_eels_spectrum_data_item := None;
                         in_spectrum_image_data_item := Some spectrum_image;
                         in_background_model := in_background_model (inputs c);
                         in_fit_interval_graphics :=
                           in_fit_interval_graphics (inputs c);
                         in_signal_interval_graphic := None |};
                    outputs := {[ "subtracted" := subtracted ]} |} ] |};
     window :=
       {| target_data_item := target_data_item (window s);
          target_display := target_display (window s);
          displayed := displayed (window s) ++ [subtracted] |} |}.

End Vocabulary.

(* ===================================================================== *)
(** * Vocabulary: failing components, the mapping action                   *)
(* ===================================================================== *)

Section VocabularyOfFailures.
Context `{DataAPI}.

(** The ways in which the turn of the loop for a selected component ends
    with the exception [e]: the component's algorithm raises [e]; its
    result lacks the key that the handler reads; or, for the fitting
    handler, its result has no ["subtracted_spectrum"] and the
    subtraction of the background from the spectrum raises [e]. *)
Definition fit_background_fails (spectrum_xdata : DataAndMetadata)
    (fit_intervals : list interval_t) (signal_interval : interval_t)
    (component : Component) (e : exn) : Prop :=
  fit_background component spectrum_xdata fit_intervals signal_interval = Raise e
  \/ (exists fit_result,
        fit_background component spectrum_xdata fit_intervals signal_interval
        = Ret fit_result
        /\ fit_result !! "background_model" = None
        /\ e = KeyError "background_model")
  \/ (exists fit_result background_xdata,
        fit_background component spectrum_xdata fit_intervals signal_interval
        = Ret fit_result
        /\ fit_result !! "background_model" = Some background_xdata
        /\ fit_result !! "subtracted_spectrum" = None
        /\ calibrated_subtract_spectrum spectrum_xdata background_xdata = Raise e).

Definition subtract_background_fails (spectrum_image_xdata : DataAndMetadata)
    (fit_intervals : list interval_t) (component : Component) (e : exn) : Prop :=
  subtract_background_method component spectrum_image_xdata fit_intervals = Raise e
  \/ (exists integrate_result,
        subtract_background_method component spectrum_image_xdata fit_intervals
        = Ret integrate_result
        /\ integrate_result !! "subtracted" = None
        /\ e = KeyError "subtracted").

Definition integrate_signal_fails (spectrum_image_xdata : DataAndMetadata)
    (eels_spectrum_xdata : option DataAndMetadata)
    (fit_intervals : list interval_t) (signal_interval : interval_t)
    (component : Component) (e : exn) : Prop :=
  integrate_signal component spectrum_image_xdata eels_spectrum_xdata
                   fit_intervals signal_interval = Raise e
  \/ (exists integrate_result,
        integrate_signal component spectrum_image_xdata eels_spectrum_xdata
                         fit_intervals signal_interval = Ret integrate_result
        /\ integrate_result !! "integrated" = None
        /\ e = KeyError "integrated").

(** The component's algorithm returns a result that has the key the
    handler reads. *)
Definition subtract_background_answers (spectrum_image_xdata : DataAndMetadata)
    (fit_intervals : list interval_t) (component : Component) : Prop :=
  exists integrate_result subtracted,
    subtract_background_method component spectrum_image_xdata fit_intervals
    = Ret integrate_result
    /\ integrate_result !! "subtracted" = Some subtracted.

Definition integrate_signal_answers (spectrum_image_xdata : DataAndMetadata)
    (eels_spectrum_xdata : option DataAndMetadata)
    (fit_intervals : list interval_t) (signal_interval : interval_t)
    (component : Component) : Prop :=
  exists integrate_result integrated,
    integrate_signal component spectrum_image_xdata eels_spectrum_xdata
                     fit_intervals signal_interval = Ret integrate_result
    /\ integrate_result !! "integrated" = Some integrated.

End VocabularyOfFailures.

Section VocabularyOfActions.
Context `{DataAPI}.
Variable gettext : string -> string.
Variable get_source_data_items : DocumentModel -> ref -> list ref.

(** The calls that [add_background_subtraction_computation] makes on the
    display item, in order. *)
Definition background_display_calls (background signal : ref) : list DisplayCall :=
  [ append_display_data_channel_for_data_item background;
    append_display_data_channel_for_data_item signal;
    move_display_layer_at_index_backward 0;
    move_display_layer_at_index_backward 1;
    _set_display_layer_properties 0 (gettext "Background") "rgba(255, 0, 0, 0.3)";
    _set_display_layer_properties 1 (gettext "Signal") "#0F0";
    _set_display_layer_properties 2 (gettext "Data") "#1E90FF";
    set_display_property "legend_position" "top-right" ].

(** What the bodies of the loops of [subtract_background] and
    [use_signal_for_map] have in common: the look-up of the single
    source of the spectrum and its checks; [build] is the part that
    creates the data item and the computation. *)
Definition found_body (build : ref -> ref -> DataAndMetadata -> M Session unit)
    (computation : Computation) : M Session unit :=
  match in_eels_spectrum_data_item (inputs computation) with
  | None => raise (AttributeError "_data_item")
  | Some eels_spectrum_data_item =>
      let* d := document in
      match get_source_data_items d eels_spectrum_data_item with
      | [source_data_item] =>
          let* source_xdata := assert_object (xdata (data_item_at d source_data_item)) in
          if is_navigable source_xdata
             && Nat.eqb (datum_dimension_count (data_item_at d source_data_item)) 1
          then build eels_spectrum_data_item source_data_item source_xdata
          else ret tt
      | _ => ret tt
      end
  end.

(** The parts of the two loop bodies that create the data item and the
    computation. *)
Definition subtract_background_build (computation : Computation)
    (eels_spectrum_data_item spectrum_image : ref) (source_xdata : DataAndMetadata)
  : M Session unit :=
  let* subtracted :=
    create_data_item_from_data
      (numpy_zeros (navigation_dimension_shape source_xdata)) in
  create_computation "eels.subtract_background"
    {| in_eels_spectrum_data_item := None;
       in_spectrum_image_data_item := Some spectrum_image;
       in_background_model := in_background_model (inputs computation);
       in_fit_interval_graphics := in_fit_interval_graphics (inputs computation);
       in_signal_interval_graphic := None |}
    {[ "subtracted" := subtracted ]} ;;
  display_data_item subtracted.

Definition use_signal_for_map_build (target_interval : ref) (computation : Computation)
    (eels_spectrum_data_item spectrum_image : ref) (source_xdata : DataAndMetadata)
  : M Session unit :=
  let* map :=
    create_data_item_from_data
      (numpy_zeros (navigation_dimension_shape source_xdata)) in
  create_computation "eels.mapping3"
    {| in_eels_spectrum_data_item := Some eels_spectrum_data_item;
       in_spectrum_image_data_item := Some spectrum_image;
       in_background_model := in_background_model (inputs computation);
       in_fit_interval_graphics := in_fit_interval_graphics (inputs computation);
       in_signal_interval_graphic := Some target_interval |}
    {[ "map" := map ]} ;;
  display_data_item map.

(** The first displayed background subtraction of the target display has
    a spectrum with exactly one source data item, and that data item
    has no xdata: the case in which [assert source_xdata] fails. *)
Definition source_xdata_missing (s : Session) : Prop :=
  let d := document_model s in
  exists the_target_display c spectrum spectrum_image,
    target_display (window s) = Some the_target_display
    /\ first_passing
         (is_displayed_background_subtraction
            (display_data_items (display_item_at d the_target_display)))
         (computations d) c
    /\ in_eels_spectrum_data_item (inputs c) = Some spectrum
    /\ get_source_data_items d spectrum = [spectrum_image]
    /\ xdata (data_item_at d spectrum_image) = None.

(** The target display has exactly one selected graphic, [g], and it is
    an interval graphic. *)
Definition signal_interval_selected (s : Session) (g : ref) : Prop :=
  let d := document_model s in
  exists the_target_display,
    target_display (window s) = Some the_target_display
    /\ selected_graphics (display_item_at d the_target_display) = [g]
    /\ graphic_type (graphic_at d g) = "interval-graphic".

(** The mapping computation that [use_signal_for_map] creates from the
    background subtraction [c], with the new data item [map]. *)
Definition mapping_computation (c : Computation) (spectrum_image g map : ref)
  : Computation :=
  {| processing_id := "eels.mapping3";
     inputs :=
       {| in_eels_spectrum_data_item := in_eels_spectrum_data_item (inputs c);
          in_spectrum_image_data_item := Some spectrum_image;
          in_background_model := in_background_model (inputs c);
          in_fit_interval_graphics := in_fit_interval_graphics (inputs c);
          in_signal_interval_graphic := Some g |};
     outputs := {[ "map" := map ]} |}.

(** The session after a menu action created the data item of zeros over
    the navigation dimensions of [x], the computation [new_computation]
    that writes to it, and displayed it. *)
Definition with_new_computation (s : Session) (x : DataAndMetadata)
    (new_computation : Computation) : Session :=
  let d := document_model s in
  {| document_model :=
       {| data_item_at :=
            update (data_item_at d) (next_ref d)
              (new_data_item_from_data (numpy_zeros (navigation_dimension_shape x)));
          data_structure_at := data_structure_at d;
          graphic_at := graphic_at d;
          display_item_at := display_item_at d;
          next_ref := S (next_ref d);
          data_items := data_items d ++ [next_ref d];
          data_structures := data_structures d;
          computations := computations d ++ [new_computation] |};
     window :=
       {| target_data_item := target_data_item (window s);
          target_display := target_display (window s);
          displayed := displayed (window s) ++ [next_ref d] |} |}.

(** The data items that the calls [calls] add to a display item. *)
Definition appended_data_items (calls : list DisplayCall) : list ref :=
  omap (fun c => match c with
                 | append_display_data_channel_for_data_item data_item => Some data_item
                 | _ => None
                 end) calls.

(** The session [s'] is [s] after the calls [calls] were made on the
    display item [display_item], and nothing else: the calls are
    recorded, the data items they append are shown, and the target data
    item of the window has followed if the display item is the target
    display. *)
Definition displayed_calls_since (s s' : Session) (display_item : ref)
    (calls : list DisplayCall) : Prop :=
  let d := document_model s in
  let d' := document_model s' in
  let shown :=
    display_data_items (display_item_at d display_item) ++ appended_data_items calls in
  data_item_at d' = data_item_at d
  /\ data_structure_at d' = data_structure_at d
  /\ graphic_at d' = graphic_at d
  /\ next_ref d' = next_ref d
  /\ data_items d' = data_items d
  /\ data_structures d' = data_structures d
  /\ computations d' = computations d
  /\ display_calls (display_item_at d' display_item)
     = display_calls (display_item_at d display_item) ++ calls
  /\ display_data_items (display_item_at d' display_item) = shown
  /\ selected_graphics (display_item_at d' display_item)
     = selected_graphics (display_item_at d display_item)
  /\ (forall other, other <> display_item ->
        display_item_at d' other = display_item_at d other)
  /\ target_display (window s') = target_display (window s)
  /\ displayed (window s') = displayed (window s)
  /\ target_data_item (window s')
     = match appended_data_items calls with
       | [] => target_data_item (window s)
       | _ :: _ =>
           if bool_decide (target_display (window s) = Some display_item)
           then data_item_of shown
           else target_data_item (window s)
       end.

End VocabularyOfActions.

(* ===================================================================== *)
(** * More sample components                                               *)
(* ===================================================================== *)

Module SampleComponents.

#[local] Existing Instance Sample.api.

(** A component that answers every request with [value]; its fit result
    carries no ["subtracted_spectrum"]. *)
Definition constant_component (id : string) (value : Sample.sample_xdata) : Component :=
  {| background_model_id := id;
     title := "Constant";
     package_title := "Sample";
     fit_background := fun _ _ _ => Ret {[ "background_model" := value ]};
     subtract_background_method := fun _ _ => Ret {[ "subtracted" := value ]};
     integrate_signal := fun _ _ _ _ => Ret {[ "integrated" := value ]} |}.

(** A component whose results have no key at all. *)
Definition keyless_component (id : string) : Component :=
  {| background_model_id := id;
     title := "Keyless";
     package_title := "Sample";
     fit_background := fun _ _ _ => Ret ∅;
     subtract_background_method := fun _ _ => Ret ∅;
     integrate_signal := fun _ _ _ _ => Ret ∅ |}.

(** A flat background of three channels. *)
Definition flat : DataAndMetadata :=
  {| Sample.x_data := {| Sample.shape := [3]; Sample.cells := [1; 1; 1]%float |};
     Sample.x_intensity := "counts";
     Sample.x_dimensional := ["eV"];
     Sample.x_navigation := 0 |}.

Definition echo : Component := Sample.echo_component "power_law_fit_background_model".
Definition constant : Component :=
  constant_component "power_law_fit_background_model" flat.
Definition keyless : Component := keyless_component "power_law_fit_background_model".
Definition failing : Component :=
  Sample.failing_component "power_law_fit_background_model".

(** Three selected components, the second of which fails, and one
    registered for another model. *)
Definition failing_registry : Registry :=
  [ (echo, {[ "background-model" ]});
    (Sample.echo_component "polynomial_background_model", {[ "background-model" ]});
    (keyless, {[ "background-model" ]});
    (constant, {[ "background-model" ]}) ].

(** Two selected components that answer. *)
Definition answering_registry : Registry :=
  [ (echo, {[ "background-model" ]});
    (constant, {[ "background-model" ]}) ].

(** The host's tables once the module has made [BackgroundModelEntity]. *)
Definition loaded_entities : Entities :=
  {| schema_entity_types := {[ "background_model" := BackgroundModelEntity ]};
     data_structure_entities := [] |}.

(** Three components registered under ["background-model"], the third
    with the id of the first, and one registered under another type. *)
Definition clashing_registry : Registry :=
  [ (echo, {[ "background-model" ]});
    (Sample.echo_component "polynomial_background_model", {[ "background-model" ]});
    (Sample.echo_component "other_model", {[ "other-type" ]});
    (constant, {[ "background-model" ]}) ].

(** A display that shows the sample spectrum alone, with the interval
    graphic [7] selected, in a document without computations. *)
Definition spectrum_document : DocumentModel :=
  {| data_item_at := fun r =>
       match r with
       | 0 => Sample.spectrum_image_item
       | 1 => Sample.spectrum_item
       | _ => Sample.empty_item
       end;
     data_structure_at := fun _ => Sample.power_law;
     graphic_at := fun _ => Sample.fit_graphic;
     display_item_at := fun _ =>
       {| display_data_items := [1];
          selected_graphics := [7];
          display_calls := [] |};
     next_ref := 10;
     data_items := [0; 1];
     data_structures := [];
     computations := [] |}.

Definition spectrum_session : Session :=
  {| document_model := spectrum_document;
     window := {| target_data_item := Some 1;
                  target_display := Some 4;
                  displayed := [] |} |}.

End SampleComponents.

(* ===================================================================== *)
(** * Order facts on IEEE comparisons                                      *)
(* ===================================================================== *)

Section FloatOrder.

Lemma SFcompare_antisym x y c :
  SFcompare x y = Some c -> SFcompare y x = Some (CompOpp c).
Proof.
  destruct x as [sx|sx| |sx mx ex], y as [sy|sy| |sy my ey]; simpl;
    try discriminate;
    try (intros [= <-]; repeat match goal with b : bool |- _ => destruct b end;
         reflexivity).
  intros [= <-]. f_equal.
  destruct sx, sy; simpl; try reflexivity.
  all: rewrite (Z.compare_antisym ex ey);
    destruct (ex ?= ey)%Z; simpl; try reflexivity;
    rewrite (Pos.compare_cont_antisym mx my Eq); simpl;
    rewrite ?CompOpp_involutive; reflexivity.
Qed.

Lemma SFcompare_not_nan x y :
  SFeqb x x = true -> SFeqb y y = true -> exists c, SFcompare x y = Some c.
Proof.
  unfold SFeqb.
  destruct x as [sx|sx| |sx mx ex], y as [sy|sy| |sy my ey]; simpl;
    try discriminate; intros _ _; eauto.
Qed.

Lemma float_lt_asym a b : float_lt a b = true -> float_lt b a = false.
Proof.
  unfold float_lt. rewrite !FloatAxioms.ltb_spec. unfold SFltb.
  destruct (SFcompare (Prim2SF a) (Prim2SF b)) as [c|] eqn:E; [|discriminate].
  rewrite (SFcompare_antisym _ _ _ E). destruct c; simpl; congruence.
Qed.

Lemma float_lt_irrefl a : float_lt a a = false.
Proof.
  destruct (float_lt a a) eqn:E; [|reflexivity].
  pose proof (float_lt_asym _ _ E). congruence.
Qed.

Lemma float_lt_le a b : float_lt a b = true -> float_le a b = true.
Proof.
  unfold float_lt, float_le. rewrite FloatAxioms.ltb_spec, FloatAxioms.leb_spec. unfold SFltb, SFleb.
  destruct (SFcompare (Prim2SF a) (Prim2SF b)) as [[]|]; congruence.
Qed.

Lemma float_le_refl a : is_nan a = false -> float_le a a = true.
Proof.
  unfold is_nan, float_le. rewrite FloatAxioms.eqb_spec, FloatAxioms.leb_spec. unfold SFeqb, SFleb.
  destruct (SFcompare (Prim2SF a) (Prim2SF a)) as [[]|]; simpl; congruence.
Qed.

Lemma float_eq_refl a : is_nan a = false -> float_eq a a = true.
Proof.
  unfold is_nan, float_eq. destruct (a =? a)%float; simpl; congruence.
Qed.

(** On numbers (no NaN) the order is total: [not (b < a)] gives [a <= b]. *)
Lemma float_not_lt_le a b :
  is_nan a = false -> is_nan b = false ->
  float_lt b a = false -> float_le a b = true.
Proof.
  unfold is_nan, float_lt, float_le. intros Ha Hb.
  rewrite FloatAxioms.eqb_spec in Ha, Hb.
  rewrite FloatAxioms.ltb_spec, FloatAxioms.leb_spec. unfold SFltb, SFleb.
  destruct (SFcompare_not_nan (Prim2SF a) (Prim2SF b)) as [c E].
  { now destruct (SFeqb (Prim2SF a) (Prim2SF a)). }
  { now destruct (SFeqb (Prim2SF b) (Prim2SF b)). }
  rewrite E, (SFcompare_antisym _ _ _ E). destruct c; simpl; congruence.
Qed.

(** Two numbers neither of which is below the other are [==]. *)
Lemma float_not_lt_eq a b :
  is_nan a = false -> is_nan b = false ->
  float_lt a b = false -> float_lt b a = false -> float_eq a b = true.
Proof.
  unfold is_nan, float_lt, float_eq. intros Ha Hb.
  rewrite FloatAxioms.eqb_spec in Ha, Hb.
  rewrite FloatAxioms.eqb_spec, !FloatAxioms.ltb_spec.
  destruct (SFcompare_not_nan (Prim2SF a) (Prim2SF b)) as [c E].
  { now destruct (SFeqb (Prim2SF a) (Prim2SF a)). }
  { now destruct (SFeqb (Prim2SF b) (Prim2SF b)). }
  unfold SFltb, SFeqb.
  rewrite E, (SFcompare_antisym _ _ _ E). destruct c; simpl; congruence.
Qed.

End FloatOrder.

(* ===================================================================== *)
(** * Properties of [normalized_interval]                                  *)
(* ===================================================================== *)

Lemma normalized_interval_unfold a b :
  normalized_interval (a, b)
  = (if float_lt b a then b else a, if float_lt a b then b else a).
Proof. reflexivity. Qed.

(** Applying [normalized_interval] twice is applying it once, on all
    floats, NaN included. *)
Lemma normalized_interval_idempotent p :
  normalized_interval (normalized_interval p) = normalized_interval p.
Proof.
  destruct p as [a b]. rewrite (normalized_interval_unfold a b).
  destruct (float_lt b a) eqn:Hba.
  - rewrite (float_lt_asym _ _ Hba), normalized_interval_unfold.
    now rewrite Hba, (float_lt_asym _ _ Hba).
  - destruct (float_lt a b) eqn:Hab; rewrite normalized_interval_unfold.
    + now rewrite Hba, Hab.
    + now rewrite float_lt_irrefl.
Qed.

(** C8, the claim as stated fails on NaN: [min] and [max] keep their
    first argument when the comparison with NaN is false, so
    [normalized_interval((nan, 1.0))] is [(nan, nan)], whose first
    component is not [<=] its second, while
    [normalized_interval((1.0, nan))] is [(1.0, 1.0)]. *)
Lemma normalized_interval_nan :
  normalized_interval (nan, 1%float) = (nan, nan)
  /\ normalized_interval (1%float, nan) = (1%float, 1%float)
  /\ float_le (normalized_interval (nan, 1%float)).1
              (normalized_interval (nan, 1%float)).2 = false
  /\ pair_eq (normalized_interval (nan, 1%float))
             (normalized_interval (1%float, nan)) = false.
Proof. repeat split; vm_compute; reflexivity. Qed.

(** C8, amended: for every pair of floats [(a, b)] neither of which is
    NaN, [normalized_interval((a, b))] is [(min(a, b), max(a, b))]: its
    first component is one of [a], [b] and [<=] both, its second is one
    of [a], [b] and [>=] both. Consequently the first component is [<=]
    the second, the function is symmetric ([normalized_interval((a, b))
    == normalized_interval((b, a))] with the equality [==] of floats) and
    idempotent. *)
Theorem normalized_interval_numbers a b :
  is_nan a = false -> is_nan b = false ->
  let r := normalized_interval (a, b) in
  r = (min2 a b, max2 a b)
  /\ (r.1 = a \/ r.1 = b) /\ float_le r.1 a = true /\ float_le r.1 b = true
  /\ (r.2 = a \/ r.2 = b) /\ float_le a r.2 = true /\ float_le b r.2 = true
  /\ float_le r.1 r.2 = true
  /\ pair_eq (normalized_interval (a, b)) (normalized_interval (b, a)) = true
  /\ normalized_interval r = r.
Proof.
  intros Ha Hb r. subst r.
  split; [reflexivity|].
  assert (Hidem := normalized_interval_idempotent (a, b)).
  rewrite (normalized_interval_unfold a b) in *.
  rewrite (normalized_interval_unfold b a).
  unfold pair_eq. simpl.
  destruct (float_lt b a) eqn:Hba.
  - rewrite (float_lt_asym _ _ Hba) in *.
    pose proof (float_lt_le _ _ Hba). simpl.
    rewrite !float_le_refl, !float_eq_refl by assumption.
    repeat split; auto.
  - pose proof (float_not_lt_le _ _ Ha Hb Hba).
    destruct (float_lt a b) eqn:Hab; simpl.
    + rewrite !float_le_refl, !float_eq_refl by assumption.
      repeat split; auto.
    + pose proof (float_not_lt_le _ _ Hb Ha Hab).
      rewrite (float_not_lt_eq _ _ Ha Hb Hab Hba).
      rewrite !float_le_refl by assumption.
      repeat split; auto.
Qed.

Lemma normalized_interval_numbers_witness :
  let r := normalized_interval (3%float, 1%float) in
  r = (min2 3 1, max2 3 1)
  /\ (r.1 = 3%float \/ r.1 = 1%float)
  /\ float_le r.1 3 = true /\ float_le r.1 1 = true
  /\ (r.2 = 3%float \/ r.2 = 1%float)
  /\ float_le 3 r.2 = true /\ float_le 1 r.2 = true
  /\ float_le r.1 r.2 = true
  /\ pair_eq (normalized_interval (3%float, 1%float))
             (normalized_interval (1%float, 3%float)) = true
  /\ normalized_interval r = r.
Proof. apply (normalized_interval_numbers 3 1); reflexivity. Defined.

(* ===================================================================== *)
(** * Reasoning about handler methods                                      *)
(* ===================================================================== *)

(** Unfolding one step of a procedure. *)
Ltac run_step :=
  unfold bind, ret, raise, lift, gets, get, modify, assert, assert_object,
         call, set_referenced_xdata; simpl.

(** Running a procedure with the equations at hand. *)
Ltac run_with_facts :=
  run_step;
  repeat match goal with
         | H : _ = _ |- _ => progress (rewrite H; simpl)
         end.

Lemma for_fold_cons {S A B} (x : A) (l : list A) (acc : B) (body : B -> A -> M S B) s :
  for_fold (x :: l) acc body s =
  match body acc x s with
  | (Ret acc', s') => for_fold l acc' body s'
  | (Raise e, s') => (Raise e, s')
  end.
Proof. reflexivity. Qed.

Lemma for_each_cons {S A} (x : A) (l : list A) (body : A -> M S unit) s :
  for_each (x :: l) body s =
  match body x s with
  | (Ret _, s') => for_each l body s'
  | (Raise e, s') => (Raise e, s')
  end.
Proof. reflexivity. Qed.

Section Dispatch.
Context `{DataAPI}.

Lemma add_calls_nil w : add_calls [] w = w.
Proof. destruct w. unfold add_calls. simpl. now rewrite app_nil_r. Qed.

Lemma add_calls_record_call k cs w :
  add_calls cs (record_call k w) = add_calls (k :: cs) w.
Proof. unfold add_calls, record_call. simpl. now rewrite <- app_assoc. Qed.

Lemma matching_components_spec the_registry the_id c :
  c ∈ matching_components the_registry the_id <->
  (exists types, (c, types) ∈ the_registry /\ "background-model" ∈ types)
  /\ background_model_id c = the_id.
Proof.
  unfold matching_components, get_components_by_type, is_selected, str_eq.
  rewrite !list_elem_of_In, filter_In, <- !list_elem_of_In.
  rewrite list_elem_of_fmap, String.eqb_eq. split.
  - intros [[[c' types] [-> Hin]] Hid]. split; [|now symmetry].
    apply list_elem_of_In, filter_In in Hin as [Hin Hty].
    exists types. split; [now apply list_elem_of_In|].
    unfold has_type in Hty. simpl in *. now apply bool_decide_eq_true in Hty.
  - intros [[types [Hin Hty]] Hid]. split; [|now symmetry].
    exists (c, types). split; [reflexivity|].
    apply list_elem_of_In, filter_In. split; [now apply list_elem_of_In|].
    unfold has_type. simpl. now apply bool_decide_eq_true.
Qed.

Section Loop.
Context {Self B : Type}.
Variable the_id : string.
(** the journal entry of a call of the component *)
Variable K : Component -> Call.
(** what the selected component is asked to compute *)
Variable work : Component -> outcome B.
Variable body : B -> Component -> Method Self B.
Hypothesis body_spec : forall acc c sw,
  body acc c sw =
  if is_selected the_id c
  then (work c, (sw.1, record_call (K c) sw.2))
  else (Ret acc, sw).

Lemma for_fold_dispatch comps : forall acc sw,
  exists invoked,
    invoked `prefix_of` List.filter (is_selected the_id) comps
    /\ (for_fold comps acc body sw).2 = (sw.1, add_calls (map K invoked) sw.2)
    /\ match (for_fold comps acc body sw).1 with
       | Ret acc' =>
           invoked = List.filter (is_selected the_id) comps
           /\ acc' = last_result work acc (List.filter (is_selected the_id) comps)
       | Raise e =>
           exists c, c ∈ List.filter (is_selected the_id) comps /\ work c = Raise e
       end.
Proof.
  induction comps as [|c comps IH]; intros acc sw.
  - exists []. simpl. rewrite add_calls_nil. destruct sw. repeat split.
    apply prefix_nil.
  - rewrite for_fold_cons, body_spec. simpl.
    destruct (is_selected the_id c) eqn:Hsel.
    + destruct (work c) as [b|e] eqn:Hwork.
      * destruct (IH b (sw.1, record_call (K c) sw.2)) as (invoked & Hpre & Hst & Hres).
        exists (c :: invoked). split; [now apply prefix_cons|].
        split.
        { rewrite Hst. simpl. now rewrite add_calls_record_call. }
        destruct (for_fold comps b body (sw.1, record_call (K c) sw.2)).1 as [acc'|e].
        { destruct Hres as [-> ->]. split; [reflexivity|].
          unfold last_result at 2. simpl. now rewrite Hwork. }
        { destruct Hres as (c' & Hin & Hc'). exists c'. split; [|assumption].
          now apply list_elem_of_further. }
      * exists [c]. split.
        { apply prefix_cons, prefix_nil. }
        split; [reflexivity|].
        exists c. split; [apply list_elem_of_here | assumption].
    + destruct (IH acc sw) as (invoked & Hpre & Hst & Hres).
      exists invoked. repeat split; assumption.
Qed.

End Loop.
End Dispatch.

(* ===================================================================== *)
(** * EELSFitBackground: what [execute] does                               *)
(* ===================================================================== *)

Section FitBackgroundFacts.
Context `{DataAPI}.

Lemma fit_execute_component_spec sx fi si the_id acc c (sw : EELSFitBackground.Self * World) :
  EELSFitBackground.execute_component sx fi si the_id acc c sw =
  if is_selected the_id c
  then (fit_work sx fi si c, (sw.1, record_call (CallFitBackground c) sw.2))
  else (Ret acc, sw).
Proof.
  unfold EELSFitBackground.execute_component, is_selected, fit_work, getitem.
  destruct (str_eq the_id (background_model_id c)); [|reflexivity].
  run_step.
  destruct (fit_background c sx fi si) as [fit_result|e]; [|reflexivity].
  destruct (fit_result !! "background_model") as [bg|]; [|reflexivity]. simpl.
  destruct (fit_result !! "subtracted_spectrum") as [sub|]; [reflexivity|].
  now destruct (calibrated_subtract_spectrum sx bg).
Qed.

Lemma units_eV (calibration : Calibration) :
  units calibration = "eV" <-> str_eq (units calibration) "eV" = true.
Proof. unfold str_eq. symmetry. apply String.eqb_eq. Qed.

(** When the inputs pass the checks, [execute] is the loop and the
    assignment of the buffers. *)
Lemma fit_execute_run item model gs x fm sig (sw : EELSFitBackground.Self * World) :
  fit_inputs_ok item gs x fm sig ->
  EELSFitBackground.execute item model gs sw = fit_run x fm sig model gs sw.
Proof.
  intros (Hx & H1d & (c0 & rest & Hcal & Hunits) & Hmin & Hsig).
  apply units_eV in Hunits.
  unfold EELSFitBackground.execute, fit_run. run_with_facts.
  destruct (for_fold _ _ _ sw) as [[locals|e] [self' w']]; simpl; [|reflexivity].
  destruct locals as [[bg|] [sub|]]; reflexivity.
Qed.

(** Either an input check stops [execute] before anything is changed, or
    the loop over the components is run. *)
Lemma fit_execute_cases item model gs (sw : EELSFitBackground.Self * World) :
  (exists e, EELSFitBackground.execute item model gs sw = (Raise e, sw))
  \/ (exists x fm sig,
        fit_inputs_ok item gs x fm sig
        /\ EELSFitBackground.execute item model gs sw = fit_run x fm sig model gs sw).
Proof.
  destruct (xdata item) as [x|] eqn:Hx;
    [|left; eexists; unfold EELSFitBackground.execute; now run_with_facts].
  destruct (is_datum_1d x) eqn:H1d;
    [|left; eexists; unfold EELSFitBackground.execute; now run_with_facts].
  destruct (datum_dimensional_calibrations x) as [|c0 rest] eqn:Hcal;
    [left; eexists; unfold EELSFitBackground.execute; now run_with_facts|].
  destruct (str_eq (units c0) "eV") eqn:Hunits;
    [|left; eexists; unfold EELSFitBackground.execute; now run_with_facts].
  destruct (Py.min (map fst (collect_fit_intervals gs))) as [fm|e] eqn:Hmin;
    [|left; eexists; unfold EELSFitBackground.execute; now run_with_facts].
  destruct (get_calibrated_interval_slice x (fm, 1%float)) as [sig|e] eqn:Hsig;
    [|left; eexists; unfold EELSFitBackground.execute; now run_with_facts].
  right. exists x, fm, sig.
  assert (fit_inputs_ok item gs x fm sig) as Hok.
  { repeat split; try assumption. exists c0, rest. split; [assumption|].
    now apply units_eV. }
  split; [exact Hok | now apply fit_execute_run].
Qed.

End FitBackgroundFacts.

(* ===================================================================== *)
(** * EELSSubtractBackground and EELSMapBackgroundSubtractedSignal          *)
(* ===================================================================== *)

Section SubtractAndMapFacts.
Context `{DataAPI}.

Lemma subtract_execute_component_spec sx fi the_id acc c
    (sw : EELSSubtractBackground.Self * World) :
  EELSSubtractBackground.execute_component sx fi the_id acc c sw =
  if is_selected the_id c
  then (subtract_work sx fi c, (sw.1, record_call (CallSubtractBackground c) sw.2))
  else (Ret acc, sw).
Proof.
  unfold EELSSubtractBackground.execute_component, is_selected, subtract_work, getitem.
  destruct (str_eq the_id (background_model_id c)); [|reflexivity].
  run_step.
  destruct (subtract_background_method c sx fi) as [d|e]; [|reflexivity].
  now destruct (d !! "subtracted").
Qed.

Lemma subtract_execute_run item model gs x (sw : EELSSubtractBackground.Self * World) :
  image_inputs_ok item x ->
  EELSSubtractBackground.execute item model gs sw = subtract_run x model gs sw.
Proof.
  intros (Hx & H1d & Hnav & (c0 & rest & Hcal & Hunits)).
  apply units_eV in Hunits.
  unfold EELSSubtractBackground.execute, subtract_run. run_with_facts.
  destruct (for_fold _ _ _ sw) as [[[sub|]|e] [self' w']]; reflexivity.
Qed.

Lemma subtract_execute_cases item model gs (sw : EELSSubtractBackground.Self * World) :
  (exists e, EELSSubtractBackground.execute item model gs sw = (Raise e, sw))
  \/ (exists x,
        image_inputs_ok item x
        /\ EELSSubtractBackground.execute item model gs sw = subtract_run x model gs sw).
Proof.
  destruct (xdata item) as [x|] eqn:Hx;
    [|left; eexists; unfold EELSSubtractBackground.execute; now run_with_facts].
  destruct (is_datum_1d x) eqn:H1d;
    [|left; eexists; unfold EELSSubtractBackground.execute; now run_with_facts].
  destruct (is_navigable x) eqn:Hnav;
    [|left; eexists; unfold EELSSubtractBackground.execute; now run_with_facts].
  destruct (datum_dimensional_calibrations x) as [|c0 rest] eqn:Hcal;
    [left; eexists; unfold EELSSubtractBackground.execute; now run_with_facts|].
  destruct (str_eq (units c0) "eV") eqn:Hunits;
    [|left; eexists; unfold EELSSubtractBackground.execute; now run_with_facts].
  right. exists x.
  assert (image_inputs_ok item x) as Hok.
  { repeat split; try assumption. exists c0, rest. split; [assumption|].
    now apply units_eV. }
  split; [exact Hok | now apply subtract_execute_run].
Qed.

Lemma check_eels_spectrum_run eels ex
    (sw : EELSMapBackgroundSubtractedSignal.Self * World) :
  eels_spectrum_ok eels ex ->
  EELSMapBackgroundSubtractedSignal.check_eels_spectrum eels sw = (Ret ex, sw).
Proof.
  unfold eels_spectrum_ok, EELSMapBackgroundSubtractedSignal.check_eels_spectrum.
  destruct eels as [item|]; [|now intros ->].
  intros (x & -> & Hx & H1d & (c0 & rest & Hcal & Hunits)).
  apply units_eV in Hunits. now run_with_facts.
Qed.

Lemma check_eels_spectrum_cases eels (sw : EELSMapBackgroundSubtractedSignal.Self * World) :
  (exists e, EELSMapBackgroundSubtractedSignal.check_eels_spectrum eels sw = (Raise e, sw))
  \/ (exists ex, eels_spectrum_ok eels ex
        /\ EELSMapBackgroundSubtractedSignal.check_eels_spectrum eels sw = (Ret ex, sw)).
Proof.
  destruct eels as [item|]; [|right; exists None; split; reflexivity].
  destruct (xdata item) as [x|] eqn:Hx;
    [|left; eexists; unfold EELSMapBackgroundSubtractedSignal.check_eels_spectrum;
      now run_with_facts].
  destruct (is_datum_1d x) eqn:H1d;
    [|left; eexists; unfold EELSMapBackgroundSubtractedSignal.check_eels_spectrum;
      now run_with_facts].
  destruct (datum_dimensional_calibrations x) as [|c0 rest] eqn:Hcal;
    [left; eexists; unfold EELSMapBackgroundSubtractedSignal.check_eels_spectrum;
     now run_with_facts|].
  destruct (str_eq (units c0) "eV") eqn:Hunits;
    [|left; eexists; unfold EELSMapBackgroundSubtractedSignal.check_eels_spectrum;
      now run_with_facts].
  right. exists (Some x).
  assert (eels_spectrum_ok (Some item) (Some x)) as Hok.
  { exists x. repeat split; try assumption. exists c0, rest. split; [assumption|].
    now apply units_eV. }
  split; [exact Hok | now apply check_eels_spectrum_run].
Qed.

Lemma map_execute_component_spec sx ex fi si the_id acc c
    (sw : EELSMapBackgroundSubtractedSignal.Self * World) :
  EELSMapBackgroundSubtractedSignal.execute_component sx ex fi si the_id acc c sw =
  if is_selected the_id c
  then (map_work sx ex fi si c, (sw.1, record_call (CallIntegrateSignal c) sw.2))
  else (Ret acc, sw).
Proof.
  unfold EELSMapBackgroundSubtractedSignal.execute_component, is_selected, map_work,
    getitem.
  destruct (str_eq the_id (background_model_id c)); [|reflexivity].
  run_step.
  destruct (integrate_signal c sx ex fi si) as [d|e]; [|reflexivity].
  now destruct (d !! "integrated").
Qed.

Lemma map_execute_run item model gs g eels x ex
    (sw : EELSMapBackgroundSubtractedSignal.Self * World) :
  image_inputs_ok item x -> eels_spectrum_ok eels ex ->
  EELSMapBackgroundSubtractedSignal.execute item model gs g eels sw
  = map_run x ex model gs g sw.
Proof.
  intros (Hx & H1d & Hnav & (c0 & rest & Hcal & Hunits)) Hex.
  apply units_eV in Hunits.
  pose proof (check_eels_spectrum_run eels ex sw Hex) as Hcheck.
  unfold EELSMapBackgroundSubtractedSignal.execute, map_run. run_with_facts.
  destruct (for_fold _ _ _ sw) as [[[m|]|e'] [self' w']]; reflexivity.
Qed.

Lemma map_execute_cases item model gs g eels
    (sw : EELSMapBackgroundSubtractedSignal.Self * World) :
  (exists e, EELSMapBackgroundSubtractedSignal.execute item model gs g eels sw
             = (Raise e, sw))
  \/ (exists x ex,
        image_inputs_ok item x /\ eels_spectrum_ok eels ex
        /\ EELSMapBackgroundSubtractedSignal.execute item model gs g eels sw
           = map_run x ex model gs g sw).
Proof.
  destruct (xdata item) as [x|] eqn:Hx;
    [|left; eexists; unfold EELSMapBackgroundSubtractedSignal.execute;
      now run_with_facts].
  destruct (is_datum_1d x) eqn:H1d;
    [|left; eexists; unfold EELSMapBackgroundSubtractedSignal.execute;
      now run_with_facts].
  destruct (is_navigable x) eqn:Hnav;
    [|left; eexists; unfold EELSMapBackgroundSubtractedSignal.execute;
      now run_with_facts].
  destruct (datum_dimensional_calibrations x) as [|c0 rest] eqn:Hcal;
    [left; eexists; unfold EELSMapBackgroundSubtractedSignal.execute;
     now run_with_facts|].
  destruct (str_eq (units c0) "eV") eqn:Hunits;
    [|left; eexists; unfold EELSMapBackgroundSubtractedSignal.execute;
      now run_with_facts].
  destruct (check_eels_spectrum_cases eels sw) as [[e He]|(ex & Hok & He)].
  { left. exists e. unfold EELSMapBackgroundSubtractedSignal.execute.
    now run_with_facts. }
  right. exists x, ex.
  assert (image_inputs_ok item x) as Hok'.
  { repeat split; try assumption. exists c0, rest. split; [assumption|].
    now apply units_eV. }
  split; [exact Hok'|]. split; [exact Hok | now apply map_execute_run].
Qed.

End SubtractAndMapFacts.

(* ===================================================================== *)
(** * What a run of [execute] does to the world                            *)
(* ===================================================================== *)

Section ExecuteWorld.
Context `{DataAPI}.

Lemma publications_add_calls cs w :
  Forall (fun c => is_publication c = false) cs ->
  publications (add_calls cs w) = publications w.
Proof.
  intros Hcs. unfold publications, add_calls. simpl. rewrite List.filter_app.
  replace (List.filter is_publication cs) with (@nil Call); [apply app_nil_r|].
  induction Hcs as [|c cs Hc _ IH]; simpl; [reflexivity|]. now rewrite Hc.
Qed.

Lemma component_calls_not_publications (K : Component -> Call) invoked :
  (forall c, is_publication (K c) = false) ->
  Forall (fun c => is_publication c = false) (map K invoked).
Proof. intros HK. apply Forall_map, Forall_forall. intros c _. apply HK. Qed.

(** [execute] of the fitting handler journals calls of [fit_background]
    on an initial segment of the selected components, on all of them
    when it returns, and changes nothing else of the world. The handler
    object is changed only when [execute] returns. *)
Lemma fit_execute_world item model gs (sw : EELSFitBackground.Self * World) :
  let r := EELSFitBackground.execute item model gs sw in
  exists invoked,
    invoked `prefix_of` matching_components (registry sw.2) (structure_type model)
    /\ r.2.2 = add_calls (map CallFitBackground invoked) sw.2
    /\ (r.1 = Ret tt ->
        invoked = matching_components (registry sw.2) (structure_type model)
        /\ exists b s,
             r.2.1 = {| EELSFitBackground.__background_xdata := Some b;
                        EELSFitBackground.__subtracted_xdata := Some s |})
    /\ (r.1 <> Ret tt -> r.2.1 = sw.1).
Proof.
  destruct (fit_execute_cases item model gs sw) as [[e He]|(x & fm & sig & Hok & Hrun)];
    simpl.
  - rewrite He. exists []. simpl. rewrite add_calls_nil.
    split; [apply prefix_nil|]. split; [reflexivity|].
    split; [discriminate | reflexivity].
  - rewrite Hrun. unfold fit_run.
    destruct (for_fold_dispatch (structure_type model) CallFitBackground
                (fit_work x (collect_fit_intervals gs) (fm, 1%float))
                _ (fit_execute_component_spec _ _ _ _)
                (get_components_by_type (registry sw.2) "background-model")
                (None, None) sw) as (invoked & Hpre & Hst & Hres).
    exists invoked. split; [exact Hpre|].
    destruct (for_fold _ _ _ sw) as [[locals|e] sw']; simpl in *; subst sw'.
    + destruct Hres as [-> _]. repeat split; eauto. congruence.
    + repeat split; congruence.
Qed.

Lemma subtract_execute_world item model gs (sw : EELSSubtractBackground.Self * World) :
  let r := EELSSubtractBackground.execute item model gs sw in
  exists invoked,
    invoked `prefix_of` matching_components (registry sw.2) (structure_type model)
    /\ r.2.2 = add_calls (map CallSubtractBackground invoked) sw.2
    /\ (r.1 = Ret tt ->
        invoked = matching_components (registry sw.2) (structure_type model)
        /\ exists s, r.2.1 = {| EELSSubtractBackground.__subtracted_xdata := Some s |})
    /\ (r.1 <> Ret tt -> r.2.1 = sw.1).
Proof.
  destruct (subtract_execute_cases item model gs sw) as [[e He]|(x & Hok & Hrun)]; simpl.
  - rewrite He. exists []. simpl. rewrite add_calls_nil.
    split; [apply prefix_nil|]. split; [reflexivity|].
    split; [discriminate | reflexivity].
  - rewrite Hrun. unfold subtract_run.
    destruct (for_fold_dispatch (structure_type model) CallSubtractBackground
                (subtract_work x (collect_fit_intervals gs))
                _ (subtract_execute_component_spec _ _ _)
                (get_components_by_type (registry sw.2) "background-model")
                None sw) as (invoked & Hpre & Hst & Hres).
    exists invoked. split; [exact Hpre|].
    destruct (for_fold _ _ _ sw) as [[o|e] sw']; simpl in *; subst sw'.
    + destruct Hres as [-> _]. repeat split; eauto. congruence.
    + repeat split; congruence.
Qed.

Lemma map_execute_world item model gs g eels
    (sw : EELSMapBackgroundSubtractedSignal.Self * World) :
  let r := EELSMapBackgroundSubtractedSignal.execute item model gs g eels sw in
  exists invoked,
    invoked `prefix_of` matching_components (registry sw.2) (structure_type model)
    /\ r.2.2 = add_calls (map CallIntegrateSignal invoked) sw.2
    /\ (r.1 = Ret tt ->
        invoked = matching_components (registry sw.2) (structure_type model)
        /\ exists m,
             r.2.1 = {| EELSMapBackgroundSubtractedSignal.__mapped_xdata := Some m |})
    /\ (r.1 <> Ret tt -> r.2.1 = sw.1).
Proof.
  destruct (map_execute_cases item model gs g eels sw)
    as [[e He]|(x & ex & Hok & Hex & Hrun)]; simpl.
  - rewrite He. exists []. simpl. rewrite add_calls_nil.
    split; [apply prefix_nil|]. split; [reflexivity|].
    split; [discriminate | reflexivity].
  - rewrite Hrun. unfold map_run.
    destruct (for_fold_dispatch (structure_type model) CallIntegrateSignal
                (map_work x ex (collect_fit_intervals gs)
                          (normalized_interval (interval g)))
                _ (map_execute_component_spec _ _ _ _ _)
                (get_components_by_type (registry sw.2) "background-model")
                None sw) as (invoked & Hpre & Hst & Hres).
    exists invoked. split; [exact Hpre|].
    destruct (for_fold _ _ _ sw) as [[o|e] sw']; simpl in *; subst sw'.
    + destruct Hres as [-> _]. repeat split; eauto. congruence.
    + repeat split; congruence.
Qed.

(** ** [commit] *)

Lemma fit_commit_spec (self : EELSFitBackground.Self) (w : World) :
  EELSFitBackground.commit (self, w) =
  match EELSFitBackground.__background_xdata self,
        EELSFitBackground.__subtracted_xdata self with
  | Some b, Some s =>
      (Ret tt, (self, publish "subtracted" s (publish "background" b w)))
  | _, _ => (Raise AssertionError, (self, w))
  end.
Proof.
  unfold EELSFitBackground.commit. run_step.
  destruct (EELSFitBackground.__background_xdata self); [|reflexivity].
  now destruct (EELSFitBackground.__subtracted_xdata self).
Qed.

Lemma subtract_commit_spec (self : EELSSubtractBackground.Self) (w : World) :
  EELSSubtractBackground.commit (self, w) =
  match EELSSubtractBackground.__subtracted_xdata self with
  | Some s => (Ret tt, (self, publish "subtracted" s w))
  | None =>
      (Raise (AttributeError "_EELSSubtractBackground__subtracted_xdata"), (self, w))
  end.
Proof.
  unfold EELSSubtractBackground.commit, EELSSubtractBackground.get___subtracted_xdata.
  run_step. now destruct (EELSSubtractBackground.__subtracted_xdata self).
Qed.

Lemma map_commit_spec (self : EELSMapBackgroundSubtractedSignal.Self) (w : World) :
  EELSMapBackgroundSubtractedSignal.commit (self, w) =
  match EELSMapBackgroundSubtractedSignal.__mapped_xdata self with
  | Some m => (Ret tt, (self, publish "map" m w))
  | None =>
      (Raise (AttributeError "_EELSMapBackgroundSubtractedSignal__mapped_xdata"),
       (self, w))
  end.
Proof.
  unfold EELSMapBackgroundSubtractedSignal.commit,
    EELSMapBackgroundSubtractedSignal.get___mapped_xdata.
  run_step. now destruct (EELSMapBackgroundSubtractedSignal.__mapped_xdata self).
Qed.

End ExecuteWorld.

(* ===================================================================== *)
(** * The computation handlers: buffering, selection, fall-backs, checks   *)
(* ===================================================================== *)

Section HandlerClaims.
Context `{DataAPI}.

Lemma publications_publish name value w :
  publications (publish name value w)
  = publications w ++ [CallSetReferencedXData name value].
Proof. unfold publications, publish. simpl. now rewrite List.filter_app. Qed.

Lemma execute_frame (K : Component -> Call) invoked (w w' : World) :
  (forall c, is_publication (K c) = false) ->
  w' = add_calls (map K invoked) w ->
  referenced_xdata w' = referenced_xdata w /\ publications w' = publications w.
Proof.
  intros HK ->. split; [reflexivity|].
  now apply publications_add_calls, component_calls_not_publications.
Qed.

(** C1. For each of the three handler classes, [execute] writes its
    results into the handler's private buffers only: whatever its
    outcome, the computation's referenced output xdata is unchanged and
    no call of [set_referenced_xdata] is made. [commit] is the method
    that publishes: when the buffers are filled, it sets the outputs to
    exactly the buffered values, and otherwise it raises and publishes
    nothing. After every run of [execute] that returns, the buffers are
    filled and the subsequent [commit] sets the outputs to them. *)
Theorem execute_buffers_commit_publishes :
  (forall item model gs (sw : EELSFitBackground.Self * World),
     let r := EELSFitBackground.execute item model gs sw in
     referenced_xdata r.2.2 = referenced_xdata sw.2
     /\ publications r.2.2 = publications sw.2
     /\ (r.1 = Ret tt ->
         exists b s,
           EELSFitBackground.__background_xdata r.2.1 = Some b
           /\ EELSFitBackground.__subtracted_xdata r.2.1 = Some s
           /\ let c := EELSFitBackground.commit r.2 in
              c.1 = Ret tt /\ c.2.1 = r.2.1
              /\ referenced_xdata c.2.2
                 = <["subtracted" := s]> (<["background" := b]> (referenced_xdata sw.2))))
  /\ (forall (self : EELSFitBackground.Self) (w : World),
        let c := EELSFitBackground.commit (self, w) in
        match EELSFitBackground.__background_xdata self,
              EELSFitBackground.__subtracted_xdata self with
        | Some b, Some s =>
            c.1 = Ret tt /\ c.2.1 = self
            /\ referenced_xdata c.2.2
               = <["subtracted" := s]> (<["background" := b]> (referenced_xdata w))
            /\ publications c.2.2
               = publications w ++ [CallSetReferencedXData "background" b;
                                     CallSetReferencedXData "subtracted" s]
        | _, _ => c = (Raise AssertionError, (self, w))
        end)
  /\ (forall item model gs (sw : EELSSubtractBackground.Self * World),
        let r := EELSSubtractBackground.execute item model gs sw in
        referenced_xdata r.2.2 = referenced_xdata sw.2
        /\ publications r.2.2 = publications sw.2
        /\ (r.1 = Ret tt ->
            exists s,
              EELSSubtractBackground.__subtracted_xdata r.2.1 = Some s
              /\ let c := EELSSubtractBackground.commit r.2 in
                 c.1 = Ret tt /\ c.2.1 = r.2.1
                 /\ referenced_xdata c.2.2 = <["subtracted" := s]> (referenced_xdata sw.2)))
  /\ (forall (self : EELSSubtractBackground.Self) (w : World),
        let c := EELSSubtractBackground.commit (self, w) in
        match EELSSubtractBackground.__subtracted_xdata self with
        | Some s =>
            c.1 = Ret tt /\ c.2.1 = self
            /\ referenced_xdata c.2.2 = <["subtracted" := s]> (referenced_xdata w)
            /\ publications c.2.2
               = publications w ++ [CallSetReferencedXData "subtracted" s]
        | None =>
            c = (Raise (AttributeError "_EELSSubtractBackground__subtracted_xdata"),
                 (self, w))
        end)
  /\ (forall item model gs g eels (sw : EELSMapBackgroundSubtractedSignal.Self * World),
        let r := EELSMapBackgroundSubtractedSignal.execute item model gs g eels sw in
        referenced_xdata r.2.2 = referenced_xdata sw.2
        /\ publications r.2.2 = publications sw.2
        /\ (r.1 = Ret tt ->
            exists m,
              EELSMapBackgroundSubtractedSignal.__mapped_xdata r.2.1 = Some m
              /\ let c := EELSMapBackgroundSubtractedSignal.commit r.2 in
                 c.1 = Ret tt /\ c.2.1 = r.2.1
                 /\ referenced_xdata c.2.2 = <["map" := m]> (referenced_xdata sw.2)))
  /\ (forall (self : EELSMapBackgroundSubtractedSignal.Self) (w : World),
        let c := EELSMapBackgroundSubtractedSignal.commit (self, w) in
        match EELSMapBackgroundSubtractedSignal.__mapped_xdata self with
        | Some m =>
            c.1 = Ret tt /\ c.2.1 = self
            /\ referenced_xdata c.2.2 = <["map" := m]> (referenced_xdata w)
            /\ publications c.2.2 = publications w ++ [CallSetReferencedXData "map" m]
        | None =>
            c = (Raise (AttributeError "_EELSMapBackgroundSubtractedSignal__mapped_xdata"),
                 (self, w))
        end).
Proof.
  repeat apply conj.
  - intros item model gs sw r.
    destruct (fit_execute_world item model gs sw) as (invoked & _ & Hw & Hret & _).
    fold r in Hw, Hret.
    destruct (execute_frame CallFitBackground invoked sw.2 r.2.2) as [Href Hpub];
      [reflexivity | exact Hw |].
    split; [exact Href|]. split; [exact Hpub|].
    intros Hr. destruct (Hret Hr) as (_ & b & s & Hself).
    exists b, s. rewrite Hself. split; [reflexivity|]. split; [reflexivity|].
    destruct r.2 as [self' w'] eqn:Hr2. simpl in *. subst self'.
    rewrite fit_commit_spec. simpl. rewrite Href. repeat split.
  - intros self w c. subst c. rewrite fit_commit_spec.
    destruct (EELSFitBackground.__background_xdata self) as [b|]; [|reflexivity].
    destruct (EELSFitBackground.__subtracted_xdata self) as [s|]; [|reflexivity].
    simpl. rewrite !publications_publish, <- app_assoc. repeat split.
  - intros item model gs sw r.
    destruct (subtract_execute_world item model gs sw) as (invoked & _ & Hw & Hret & _).
    fold r in Hw, Hret.
    destruct (execute_frame CallSubtractBackground invoked sw.2 r.2.2) as [Href Hpub];
      [reflexivity | exact Hw |].
    split; [exact Href|]. split; [exact Hpub|].
    intros Hr. destruct (Hret Hr) as (_ & s & Hself).
    exists s. rewrite Hself. split; [reflexivity|].
    destruct r.2 as [self' w'] eqn:Hr2. simpl in *. subst self'.
    rewrite subtract_commit_spec. simpl. rewrite Href. repeat split.
  - intros self w c. subst c. rewrite subtract_commit_spec.
    destruct (EELSSubtractBackground.__subtracted_xdata self) as [s|]; [|reflexivity].
    simpl. rewrite publications_publish. repeat split.
  - intros item model gs g eels sw r.
    destruct (map_execute_world item model gs g eels sw)
      as (invoked & _ & Hw & Hret & _).
    fold r in Hw, Hret.
    destruct (execute_frame CallIntegrateSignal invoked sw.2 r.2.2) as [Href Hpub];
      [reflexivity | exact Hw |].
    split; [exact Href|]. split; [exact Hpub|].
    intros Hr. destruct (Hret Hr) as (_ & m & Hself).
    exists m. rewrite Hself. split; [reflexivity|].
    destruct r.2 as [self' w'] eqn:Hr2. simpl in *. subst self'.
    rewrite map_commit_spec. simpl. rewrite Href. repeat split.
  - intros self w c. subst c. rewrite map_commit_spec.
    destruct (EELSMapBackgroundSubtractedSignal.__mapped_xdata self) as [m|];
      [|reflexivity].
    simpl. rewrite publications_publish. repeat split.
Qed.

(** The journal of a run grows by calls of the selected components only. *)
Lemma invoked_are_selected the_registry the_id (invoked : list Component) :
  invoked `prefix_of` matching_components the_registry the_id ->
  forall c, c ∈ invoked ->
    (exists types, (c, types) ∈ the_registry /\ "background-model" ∈ types)
    /\ background_model_id c = the_id.
Proof.
  intros [rest Hrest] c Hc. apply matching_components_spec.
  rewrite Hrest. apply elem_of_app. now left.
Qed.

(** C2, amended. For every call to [execute] of any of the three handler
    classes, the components whose algorithm ([fit_background],
    [subtract_background] or [integrate_signal]) is invoked are
    components registered under ["background-model"] whose
    [background_model_id] equals the [structure_type] of the
    [background_model] input, taken in registry order; a component with
    another [background_model_id] is never invoked. When [execute]
    returns, exactly the selected components have been invoked, each
    once. *)
Theorem execute_invokes_selected_components :
  (forall item model gs (sw : EELSFitBackground.Self * World),
     let r := EELSFitBackground.execute item model gs sw in
     exists invoked,
       journal r.2.2 = journal sw.2 ++ map CallFitBackground invoked
       /\ invoked `prefix_of` matching_components (registry sw.2) (structure_type model)
       /\ (forall c, c ∈ invoked ->
             (exists types, (c, types) ∈ registry sw.2 /\ "background-model" ∈ types)
             /\ background_model_id c = structure_type model)
       /\ (r.1 = Ret tt ->
           invoked = matching_components (registry sw.2) (structure_type model)))
  /\ (forall item model gs (sw : EELSSubtractBackground.Self * World),
        let r := EELSSubtractBackground.execute item model gs sw in
        exists invoked,
          journal r.2.2 = journal sw.2 ++ map CallSubtractBackground invoked
          /\ invoked `prefix_of` matching_components (registry sw.2) (structure_type model)
          /\ (forall c, c ∈ invoked ->
                (exists types, (c, types) ∈ registry sw.2 /\ "background-model" ∈ types)
                /\ background_model_id c = structure_type model)
          /\ (r.1 = Ret tt ->
              invoked = matching_components (registry sw.2) (structure_type model)))
  /\ (forall item model gs g eels (sw : EELSMapBackgroundSubtractedSignal.Self * World),
        let r := EELSMapBackgroundSubtractedSignal.execute item model gs g eels sw in
        exists invoked,
          journal r.2.2 = journal sw.2 ++ map CallIntegrateSignal invoked
          /\ invoked `prefix_of` matching_components (registry sw.2) (structure_type model)
          /\ (forall c, c ∈ invoked ->
                (exists types, (c, types) ∈ registry sw.2 /\ "background-model" ∈ types)
                /\ background_model_id c = structure_type model)
          /\ (r.1 = Ret tt ->
              invoked = matching_components (registry sw.2) (structure_type model))).
Proof.
  repeat apply conj.
  - intros item model gs sw r.
    destruct (fit_execute_world item model gs sw) as (invoked & Hpre & Hw & Hret & _).
    fold r in Hw, Hret. exists invoked. rewrite Hw.
    split; [reflexivity|]. split; [exact Hpre|].
    split; [now apply invoked_are_selected|]. intros Hr. now destruct (Hret Hr).
  - intros item model gs sw r.
    destruct (subtract_execute_world item model gs sw) as (invoked & Hpre & Hw & Hret & _).
    fold r in Hw, Hret. exists invoked. rewrite Hw.
    split; [reflexivity|]. split; [exact Hpre|].
    split; [now apply invoked_are_selected|]. intros Hr. now destruct (Hret Hr).
  - intros item model gs g eels sw r.
    destruct (map_execute_world item model gs g eels sw)
      as (invoked & Hpre & Hw & Hret & _).
    fold r in Hw, Hret. exists invoked. rewrite Hw.
    split; [reflexivity|]. split; [exact Hpre|].
    split; [now apply invoked_are_selected|]. intros Hr. now destruct (Hret Hr).
Qed.

(** The fall-back applies when no component is selected. *)
Lemma no_selected_component the_registry the_id :
  (forall c, c ∈ get_components_by_type the_registry "background-model" ->
             background_model_id c <> the_id) ->
  matching_components the_registry the_id = [].
Proof.
  intros Hno. unfold matching_components.
  induction (get_components_by_type the_registry "background-model") as [|c cs IH];
    [reflexivity|].
  simpl. destruct (is_selected the_id c) eqn:Hsel.
  - exfalso. apply (Hno c); [apply list_elem_of_here|].
    unfold is_selected, str_eq in Hsel. symmetry. now apply String.eqb_eq.
  - apply IH. intros c' Hc'. apply Hno. now apply list_elem_of_further.
Qed.

(** C9, amended. For every run of [execute] whose inputs pass the
    handler's input assertions (and, for [EELSFitBackground], that has
    at least one fit interval and whose signal slice can be taken) and
    in which no registered ["background-model"] component's
    [background_model_id] matches the [structure_type] of the
    [background_model] input, the handler returns with the defaults
    buffered, no component having been called: [EELSFitBackground]
    buffers an all-zeros background like the signal slice's data with
    the slice's calibrations and a subtracted result with the signal
    slice's data; [EELSSubtractBackground] and
    [EELSMapBackgroundSubtractedSignal] buffer zeros of the spectrum
    image's navigation dimension shape with its navigation
    calibrations. *)
Theorem no_selected_component_defaults :
  (forall item model gs x fm sig (self : EELSFitBackground.Self) (w : World),
     fit_inputs_ok item gs x fm sig ->
     (forall c, c ∈ get_components_by_type (registry w) "background-model" ->
                background_model_id c <> structure_type model) ->
     EELSFitBackground.execute item model gs (self, w)
     = (Ret tt,
        ({| EELSFitBackground.__background_xdata :=
              Some (new_data_and_metadata (numpy_zeros_like (data sig))
                      (Some (intensity_calibration sig))
                      (Some (dimensional_calibrations sig)));
            EELSFitBackground.__subtracted_xdata :=
              Some (new_data_and_metadata (data sig)
                      (Some (intensity_calibration sig))
                      (Some (dimensional_calibrations sig))) |},
         w)))
  /\ (forall item model gs x (self : EELSSubtractBackground.Self) (w : World),
        image_inputs_ok item x ->
        (forall c, c ∈ get_components_by_type (registry w) "background-model" ->
                   background_model_id c <> structure_type model) ->
        EELSSubtractBackground.execute item model gs (self, w)
        = (Ret tt,
           ({| EELSSubtractBackground.__subtracted_xdata :=
                 Some (new_data_and_metadata
                         (numpy_zeros (navigation_dimension_shape x)) None
                         (Some (navigation_dimensional_calibrations x))) |},
            w)))
  /\ (forall item model gs g eels x ex
             (self : EELSMapBackgroundSubtractedSignal.Self) (w : World),
        image_inputs_ok item x -> eels_spectrum_ok eels ex ->
        (forall c, c ∈ get_components_by_type (registry w) "background-model" ->
                   background_model_id c <> structure_type model) ->
        EELSMapBackgroundSubtractedSignal.execute item model gs g eels (self, w)
        = (Ret tt,
           ({| EELSMapBackgroundSubtractedSignal.__mapped_xdata :=
                 Some (new_data_and_metadata
                         (numpy_zeros (navigation_dimension_shape x)) None
                         (Some (navigation_dimensional_calibrations x))) |},
            w))).
Proof.
  repeat apply conj.
  - intros item model gs x fm sig self w Hok Hno.
    rewrite (fit_execute_run _ _ _ _ _ _ _ Hok). unfold fit_run.
    destruct (for_fold_dispatch (structure_type model) CallFitBackground
                (fit_work x (collect_fit_intervals gs) (fm, 1%float))
                _ (fit_execute_component_spec _ _ _ _)
                (get_components_by_type (registry w) "background-model")
                (None, None) (self, w)) as (invoked & Hpre & Hst & Hres).
    fold (matching_components (registry w) (structure_type model)) in Hpre, Hres.
    rewrite (no_selected_component _ _ Hno) in Hpre, Hres. simpl in *.
    destruct (for_fold _ _ _ (self, w)) as [[locals|e] sw']; simpl in *; subst sw'.
    + destruct Hres as [-> ->]. simpl. now rewrite add_calls_nil.
    + destruct Hres as (c & Hc & _). now apply elem_of_nil in Hc.
  - intros item model gs x self w Hok Hno.
    rewrite (subtract_execute_run _ _ _ _ _ Hok). unfold subtract_run.
    destruct (for_fold_dispatch (structure_type model) CallSubtractBackground
                (subtract_work x (collect_fit_intervals gs))
                _ (subtract_execute_component_spec _ _ _)
                (get_components_by_type (registry w) "background-model")
                None (self, w)) as (invoked & Hpre & Hst & Hres).
    fold (matching_components (registry w) (structure_type model)) in Hpre, Hres.
    rewrite (no_selected_component _ _ Hno) in Hpre, Hres. simpl in *.
    destruct (for_fold _ _ _ (self, w)) as [[o|e] sw']; simpl in *; subst sw'.
    + destruct Hres as [-> ->]. simpl. now rewrite add_calls_nil.
    + destruct Hres as (c & Hc & _). now apply elem_of_nil in Hc.
  - intros item model gs g eels x ex self w Hok Hex Hno.
    rewrite (map_execute_run _ _ _ _ _ _ _ _ Hok Hex). unfold map_run.
    destruct (for_fold_dispatch (structure_type model) CallIntegrateSignal
                (map_work x ex (collect_fit_intervals gs)
                          (normalized_interval (interval g)))
                _ (map_execute_component_spec _ _ _ _ _)
                (get_components_by_type (registry w) "background-model")
                None (self, w)) as (invoked & Hpre & Hst & Hres).
    fold (matching_components (registry w) (structure_type model)) in Hpre, Hres.
    rewrite (no_selected_component _ _ Hno) in Hpre, Hres. simpl in *.
    destruct (for_fold _ _ _ (self, w)) as [[o|e] sw']; simpl in *; subst sw'.
    + destruct Hres as [-> ->]. simpl. now rewrite add_calls_nil.
    + destruct Hres as (c & Hc & _). now apply elem_of_nil in Hc.
Qed.

Lemma fit_background_answers_work x fi si c :
  fit_background_answers x fi si c -> exists locals, fit_work x fi si c = Ret locals.
Proof.
  intros (fit_result & bg & Hfit & Hbg & Hsub). unfold fit_work.
  rewrite Hfit, Hbg.
  destruct (fit_result !! "subtracted_spectrum") as [sub|]; [eauto|].
  specialize (Hsub eq_refl).
  destruct (calibrated_subtract_spectrum x bg); [eauto | discriminate].
Qed.

(** C10, amended. [EELSFitBackground.execute] raises an assertion error,
    leaving the handler's buffers (and everything else) as they were,
    whenever the spectrum input's xdata is missing, is not
    one-dimensional datum data, or its datum dimensional calibration
    units are not ["eV"]. When the input satisfies all three conditions,
    there is at least one fit interval, the signal slice can be taken,
    and every selected component's [fit_background] answers, no
    assertion fails, [execute] returns and both buffers are assigned. *)
Theorem fit_execute_assertions :
  (forall item model gs (sw : EELSFitBackground.Self * World),
     xdata item = None ->
     EELSFitBackground.execute item model gs sw = (Raise AssertionError, sw))
  /\ (forall item model gs (sw : EELSFitBackground.Self * World) x,
        xdata item = Some x -> is_datum_1d x = false ->
        EELSFitBackground.execute item model gs sw = (Raise AssertionError, sw))
  /\ (forall item model gs (sw : EELSFitBackground.Self * World) x calibration rest,
        xdata item = Some x -> is_datum_1d x = true ->
        datum_dimensional_calibrations x = calibration :: rest ->
        units calibration <> "eV" ->
        EELSFitBackground.execute item model gs sw = (Raise AssertionError, sw))
  /\ (forall item model gs x fm sig (sw : EELSFitBackground.Self * World),
        fit_inputs_ok item gs x fm sig ->
        (forall c, c ∈ matching_components (registry sw.2) (structure_type model) ->
                   fit_background_answers x (collect_fit_intervals gs) (fm, 1%float) c) ->
        exists b s,
          EELSFitBackground.execute item model gs sw
          = (Ret tt,
             ({| EELSFitBackground.__background_xdata := Some b;
                 EELSFitBackground.__subtracted_xdata := Some s |},
              add_calls
                (map CallFitBackground
                     (matching_components (registry sw.2) (structure_type model)))
                sw.2))).
Proof.
  repeat apply conj.
  - intros item model gs sw Hx. unfold EELSFitBackground.execute. now run_with_facts.
  - intros item model gs sw x Hx H1d. unfold EELSFitBackground.execute.
    now run_with_facts.
  - intros item model gs sw x c0 rest Hx H1d Hcal Hunits.
    assert (str_eq (units c0) "eV" = false) as Hne.
    { destruct (str_eq (units c0) "eV") eqn:E; [|reflexivity].
      now apply units_eV in E. }
    unfold EELSFitBackground.execute. now run_with_facts.
  - intros item model gs x fm sig sw Hok Hanswers.
    rewrite (fit_execute_run _ _ _ _ _ _ _ Hok). unfold fit_run.
    destruct (for_fold_dispatch (structure_type model) CallFitBackground
                (fit_work x (collect_fit_intervals gs) (fm, 1%float))
                _ (fit_execute_component_spec _ _ _ _)
                (get_components_by_type (registry sw.2) "background-model")
                (None, None) sw) as (invoked & Hpre & Hst & Hres).
    fold (matching_components (registry sw.2) (structure_type model)) in Hpre, Hres.
    destruct (for_fold _ _ _ sw) as [[locals|e] sw']; simpl in *; subst sw'.
    + destruct Hres as [-> _]. simpl. eauto.
    + destruct Hres as (c & Hc & Hwork).
      destruct (fit_background_answers_work _ _ _ _ (Hanswers c Hc)) as [locals Hl].
      congruence.
Qed.

End HandlerClaims.

(* ===================================================================== *)
(** * The handlers on the sample data                                      *)
(* ===================================================================== *)

Lemma sample_fit_inputs_ok :
  fit_inputs_ok Sample.spectrum_item [Sample.fit_graphic]
                Sample.spectrum 0.25%float Sample.spectrum.
Proof.
  repeat split; try reflexivity.
  exists "eV", []. split; reflexivity.
Qed.

Lemma sample_image_inputs_ok :
  image_inputs_ok Sample.spectrum_image_item Sample.spectrum_image.
Proof.
  repeat split; try reflexivity.
  exists "eV", []. split; reflexivity.
Qed.

(** A run of the fitting handler on the sample spectrum returns, and the
    commit that follows publishes the two buffers. *)
Lemma execute_buffers_commit_publishes_witness :
  let sw := (EELSFitBackground.__init__, Sample.world Sample.power_law_registry) in
  let r := EELSFitBackground.execute Sample.spectrum_item Sample.power_law
             [Sample.fit_graphic] sw in
  r.1 = Ret tt
  /\ exists b s,
       EELSFitBackground.__background_xdata r.2.1 = Some b
       /\ EELSFitBackground.__subtracted_xdata r.2.1 = Some s
       /\ let c := EELSFitBackground.commit r.2 in
          c.1 = Ret tt /\ c.2.1 = r.2.1
          /\ referenced_xdata c.2.2
             = <["subtracted" := s]> (<["background" := b]> (referenced_xdata sw.2)).
Proof.
  split; [reflexivity|].
  apply (proj1 (@execute_buffers_commit_publishes Sample.api)
               Sample.spectrum_item Sample.power_law [Sample.fit_graphic]
               (EELSFitBackground.__init__, Sample.world Sample.power_law_registry)).
  reflexivity.
Defined.

(** C2, the claim as stated fails on calls that do not complete the
    loop over the components. With a selected component registered, a
    call of [execute] on a data item without xdata raises at the first
    assertion and invokes no component; and when the first of two
    selected components raises, the second is never invoked. *)
Lemma execute_stops_before_selected_components :
  (let sw := (EELSFitBackground.__init__, Sample.world Sample.power_law_registry) in
   let r := EELSFitBackground.execute Sample.empty_item Sample.power_law
              [Sample.fit_graphic] sw in
   r.1 = Raise AssertionError
   /\ journal r.2.2 = []
   /\ matching_components (registry sw.2) (structure_type Sample.power_law)
      = [Sample.echo_component "power_law_fit_background_model"])
  /\ (let failing := Sample.failing_component "power_law_fit_background_model" in
      let echo := Sample.echo_component "power_law_fit_background_model" in
      let sw := (EELSFitBackground.__init__,
                 Sample.world [ (failing, {[ "background-model" ]});
                                (echo, {[ "background-model" ]}) ]) in
      let r := EELSFitBackground.execute Sample.spectrum_item Sample.power_law
                 [Sample.fit_graphic] sw in
      r.1 = Raise (ExternalError "fit failed")
      /\ journal r.2.2 = [CallFitBackground failing]
      /\ matching_components (registry sw.2) (structure_type Sample.power_law)
         = [failing; echo]).
Proof. repeat split. Qed.

(** On the sample spectrum the selected component is invoked, once, and
    the component registered with another identifier is not. *)
Lemma execute_invokes_selected_components_witness :
  let sw := (EELSFitBackground.__init__, Sample.world Sample.power_law_registry) in
  let r := EELSFitBackground.execute Sample.spectrum_item Sample.power_law
             [Sample.fit_graphic] sw in
  r.1 = Ret tt
  /\ journal r.2.2
     = map CallFitBackground [Sample.echo_component "power_law_fit_background_model"].
Proof.
  split; [reflexivity|].
  destruct (proj1 (@execute_invokes_selected_components Sample.api)
                  Sample.spectrum_item Sample.power_law [Sample.fit_graphic]
                  (EELSFitBackground.__init__, Sample.world Sample.power_law_registry))
    as (invoked & Hjournal & _ & _ & Hret).
  rewrite Hjournal, (Hret eq_refl). reflexivity.
Defined.

(** C9, the claim as stated fails on runs that do not pass the input
    checks: with no component registered at all, [execute] on a data item
    without xdata raises an assertion error, and [execute] on the sample
    spectrum with no fit interval raises the [ValueError] of [min] on
    an empty list; neither buffers a default. *)
Lemma no_selected_component_input_checks_first :
  (let sw := (EELSFitBackground.__init__, Sample.world []) in
   EELSFitBackground.execute Sample.empty_item Sample.power_law [Sample.fit_graphic] sw
   = (Raise AssertionError, sw))
  /\ (let sw := (EELSFitBackground.__init__, Sample.world []) in
      EELSFitBackground.execute Sample.spectrum_item Sample.power_law [] sw
      = (Raise ValueError, sw))
  /\ (let sw := (EELSSubtractBackground.__init__, Sample.world []) in
      EELSSubtractBackground.execute Sample.spectrum_item Sample.power_law
        [Sample.fit_graphic] sw
      = (Raise AssertionError, sw)).
Proof. repeat split. Qed.

Lemma sample_no_selected_component :
  forall c : Component,
    c ∈ get_components_by_type (registry (Sample.world Sample.polynomial_registry))
          "background-model" ->
    background_model_id c <> structure_type Sample.power_law.
Proof.
  intros c Hc. change (c ∈ [Sample.echo_component "polynomial_background_model"]) in Hc.
  apply list_elem_of_singleton in Hc. subst c. discriminate.
Qed.

(** With only a polynomial model registered, the three handlers buffer
    their defaults for a power-law background model. *)
Lemma no_selected_component_defaults_witness :
  let w := Sample.world Sample.polynomial_registry in
  EELSFitBackground.execute Sample.spectrum_item Sample.power_law [Sample.fit_graphic]
    (EELSFitBackground.__init__, w)
  = (Ret tt,
     ({| EELSFitBackground.__background_xdata :=
           Some (new_data_and_metadata (numpy_zeros_like (data Sample.spectrum))
                   (Some (intensity_calibration Sample.spectrum))
                   (Some (dimensional_calibrations Sample.spectrum)));
         EELSFitBackground.__subtracted_xdata :=
           Some (new_data_and_metadata (data Sample.spectrum)
                   (Some (intensity_calibration Sample.spectrum))
                   (Some (dimensional_calibrations Sample.spectrum))) |},
      w))
  /\ EELSSubtractBackground.execute Sample.spectrum_image_item Sample.power_law
       [Sample.fit_graphic] (EELSSubtractBackground.__init__, w)
     = (Ret tt,
        ({| EELSSubtractBackground.__subtracted_xdata :=
              Some (new_data_and_metadata
                      (numpy_zeros (navigation_dimension_shape Sample.spectrum_image))
                      None
                      (Some (navigation_dimensional_calibrations
                               Sample.spectrum_image))) |},
         w))
  /\ EELSMapBackgroundSubtractedSignal.execute Sample.spectrum_image_item
       Sample.power_law [Sample.fit_graphic] Sample.signal_graphic None
       (EELSMapBackgroundSubtractedSignal.__init__, w)
     = (Ret tt,
        ({| EELSMapBackgroundSubtractedSignal.__mapped_xdata :=
              Some (new_data_and_metadata
                      (numpy_zeros (navigation_dimension_shape Sample.spectrum_image))
                      None
                      (Some (navigation_dimensional_calibrations
                               Sample.spectrum_image))) |},
         w)).
Proof.
  destruct (@no_selected_component_defaults Sample.api) as (Hfit & Hsubtract & Hmap).
  split; [|split].
  - apply (Hfit Sample.spectrum_item Sample.power_law [Sample.fit_graphic]
                Sample.spectrum 0.25%float Sample.spectrum
                EELSFitBackground.__init__ (Sample.world Sample.polynomial_registry)
                sample_fit_inputs_ok sample_no_selected_component).
  - apply (Hsubtract Sample.spectrum_image_item Sample.power_law [Sample.fit_graphic]
                Sample.spectrum_image EELSSubtractBackground.__init__
                (Sample.world Sample.polynomial_registry)
                sample_image_inputs_ok sample_no_selected_component).
  - apply (Hmap Sample.spectrum_image_item Sample.power_law [Sample.fit_graphic]
                Sample.signal_graphic None Sample.spectrum_image None
                EELSMapBackgroundSubtractedSignal.__init__
                (Sample.world Sample.polynomial_registry)
                sample_image_inputs_ok eq_refl sample_no_selected_component).
Defined.

(** C10, the claim as stated fails when a selected component raises:
    the sample spectrum passes the three assertions and its signal slice
    is taken, yet [execute] raises what the component raised and
    neither buffer is assigned. *)
Lemma fit_execute_component_failure :
  let failing := Sample.failing_component "power_law_fit_background_model" in
  let sw := (EELSFitBackground.__init__,
             Sample.world [ (failing, {[ "background-model" ]}) ]) in
  let r := EELSFitBackground.execute Sample.spectrum_item Sample.power_law
             [Sample.fit_graphic] sw in
  xdata Sample.spectrum_item = Some Sample.spectrum
  /\ is_datum_1d Sample.spectrum = true
  /\ datum_dimensional_calibrations Sample.spectrum = ["eV"]
  /\ get_calibrated_interval_slice Sample.spectrum (0.25%float, 1%float)
     = Ret Sample.spectrum
  /\ r.1 = Raise (ExternalError "fit failed")
  /\ EELSFitBackground.__background_xdata r.2.1 = None
  /\ EELSFitBackground.__subtracted_xdata r.2.1 = None.
Proof. repeat split. Qed.

Lemma sample_components_answer :
  forall c : Component,
    c ∈ matching_components Sample.power_law_registry
          (structure_type Sample.power_law) ->
    fit_background_answers Sample.spectrum
      (collect_fit_intervals [Sample.fit_graphic]) (0.25%float, 1%float) c.
Proof.
  intros c Hc.
  change (c ∈ [Sample.echo_component "power_law_fit_background_model"]) in Hc.
  apply list_elem_of_singleton in Hc. subst c.
  exists {[ "background_model" := Sample.spectrum ]}, Sample.spectrum.
  repeat split.
Qed.

(** On the sample spectrum with an answering component, [execute]
    returns with both buffers assigned. *)
Lemma fit_execute_assertions_witness :
  exists b s,
    EELSFitBackground.execute Sample.spectrum_item Sample.power_law
      [Sample.fit_graphic]
      (EELSFitBackground.__init__, Sample.world Sample.power_law_registry)
    = (Ret tt,
       ({| EELSFitBackground.__background_xdata := Some b;
           EELSFitBackground.__subtracted_xdata := Some s |},
        add_calls
          (map CallFitBackground
               (matching_components Sample.power_law_registry
                  (structure_type Sample.power_law)))
          (Sample.world Sample.power_law_registry))).
Proof.
  apply (proj2 (proj2 (proj2 (@fit_execute_assertions Sample.api)))
           Sample.spectrum_item Sample.power_law [Sample.fit_graphic]
           Sample.spectrum 0.25%float Sample.spectrum
           (EELSFitBackground.__init__, Sample.world Sample.power_law_registry)
           sample_fit_inputs_ok sample_components_answer).
Defined.

(* ===================================================================== *)
(** * Registrations: schema entities, computation types, menus             *)
(* ===================================================================== *)

Section RegistrationClaims.
Context `{DataAPI}.

(** [component_registered], by cases. *)
Lemma component_registered_spec (component : Component) (component_types : gset string)
    (entities : Entities) :
  component_registered component component_types entities
  = if bool_decide ("background-model" ∈ component_types)
    then match schema_entity_types entities !! background_model_id component with
         | Some _ => (Raise AssertionError, entities)
         | None => (Ret tt, with_background_model_entity entities component)
         end
    else (Ret tt, entities).
Proof.
  unfold component_registered, Schema_entity, register_entity.
  destruct (bool_decide ("background-model" ∈ component_types)); [|reflexivity].
  run_step.
  now destruct (schema_entity_types entities !! background_model_id component).
Qed.

(** C3, amended. For every component and set of component types passed
    to [component_registered]: when ["background-model"] is not among
    the component types, nothing is created or registered; when it is
    and no schema entity has the id [component.background_model_id]
    yet, a new schema entity with that id and parent
    [BackgroundModelEntity] is created and registered with
    [DataStructure] under the component's title and package title; when
    it is and the id is already that of a schema entity, the assertion
    of [Schema.entity] fails and nothing is created or registered. So
    an entity is created and registered if and only if
    ["background-model"] is among the component types and the id is
    new. *)
Theorem component_registered_creates_entity
    (component : Component) (component_types : gset string) (entities : Entities) :
  let r := component_registered component component_types entities in
  let the_id := background_model_id component in
  let background_model_entity := entity the_id (Some BackgroundModelEntity) None [] in
  ("background-model" ∉ component_types -> r = (Ret tt, entities))
  /\ ("background-model" ∈ component_types ->
      schema_entity_types entities !! the_id = None ->
      r = (Ret tt,
           {| schema_entity_types :=
                <[the_id := background_model_entity]> (schema_entity_types entities);
              data_structure_entities :=
                data_structure_entities entities
                ++ [ {| registered_entity := background_model_entity;
                        entity_name := title component;
                        entity_package_name := package_title component |} ] |}))
  /\ ("background-model" ∈ component_types ->
      schema_entity_types entities !! the_id <> None ->
      r = (Raise AssertionError, entities))
  /\ (("background-model" ∈ component_types
       /\ schema_entity_types entities !! the_id = None)
      <-> exists e,
            data_structure_entities r.2 = data_structure_entities entities ++ [e]
            /\ entity_id_of (registered_entity e) = the_id
            /\ base_of (registered_entity e) = Some BackgroundModelEntity
            /\ schema_entity_types r.2 !! the_id = Some (registered_entity e)).
Proof.
  intros r the_id background_model_entity. subst r the_id background_model_entity.
  assert (forall e : EntityRegistration,
            data_structure_entities entities
            <> data_structure_entities entities ++ [e]) as Hgrow.
  { intros e He. apply (f_equal length) in He. rewrite length_app in He.
    simpl in He. lia. }
  rewrite component_registered_spec.
  destruct (bool_decide ("background-model" ∈ component_types)) eqn:Hin.
  - apply bool_decide_eq_true in Hin.
    destruct (schema_entity_types entities !! background_model_id component)
      as [taken|] eqn:Hid.
    + split; [tauto|]. split; [discriminate|]. split; [reflexivity|].
      split; [intros [_ ?]; discriminate|].
      intros (e & He & _). now apply Hgrow in He.
    + split; [tauto|]. split; [reflexivity|]. split; [congruence|].
      split; [|tauto]. intros _.
      exists (background_model_entity_of component). cbn.
      split; [reflexivity|]. split; [reflexivity|]. split; [reflexivity|].
      apply lookup_insert_eq.
  - apply bool_decide_eq_false in Hin.
    split; [reflexivity|]. split; [tauto|]. split; [tauto|].
    split; [tauto|]. intros (e & He & _). now apply Hgrow in He.
Qed.

(** The loop over the components already registered, as long as their
    ids are new. *)
Lemma replay_fresh_components (components : list Component) : forall entities,
  NoDup (map background_model_id components) ->
  (forall c, c ∈ components ->
     schema_entity_types entities !! background_model_id c = None) ->
  for_each components
    (fun component => component_registered component {["background-model"]}) entities
  = (Ret tt, with_background_model_entities components entities).
Proof.
  induction components as [|c cs IH]; intros entities Hnodup Hfresh; [reflexivity|].
  apply NoDup_cons in Hnodup as [Hc Hnodup].
  rewrite for_each_cons, component_registered_spec.
  rewrite bool_decide_eq_true_2 by set_solver.
  rewrite (Hfresh c) by apply list_elem_of_here.
  apply IH; [exact Hnodup|].
  intros c' Hc'. cbn. rewrite lookup_insert_ne.
  - apply Hfresh. now apply list_elem_of_further.
  - intros Heq. apply Hc. rewrite Heq. apply list_elem_of_fmap. eauto.
Qed.

(** C4. When the module is loaded, exactly three computation handler
    classes are registered with the host's registry of computation
    types: ["eels.background_subtraction3"] is [EELSFitBackground],
    ["eels.mapping3"] is [EELSMapBackgroundSubtractedSignal] and
    ["eels.subtract_background"] is [EELSSubtractBackground]; every
    other identifier keeps what it had. Each class provides [execute]
    and [commit]. *)
Theorem module_registers_three_computation_types :
  length module_registrations = 3
  /\ (forall types : ComputationTypes,
        let types' := register_computation_types types in
        types' !! "eels.background_subtraction3" = Some EELSFitBackground
        /\ types' !! "eels.mapping3" = Some EELSMapBackgroundSubtractedSignal
        /\ types' !! "eels.subtract_background" = Some EELSSubtractBackground
        /\ forall id : string,
             id <> "eels.background_subtraction3" -> id <> "eels.mapping3" ->
             id <> "eels.subtract_background" ->
             types' !! id = types !! id)
  /\ dom (register_computation_types ∅)
     = ({[ "eels.background_subtraction3"; "eels.mapping3";
           "eels.subtract_background" ]} : gset string)
  /\ (handler_commit (handler_of EELSFitBackground) = EELSFitBackground.commit
      /\ forall d m gs eels g,
           handler_execute (handler_of EELSFitBackground)
             {| kw_eels_spectrum_data_item := Some d;
                kw_spectrum_image_data_item := eels;
                kw_background_model := Some m;
                kw_fit_interval_graphics := Some gs;
                kw_signal_interval_graphic := g |}
           = EELSFitBackground.execute d m gs)
  /\ (handler_commit (handler_of EELSMapBackgroundSubtractedSignal)
      = EELSMapBackgroundSubtractedSignal.commit
      /\ forall d m gs g eels,
           handler_execute (handler_of EELSMapBackgroundSubtractedSignal)
             {| kw_eels_spectrum_data_item := eels;
                kw_spectrum_image_data_item := Some d;
                kw_background_model := Some m;
                kw_fit_interval_graphics := Some gs;
                kw_signal_interval_graphic := Some g |}
           = EELSMapBackgroundSubtractedSignal.execute d m gs g eels)
  /\ (handler_commit (handler_of EELSSubtractBackground) = EELSSubtractBackground.commit
      /\ forall d m gs eels g,
           handler_execute (handler_of EELSSubtractBackground)
             {| kw_eels_spectrum_data_item := eels;
                kw_spectrum_image_data_item := Some d;
                kw_background_model := Some m;
                kw_fit_interval_graphics := Some gs;
                kw_signal_interval_graphic := g |}
           = EELSSubtractBackground.execute d m gs).
Proof.
  split; [reflexivity|]. split.
  { intros types types'. subst types'.
    unfold register_computation_types, register_computation_type. simpl.
    repeat split.
    - rewrite !lookup_insert_ne by done. apply lookup_insert_eq.
    - rewrite lookup_insert_ne by done. apply lookup_insert_eq.
    - apply lookup_insert_eq.
    - intros id H1 H2 H3. now rewrite !lookup_insert_ne by done. }
  split.
  { unfold register_computation_types, register_computation_type. simpl.
    rewrite !dom_insert_L, dom_empty_L. set_solver. }
  repeat split.
Qed.

End RegistrationClaims.

Section MenuClaims.
Variable gettext : string -> string.

(** C7. When the UI module is imported into a running application, it
    registers [build_menus] as a menu handler, and [build_menus] adds
    exactly seven items to the processing menu of the document
    controller it is given: Subtract Linear Background, Subtract
    Background Signal, Extract Signal, Show Color Channels, Filter
    Channel, Elemental Map (Si K) and Elemental Map (Ga L), each
    triggering its processing function on that controller. When the
    host imports fail or no application is running, no menu handler is
    registered. *)
Theorem build_menus_registers_seven_items :
  (forall document_controller,
     UI.processing_menu (UI.build_menus gettext document_controller)
     = UI.processing_menu document_controller
       ++ plugin_menu_items gettext (UI.controller document_controller)
     /\ length (UI.processing_menu (UI.build_menus gettext document_controller))
        = length (UI.processing_menu document_controller) + 7
     /\ UI.controller (UI.build_menus gettext document_controller)
        = UI.controller document_controller)
  /\ (forall app,
        UI.import_module gettext (UI.Imported (Some app))
        = UI.Imported
            (Some {| UI.menu_handlers :=
                       UI.menu_handlers app ++ [UI.build_menus gettext] |}))
  /\ UI.import_module gettext UI.ImportError = UI.ImportError
  /\ UI.import_module gettext (UI.Imported None) = UI.Imported None
  /\ UI.registered_menu_handlers (UI.import_module gettext UI.ImportError) = []
  /\ UI.registered_menu_handlers (UI.import_module gettext (UI.Imported None)) = [].
Proof.
  split; [|repeat split].
  intros document_controller.
  assert (UI.processing_menu (UI.build_menus gettext document_controller)
          = UI.processing_menu document_controller
            ++ plugin_menu_items gettext (UI.controller document_controller)) as Hmenu.
  { unfold UI.build_menus, UI.add_menu_item, plugin_menu_items. simpl.
    now rewrite <- !app_assoc. }
  split; [exact Hmenu|]. split; [|reflexivity].
  rewrite Hmenu, length_app. reflexivity.
Qed.

End MenuClaims.


(** With only [BackgroundModelEntity] made, the entity of a power-law
    component is created and registered. *)
Lemma component_registered_creates_entity_witness :
  let component := Sample.echo_component "power_law_fit_background_model" in
  component_registered component {[ "background-model" ]} SampleComponents.loaded_entities
  = (Ret tt,
     {| schema_entity_types :=
          <["power_law_fit_background_model" :=
              entity "power_law_fit_background_model" (Some BackgroundModelEntity)
                     None []]>
            (schema_entity_types SampleComponents.loaded_entities);
        data_structure_entities :=
          [ {| registered_entity :=
                 entity "power_law_fit_background_model" (Some BackgroundModelEntity)
                        None [];
               entity_name := "Echo";
               entity_package_name := "Sample" |} ] |}).
Proof.
  apply (proj1 (proj2 (@component_registered_creates_entity Sample.api
                         (Sample.echo_component "power_law_fit_background_model")
                         {[ "background-model" ]} SampleComponents.loaded_entities))).
  - set_solver.
  - reflexivity.
Defined.

(** C3, the claim as stated fails when the id is in use: a component
    registered under ["background-model"] a second time, or a second
    component with the same [background_model_id], makes
    [Schema.entity] fail its assertion, and so does a component whose
    id is ["background_model"], the id of [BackgroundModelEntity]; no
    entity is created or registered although ["background-model"] is
    among the component types. *)
Lemma component_registered_twice :
  let component := Sample.echo_component "power_law_fit_background_model" in
  let component_types : gset string := {[ "background-model" ]} in
  let first := component_registered component component_types
                 SampleComponents.loaded_entities in
  let second := component_registered component component_types first.2 in
  @load_entities Sample.api [] {| schema_entity_types := ∅; data_structure_entities := [] |}
  = (Ret tt, SampleComponents.loaded_entities)
  /\ "background-model" ∈ component_types
  /\ first.1 = Ret tt
  /\ second = (Raise AssertionError, first.2)
  /\ data_structure_entities second.2 = [background_model_entity_of component]
  /\ component_registered (Sample.echo_component "background_model") component_types
       SampleComponents.loaded_entities
     = (Raise AssertionError, SampleComponents.loaded_entities).
Proof. split; [reflexivity|]. split; [set_solver|]. repeat split. Qed.
(* ===================================================================== *)
(** * The menu actions on the document                                     *)
(* ===================================================================== *)

Section DocumentClaims.
Context `{DataAPI}.
Variable gettext : string -> string.
Variable get_source_data_items : DocumentModel -> ref -> list ref.

Lemma same_but_graphics_trans s1 s2 s3 :
  same_but_graphics s1 s2 -> same_but_graphics s2 s3 -> same_but_graphics s1 s3.
Proof. unfold same_but_graphics. intuition congruence. Qed.

(** One turn of the loop. *)
Lemma mark_interval_step (i : ref) (s : Session) :
  exists s',
    (set_graphic_id i "background" ;; set_label i (gettext "Background")) s = (Ret tt, s')
    /\ same_but_graphics s s'
    /\ forall g,
         graphic_at (document_model s') g
         = if Nat.eqb g i
           then marked_background gettext (graphic_at (document_model s) g)
           else graphic_at (document_model s) g.
Proof.
  eexists. split; [reflexivity|]. split; [repeat split|].
  intros g. simpl. unfold update.
  destruct (Nat.eqb_spec g i) as [->|Hne]; [|reflexivity].
  now rewrite Nat.eqb_refl.
Qed.

Lemma mark_intervals_spec intervals : forall s,
  (mark_intervals gettext intervals s).1 = Ret tt
  /\ same_but_graphics s (mark_intervals gettext intervals s).2
  /\ forall g,
       graphic_at (document_model (mark_intervals gettext intervals s).2) g
       = if bool_decide (g ∈ intervals)
         then marked_background gettext (graphic_at (document_model s) g)
         else graphic_at (document_model s) g.
Proof.
  unfold mark_intervals.
  induction intervals as [|i intervals IH]; intros s.
  - simpl. repeat split.
  - rewrite for_each_cons.
    destruct (mark_interval_step i s) as (s1 & -> & Hsame1 & Hat1).
    destruct (IH s1) as (Hret & Hsame & Hat).
    split; [exact Hret|]. split; [now apply (same_but_graphics_trans s s1)|].
    intros g. rewrite Hat, Hat1.
    destruct (Nat.eqb_spec g i) as [->|Hne].
    + rewrite (bool_decide_eq_true_2 (i ∈ i :: intervals)) by apply list_elem_of_here.
      now destruct (bool_decide (i ∈ intervals)).
    + destruct (bool_decide (g ∈ intervals)) eqn:Hin.
      * apply bool_decide_eq_true in Hin.
        rewrite bool_decide_eq_true_2 by now apply list_elem_of_further.
        reflexivity.
      * apply bool_decide_eq_false in Hin.
        rewrite bool_decide_eq_false_2; [reflexivity|].
        intros Hin'. apply elem_of_cons in Hin' as [?|?]; tauto.
Qed.

Lemma selected_intervals_spec (d : DocumentModel) (display_item g : ref) :
  g ∈ selected_intervals d display_item <->
  g ∈ selected_graphics (display_item_at d display_item)
  /\ graphic_type (graphic_at d g) = "interval-graphic".
Proof.
  unfold selected_intervals, str_eq.
  rewrite !list_elem_of_In, filter_In, String.eqb_eq. reflexivity.
Qed.

(** ** Stepping through a procedure *)

Lemma returns_after {S A} (m : M S A) (s : S) (a : A) :
  (m s).1 = Ret a -> m s = (Ret a, after m s).
Proof. unfold after. destruct (m s) as [o s']. simpl. now intros ->. Qed.

Lemma bind_returns {S A B} (m : M S A) (k : A -> M S B) (s s' : S) (a : A) :
  m s = (Ret a, s') -> bind m k s = k a s'.
Proof. unfold bind. now intros ->. Qed.

Ltac step_returns H :=
  rewrite (bind_returns _ _ _ _ _ (returns_after _ _ _ H)); cbv beta.

Lemma displayed_calls_since_refl s display_item :
  displayed_calls_since s s display_item [].
Proof. unfold displayed_calls_since. cbn. rewrite !app_nil_r. repeat split. Qed.

Lemma appended_data_items_app calls c :
  appended_data_items (calls ++ [c])
  = appended_data_items calls
    ++ match c with
       | append_display_data_channel_for_data_item data_item => [data_item]
       | _ => []
       end.
Proof. unfold appended_data_items. rewrite omap_app. now destruct c. Qed.

Lemma displayed_calls_since_step s s' display_item calls c :
  displayed_calls_since s s' display_item calls ->
  displayed_calls_since s (after (display_call display_item c) s') display_item
    (calls ++ [c]).
Proof.
  unfold displayed_calls_since.
  intros (Hdi & Hds & Hg & Hn & Hitems & Hstructs & Hcomps & Hcalls & Hshown & Hsel
          & Hother & Htd & Hdisplayed & Htarget).
  rewrite appended_data_items_app.
  assert (display_item_at (document_model (after (display_call display_item c) s'))
            display_item
          = {| display_data_items :=
                 display_data_items (display_item_at (document_model s') display_item)
                 ++ match c with
                    | append_display_data_channel_for_data_item data_item => [data_item]
                    | _ => []
                    end;
               selected_graphics :=
                 selected_graphics (display_item_at (document_model s') display_item);
               display_calls :=
                 display_calls (display_item_at (document_model s') display_item)
                 ++ [c] |}) as Hat.
  { unfold after. cbn. unfold update. rewrite Nat.eqb_refl.
    destruct c; cbn; now rewrite ?app_nil_r. }
  assert (forall other, other <> display_item ->
            display_item_at (document_model (after (display_call display_item c) s')) other
            = display_item_at (document_model s') other) as Hat'.
  { intros other Hne. unfold after. cbn. unfold update.
    apply Nat.eqb_neq in Hne. now rewrite Hne. }
  assert (window (after (display_call display_item c) s')
          = match c with
            | append_display_data_channel_for_data_item data_item =>
                if bool_decide (target_display (window s') = Some display_item)
                then {| target_data_item :=
                          data_item_of
                            (display_data_items
                               (display_item_at (document_model s') display_item)
                             ++ [data_item]);
                        target_display := target_display (window s');
                        displayed := displayed (window s') |}
                else window s'
            | _ => window s'
            end) as Hwindow.
  { unfold after. now destruct c. }
  rewrite Hat, Hwindow. cbn [display_data_items selected_graphics display_calls].
  rewrite Hcalls, Hshown, <- !app_assoc.
  split; [exact Hdi|]. split; [exact Hds|]. split; [exact Hg|]. split; [exact Hn|].
  split; [exact Hitems|]. split; [exact Hstructs|]. split; [exact Hcomps|].
  split; [reflexivity|]. split; [reflexivity|]. split; [exact Hsel|].
  split; [intros other Hne; rewrite (Hat' other Hne); now apply Hother|].
  destruct c as [data_item| | |]; rewrite ?app_nil_r;
    try (split; [exact Htd|]; split; [exact Hdisplayed | exact Htarget]).
  rewrite Htd.
  destruct (bool_decide (target_display (window s) = Some display_item)) eqn:Htarget_display;
    cbn [target_data_item target_display displayed].
  - split; [reflexivity|]. split; [exact Hdisplayed|].
    rewrite <- app_assoc. now destruct (appended_data_items calls).
  - split; [exact Htd|]. split; [exact Hdisplayed|].
    rewrite Htarget. now destruct (appended_data_items calls).
Qed.

Lemma data_item_of_two (shown : list ref) (a b : ref) :
  data_item_of (shown ++ [a; b]) = None.
Proof. now destruct shown as [|x [|y shown]]. Qed.

Lemma create_data_item_value (s : Session) :
  (create_data_item s).1 = Ret (next_ref (document_model s)).
Proof. reflexivity. Qed.

Lemma create_data_item_from_data_value array (s : Session) :
  (create_data_item_from_data array s).1 = Ret (next_ref (document_model s)).
Proof. reflexivity. Qed.

Lemma new_DataStructure_value the_structure_type (s : Session) :
  (new_DataStructure the_structure_type s).1 = Ret (next_ref (document_model s)).
Proof. reflexivity. Qed.

Lemma append_data_structure_value r (s : Session) :
  (append_data_structure r s).1 = Ret tt.
Proof. reflexivity. Qed.

Lemma set_source_value r data_item (s : Session) :
  (set_source r data_item s).1 = Ret tt.
Proof. reflexivity. Qed.

Lemma create_computation_value p i o (s : Session) :
  (create_computation p i o s).1 = Ret tt.
Proof. reflexivity. Qed.

Lemma display_call_value d c (s : Session) : (display_call d c s).1 = Ret tt.
Proof. reflexivity. Qed.

Lemma display_data_item_value r (s : Session) : (display_data_item r s).1 = Ret tt.
Proof. reflexivity. Qed.

(** C6. Every invocation of [add_background_subtraction_computation]
    creates two data items, appends a background-model data structure
    of structure type ["power_law_fit_background_model"] to the document
    model, creates an ["eels.background_subtraction3"] computation whose
    inputs are the given data item, that data structure and the given
    interval graphics and whose outputs ["background"] and
    ["subtracted"] are the two new data items, and sets the [graphic_id]
    of every interval graphic passed in to ["background"]. The display
    item then also shows the two new data items, so that, when it is the
    target display of the window, the window has no target data item
    any more.
    [subtract_background_from_signal] does this, on the selected
    interval graphics of the target display, exactly when the window has
    a target display and a target data item and at least one selected
    graphic of the display is an interval graphic; otherwise it does
    nothing. *)
Theorem add_background_subtraction_computation_spec :
  (forall display_item data_item intervals s,
     let r := add_background_subtraction_computation gettext display_item data_item
                intervals s in
     let d := document_model s in
     let d' := document_model r.2 in
     let background := next_ref d in
     let signal := S (next_ref d) in
     let background_model := S (S (next_ref d)) in
     r.1 = Ret tt
     /\ data_items d' = data_items d ++ [background; signal]
     /\ data_item_at d' background = new_data_item
     /\ data_item_at d' signal = new_data_item
     /\ data_structures d' = data_structures d ++ [background_model]
     /\ data_structure_at d' background_model
        = {| structure_type := "power_law_fit_background_model";
             source := Some background |}
     /\ computations d'
        = computations d
          ++ [ {| processing_id := "eels.background_subtraction3";
                  inputs :=
                    {| in_eels_spectrum_data_item := Some data_item;
                       in_spectrum_image_data_item := None;
                       in_background_model := Some background_model;
                       in_fit_interval_graphics := intervals;
                       in_signal_interval_graphic := None |};
                  outputs := {[ "background" := background;
                                "subtracted" := signal ]} |} ]
     /\ (forall g, g ∈ intervals -> graphic_id (graphic_at d' g) = Some "background")
     /\ (forall g, g ∉ intervals -> graphic_at d' g = graphic_at d g)
     /\ display_data_items (display_item_at d' display_item)
        = display_data_items (display_item_at d display_item) ++ [background; signal]
     /\ (target_display (window s) = Some display_item ->
         target_data_item (window r.2) = None))
  /\ (forall s,
        let d := document_model s in
        match target_display (window s), target_data_item (window s) with
        | Some target_display_item, Some the_target_data_item =>
            ((exists g, g ∈ selected_graphics (display_item_at d target_display_item)
                        /\ graphic_type (graphic_at d g) = "interval-graphic")
             /\ subtract_background_from_signal gettext s
                = add_background_subtraction_computation gettext target_display_item
                    the_target_data_item (selected_intervals d target_display_item) s)
            \/ ((forall g, g ∈ selected_graphics (display_item_at d target_display_item) ->
                           graphic_type (graphic_at d g) <> "interval-graphic")
                /\ subtract_background_from_signal gettext s = (Ret tt, s))
        | _, _ => subtract_background_from_signal gettext s = (Ret tt, s)
        end).
Proof.
  split.
  - intros display_item data_item intervals s.
    unfold add_background_subtraction_computation.
    step_returns (create_data_item_value s).
    set (s1 := after create_data_item s).
    step_returns (create_data_item_value s1).
    set (s2 := after create_data_item s1).
    step_returns (new_DataStructure_value "power_law_fit_background_model" s2).
    set (s3 := after (new_DataStructure "power_law_fit_background_model") s2).
    step_returns (append_data_structure_value (next_ref (document_model s2)) s3).
    set (s4 := after (append_data_structure (next_ref (document_model s2))) s3).
    step_returns (set_source_value (next_ref (document_model s2))
                    (next_ref (document_model s)) s4).
    set (s5 := after (set_source (next_ref (document_model s2))
                        (next_ref (document_model s))) s4).
    match goal with |- context [bind (create_computation ?p ?i ?o)] =>
      step_returns (create_computation_value p i o s5);
      set (s6 := after (create_computation p i o) s5)
    end.
    fold (mark_intervals gettext intervals).
    destruct (mark_intervals_spec intervals s6) as (Hret & Hsame & Hat).
    step_returns Hret.
    fold (after (mark_intervals gettext intervals) s6) in Hsame, Hat.
    set (s7 := after (mark_intervals gettext intervals) s6) in *.
    destruct Hsame as (Hw & Hdi & Hds & Hdisp & Hnext & Hitems & Hstructs & Hcomps).
    pose proof (displayed_calls_since_refl s7 display_item) as Hsd.
    repeat match goal with |- context [bind (display_call ?d ?c) ?k ?st] =>
      step_returns (display_call_value d c st);
      apply (displayed_calls_since_step _ _ d _ c) in Hsd
    end.
    match goal with |- context [display_call ?d ?c ?st] =>
      rewrite (returns_after _ _ tt (display_call_value d c st));
      apply (displayed_calls_since_step _ _ d _ c) in Hsd
    end.
    cbv zeta. cbn [fst snd].
    match type of Hsd with displayed_calls_since _ ?final _ _ =>
      set (s8 := final) in *
    end.
    destruct Hsd as (Hdi' & Hds' & Hg' & _ & Hitems' & Hstructs' & Hcomps' & _ & Hshown
                     & _ & _ & _ & _ & Htarget).
    clearbody s8.
    rewrite Hdi', Hds', Hg', Hitems', Hstructs', Hcomps', Hshown, Htarget.
    rewrite Hw, Hdi, Hds, Hdisp, Hitems, Hstructs, Hcomps.
    clear Hdi' Hds' Hg' Hitems' Hstructs' Hcomps' Hshown Htarget.
    clear Hw Hdi Hds Hdisp Hnext Hitems Hstructs Hcomps Hret.
    clearbody s7. subst s6 s5 s4 s3 s2 s1. unfold after in *. cbn in Hat |- *.
    unfold update. rewrite !Nat.eqb_refl.
    replace (Nat.eqb (next_ref (document_model s)) (S (next_ref (document_model s))))
      with false by (symmetry; apply Nat.eqb_neq; lia).
    rewrite <- !app_assoc.
    repeat split.
    + intros g Hg. rewrite Hat, bool_decide_eq_true_2 by assumption. reflexivity.
    + intros g Hg. rewrite Hat, bool_decide_eq_false_2 by assumption. reflexivity.
    + intros Htd. rewrite bool_decide_eq_true_2 by assumption.
      apply data_item_of_two.
  - intros s d. subst d. unfold subtract_background_from_signal.
    rewrite (bind_returns get _ s s s eq_refl).
    destruct (target_display (window s)) as [disp|]; [|reflexivity].
    destruct (target_data_item (window s)) as [item|]; [|reflexivity].
    destruct (selected_intervals (document_model s) disp) as [|g gs] eqn:Hsel.
    + right. split; [|reflexivity].
      intros g Hg Hty.
      assert (g ∈ selected_intervals (document_model s) disp) as Hin
        by now apply selected_intervals_spec.
      rewrite Hsel in Hin. now apply elem_of_nil in Hin.
    + left. split; [|reflexivity].
      exists g. apply selected_intervals_spec. rewrite Hsel. apply list_elem_of_here.
Qed.

(** ** [subtract_background] *)

Lemma for_first_find {S A} (test : A -> bool) (l : list A) (body : A -> M S unit) s :
  for_first test l body s =
  match List.find test l with
  | Some x => body x s
  | None => (Ret tt, s)
  end.
Proof.
  induction l as [|x l IH]; simpl; [reflexivity|].
  now destruct (test x).
Qed.

Lemma find_first_passing {A} (test : A -> bool) (l : list A) (c : A) :
  List.find test l = Some c <-> first_passing test l c.
Proof.
  unfold first_passing. induction l as [|x l IH]; simpl.
  - split; [discriminate|]. intros (earlier & later & Hl & _).
    now destruct earlier.
  - destruct (test x) eqn:Hx.
    + split.
      * intros [= ->]. exists [], l. repeat split; [|assumption].
        intros c' Hc'. now apply elem_of_nil in Hc'.
      * intros ([|y earlier] & later & Hl & Hearlier & Hc).
        { now injection Hl as -> _. }
        injection Hl as -> _.
        rewrite Hearlier in Hx by apply list_elem_of_here. discriminate.
    + rewrite IH. split.
      * intros (earlier & later & -> & Hearlier & Hc).
        exists (x :: earlier), later. repeat split; [|assumption].
        intros c' Hc'. apply elem_of_cons in Hc' as [->|Hc']; auto.
      * intros ([|y earlier] & later & Hl & Hearlier & Hc).
        { injection Hl as -> _. congruence. }
        injection Hl as -> ->. exists earlier, later. repeat split; [|assumption].
        intros c' Hc'. apply Hearlier. now apply list_elem_of_further.
Qed.

Lemma is_displayed_background_subtraction_spec items c :
  is_displayed_background_subtraction items c = true <->
  processing_id c = "eels.background_subtraction3"
  /\ (exists spectrum, in_eels_spectrum_data_item (inputs c) = Some spectrum
                       /\ spectrum ∈ items)
  /\ (exists subtracted, get_output c "subtracted" = Some subtracted
                         /\ subtracted ∈ items).
Proof.
  unfold is_displayed_background_subtraction, is_in, str_eq.
  rewrite !andb_true_iff, String.eqb_eq.
  destruct (in_eels_spectrum_data_item (inputs c)) as [e|];
    destruct (get_output c "subtracted") as [o|];
    rewrite ?bool_decide_eq_true; split;
    try (intros (? & ? & ?); discriminate).
  - intros (? & ? & ?). eauto 10.
  - intros (? & (? & [= <-] & ?) & (? & [= <-] & ?)). auto.
  - intros (_ & _ & (? & ? & _)). discriminate.
  - intros (_ & (? & ? & _) & _). discriminate.
  - intros (_ & (? & ? & _) & _). discriminate.
Qed.

Lemma subtract_background_cases s :
  (exists c spectrum_image x,
     background_subtraction_found get_source_data_items s c spectrum_image x
     /\ subtract_background get_source_data_items s
        = (Ret tt, with_subtract_background_computation s c spectrum_image x))
  \/ ((forall c spectrum_image x, ~ background_subtraction_found get_source_data_items s c spectrum_image x)
      /\ (subtract_background get_source_data_items s).2 = s).
Proof.
  unfold subtract_background, background_subtraction_found.
  rewrite (bind_returns get _ s s s eq_refl). cbv beta.
  destruct (target_display (window s)) as [disp|] eqn:Hdisp;
    [|right; split; [|reflexivity]; intros c si x (? & ? & ? & ? & _); discriminate].
  rewrite for_first_find.
  set (items := display_data_items (display_item_at (document_model s) disp)).
  destruct (List.find _ (computations (document_model s))) as [c|] eqn:Hfind.
  2:{ right. split; [|reflexivity].
      intros c si x (disp' & e & o & [= <-] & Hfirst & _).
      apply find_first_passing in Hfirst. fold items in Hfirst. congruence. }
  assert (forall c', first_passing (is_displayed_background_subtraction items)
                       (computations (document_model s)) c' -> c' = c) as Hunique.
  { intros c' Hc'. apply find_first_passing in Hc'. congruence. }
  pose proof Hfind as Hfound. apply find_first_passing in Hfound.
  pose proof Hfound as (_ & _ & _ & _ & Htest).
  apply is_displayed_background_subtraction_spec in Htest
    as (Hpid & (e & He & Hein) & (o & Ho & Hoin)).
  unfold subtract_background_body. rewrite He.
  rewrite (bind_returns document _ s s (document_model s) eq_refl). cbv beta.
  destruct (get_source_data_items (document_model s) e) as [|si [|si' rest]] eqn:Hsrc.
  { right. split; [|reflexivity].
    intros c' si x (disp' & e' & o' & [= <-] & Hfirst & _ & He' & _ & _ & _ & Hsrc' & _).
    apply Hunique in Hfirst. subst c'. congruence. }
  2:{ right. split; [|reflexivity].
      intros c' si0 x (disp' & e' & o' & [= <-] & Hfirst & _ & He' & _ & _ & _ & Hsrc' & _).
      apply Hunique in Hfirst. subst c'. congruence. }
  destruct (xdata (data_item_at (document_model s) si)) as [x|] eqn:Hx.
  2:{ right. split; [|reflexivity].
      intros c' si0 x (disp' & e' & o' & [= <-] & Hfirst & _ & He' & _ & _ & _ & Hsrc'
                       & Hx' & _).
      apply Hunique in Hfirst. subst c'. congruence. }
  rewrite (bind_returns (assert_object (Some x)) _ s s x eq_refl). cbv beta.
  destruct (is_navigable x) eqn:Hnav.
  2:{ right. split; [|reflexivity].
      intros c' si0 x' (disp' & e' & o' & [= <-] & Hfirst & _ & He' & _ & _ & _ & Hsrc'
                        & Hx' & Hnav' & _).
      apply Hunique in Hfirst. subst c'. congruence. }
  rewrite andb_true_l.
  destruct (Nat.eqb_spec (datum_dimension_count (data_item_at (document_model s) si)) 1)
    as [Hcount|Hcount].
  2:{ right. split; [|reflexivity].
      intros c' si0 x' (disp' & e' & o' & [= <-] & Hfirst & _ & He' & _ & _ & _ & Hsrc'
                        & Hx' & Hnav' & Hcount').
      apply Hunique in Hfirst. subst c'. congruence. }
  left. exists c, si, x. split.
  { exists disp, e, o. repeat split; try assumption; apply Hfound. }
  reflexivity.
Qed.

Lemma background_subtraction_found_unique s c c' si si' x x' :
  background_subtraction_found get_source_data_items s c si x ->
  background_subtraction_found get_source_data_items s c' si' x' ->
  c' = c /\ si' = si /\ x' = x.
Proof.
  intros (disp & e & o & Hdisp & Hfirst & _ & He & _ & _ & _ & Hsrc & Hx & _)
         (disp' & e' & o' & Hdisp' & Hfirst' & _ & He' & _ & _ & _ & Hsrc' & Hx' & _).
  assert (disp' = disp) as -> by congruence.
  apply find_first_passing in Hfirst, Hfirst'.
  assert (c' = c) as -> by congruence.
  assert (e' = e) as -> by congruence.
  assert (si' = si) as -> by congruence.
  split; [reflexivity|]. split; [reflexivity|]. congruence.
Qed.

(** C5. When the [subtract_background] menu action is triggered, a new
    ["eels.subtract_background"] computation is created if and only if
    the window has a target display that contains both the
    [eels_spectrum_data_item] input and the ["subtracted"] output of an
    existing ["eels.background_subtraction3"] computation, the first
    such computation in document order being the one considered, and
    the spectrum data item of that computation has exactly one source
    data item, which is navigable and has one datum dimension. The new
    computation takes that source data item as its spectrum image, the
    found computation's fit interval graphics and background model, and
    a new data item of zeros over the navigation dimensions as its
    ["subtracted"] output, which the window then displays. Otherwise
    the document model gains no new computation: the session is left
    as it was. *)
Theorem subtract_background_creates_computation :
  forall s,
    let r := subtract_background get_source_data_items s in
    let d := document_model s in
    let d' := document_model r.2 in
    ((exists c spectrum_image x, background_subtraction_found get_source_data_items s c spectrum_image x)
     <-> exists new_computation,
           computations d' = computations d ++ [new_computation]
           /\ processing_id new_computation = "eels.subtract_background")
    /\ (forall c spectrum_image x,
          background_subtraction_found get_source_data_items s c spectrum_image x ->
          r.1 = Ret tt
          /\ computations d'
             = computations d
               ++ [ {| processing_id := "eels.subtract_background";
                       inputs :=
                         {| in_eels_spectrum_data_item := None;
                            in_spectrum_image_data_item := Some spectrum_image;
                            in_background_model := in_background_model (inputs c);
                            in_fit_interval_graphics :=
                              in_fit_interval_graphics (inputs c);
                            in_signal_interval_graphic := None |};
                       outputs := {[ "subtracted" := next_ref d ]} |} ]
          /\ data_items d' = data_items d ++ [next_ref d]
          /\ data_item_at d' (next_ref d)
             = new_data_item_from_data (numpy_zeros (navigation_dimension_shape x))
          /\ displayed (window r.2) = displayed (window s) ++ [next_ref d])
    /\ ((forall c spectrum_image x,
           ~ background_subtraction_found get_source_data_items s c spectrum_image x) ->
        r.2 = s).
Proof.
  intros s r d d'. subst r d d'.
  destruct (subtract_background_cases s)
    as [(c & si & x & Hfound & Hrun)|[Hnone Hsame]].
  - rewrite Hrun. split; [|split].
    + split; [|eauto].
      intros _. eexists. split; reflexivity.
    + intros c' si' x' Hfound'.
      destruct (background_subtraction_found_unique _ _ _ _ _ _ _ Hfound Hfound')
        as (-> & -> & ->).
      unfold with_subtract_background_computation, update. simpl.
      rewrite Nat.eqb_refl. repeat split.
    + intros Hnone. exfalso. now apply (Hnone c si x).
  - rewrite Hsame. split; [|split].
    + split.
      * intros (c & si & x & Hfound). exfalso. now apply (Hnone c si x).
      * intros (comp & Hcomp & _). exfalso.
        apply (f_equal length) in Hcomp. rewrite length_app in Hcomp.
        simpl in Hcomp. lia.
    + intros c si x Hfound. exfalso. now apply (Hnone c si x).
    + reflexivity.
Qed.

End DocumentClaims.

(* ===================================================================== *)
(** * The menu actions on the sample document                              *)
(* ===================================================================== *)

Lemma sample_background_subtraction_found :
  background_subtraction_found Sample.sources Sample.session
    Sample.background_subtraction 0 Sample.spectrum_image.
Proof.
  exists 4, 1, 2. repeat split; try reflexivity.
  - exists [], []. repeat split. intros c' Hc'. now apply elem_of_nil in Hc'.
  - apply list_elem_of_here.
  - apply list_elem_of_further, list_elem_of_here.
Qed.

(** On the sample document, [subtract_background] adds the computation
    that subtracts the background from the spectrum image. *)
Lemma subtract_background_creates_computation_witness :
  let r := subtract_background Sample.sources Sample.session in
  r.1 = Ret tt
  /\ computations (document_model r.2)
     = [ Sample.background_subtraction;
         {| processing_id := "eels.subtract_background";
            inputs := {| in_eels_spectrum_data_item := None;
                         in_spectrum_image_data_item := Some 0;
                         in_background_model := Some 5;
                         in_fit_interval_graphics := [7];
                         in_signal_interval_graphic := None |};
            outputs := {[ "subtracted" := 10 ]} |} ]
  /\ data_items (document_model r.2) = [0; 1; 2; 3; 10]
  /\ data_item_at (document_model r.2) 10
     = new_data_item_from_data
         (numpy_zeros (navigation_dimension_shape Sample.spectrum_image))
  /\ displayed (window r.2) = [10].
Proof.
  apply (proj1 (proj2 (@subtract_background_creates_computation Sample.api
                         Sample.sources Sample.session))
           Sample.background_subtraction 0 Sample.spectrum_image
           sample_background_subtraction_found).
Defined.


(** On a display that shows the sample spectrum alone,
    [add_background_subtraction_computation] wires the spectrum [1], the
    new data structure [12] and the interval [7] to the new data items
    [10] and [11]; the display then shows three data items, and the
    window has no target data item any more. *)
Lemma add_background_subtraction_computation_spec_witness :
  let r := add_background_subtraction_computation (fun text => text) 4 1 [7]
             SampleComponents.spectrum_session in
  let d' := document_model r.2 in
  r.1 = Ret tt
  /\ data_items d' = [0; 1; 10; 11]
  /\ data_structures d' = [12]
  /\ data_structure_at d' 12
     = {| structure_type := "power_law_fit_background_model"; source := Some 10 |}
  /\ computations d'
     = [ {| processing_id := "eels.background_subtraction3";
            inputs := {| in_eels_spectrum_data_item := Some 1;
                         in_spectrum_image_data_item := None;
                         in_background_model := Some 12;
                         in_fit_interval_graphics := [7];
                         in_signal_interval_graphic := None |};
            outputs := {[ "background" := 10; "subtracted" := 11 ]} |} ]
  /\ graphic_id (graphic_at d' 7) = Some "background"
  /\ display_data_items (display_item_at d' 4) = [1; 10; 11]
  /\ target_data_item (window r.2) = None.
Proof.
  destruct (proj1 (@add_background_subtraction_computation_spec Sample.api
                     (fun text => text))
              4 1 [7] SampleComponents.spectrum_session)
    as (Hret & Hitems & _ & _ & Hstructs & Hstruct & Hcomps & Hid & _ & Hshown & Htarget).
  split; [exact Hret|]. split; [exact Hitems|]. split; [exact Hstructs|].
  split; [exact Hstruct|]. split; [exact Hcomps|].
  split; [exact (Hid 7 (list_elem_of_here _ _))|].
  split; [exact Hshown | exact (Htarget eq_refl)].
Defined.
(* ===================================================================== *)
(** * The least start of the fit intervals                                 *)
(* ===================================================================== *)

Section FitMinimum.

Lemma SFleb_trans x y z :
  SFleb x y = true -> SFleb y z = true -> SFleb x z = true.
Proof.
  unfold SFleb.
  destruct x as [sx|sx| |sx mx ex], y as [sy|sy| |sy my ey], z as [sz|sz| |sz mz ez];
    simpl; try discriminate; try reflexivity;
    repeat match goal with b : bool |- _ => destruct b end;
    simpl; try discriminate; try reflexivity;
    change (Pos.compare_cont Eq mx my) with (Pos.compare mx my);
    change (Pos.compare_cont Eq my mz) with (Pos.compare my mz);
    change (Pos.compare_cont Eq mx mz) with (Pos.compare mx mz);
    destruct (Z.compare_spec ex ey), (Z.compare_spec ey ez), (Z.compare_spec ex ez);
    simpl; try discriminate; try reflexivity; try lia;
    destruct (Pos.compare_spec mx my), (Pos.compare_spec my mz),
             (Pos.compare_spec mx mz);
    simpl; try discriminate; try reflexivity; lia.
Qed.

Lemma float_le_trans a b c :
  float_le a b = true -> float_le b c = true -> float_le a c = true.
Proof. unfold float_le. rewrite !FloatAxioms.leb_spec. apply SFleb_trans. Qed.

(** The running minimum is one of the items seen. *)
Lemma min_from_elem best items : min_from best items ∈ best :: items.
Proof.
  revert best. induction items as [|x items IH]; intros best; simpl.
  - apply list_elem_of_here.
  - specialize (IH (if float_lt x best then x else best)).
    apply elem_of_cons in IH as [->|IH].
    + destruct (float_lt x best).
      * apply list_elem_of_further, list_elem_of_here.
      * apply list_elem_of_here.
    + now apply list_elem_of_further, list_elem_of_further.
Qed.

(** On numbers, the running minimum is below every item seen. *)
Lemma min_from_le best items :
  (forall x, x ∈ best :: items -> is_nan x = false) ->
  forall x, x ∈ best :: items -> float_le (min_from best items) x = true.
Proof.
  revert best. induction items as [|y items IH]; intros best Hnum x Hx; simpl.
  - apply list_elem_of_singleton in Hx as ->. apply float_le_refl, Hnum, list_elem_of_here.
  - assert (is_nan best = false) as Hbest by apply Hnum, list_elem_of_here.
    assert (is_nan y = false) as Hy
      by apply Hnum, list_elem_of_further, list_elem_of_here.
    set (best' := if float_lt y best then y else best).
    assert (float_le best' best = true /\ float_le best' y = true) as [Hb Hyb].
    { subst best'. destruct (float_lt y best) eqn:Hlt.
      - split; [now apply float_lt_le | now apply float_le_refl].
      - split; [now apply float_le_refl | now apply float_not_lt_le]. }
    assert (forall x, x ∈ best' :: items -> is_nan x = false) as Hnum'.
    { intros x' Hx'. apply elem_of_cons in Hx' as [->|Hx'].
      - subst best'. now destruct (float_lt y best).
      - now apply Hnum, list_elem_of_further, list_elem_of_further. }
    apply elem_of_cons in Hx as [->|Hx].
    + apply float_le_trans with best'; [|assumption].
      apply (IH best' Hnum'), list_elem_of_here.
    + apply elem_of_cons in Hx as [->|Hx].
      * apply float_le_trans with best'; [|assumption].
        apply (IH best' Hnum'), list_elem_of_here.
      * now apply (IH best' Hnum'), list_elem_of_further.
Qed.

Lemma normalized_interval_start a b :
  is_nan a = false -> is_nan b = false ->
  let lo := (normalized_interval (a, b)).1 in
  (lo = a \/ lo = b) /\ float_le lo a = true /\ float_le lo b = true.
Proof.
  intros Ha Hb. rewrite normalized_interval_unfold. simpl.
  destruct (float_lt b a) eqn:Hba.
  - split; [now right|]. split; [now apply float_lt_le | now apply float_le_refl].
  - split; [now left|]. split; [now apply float_le_refl | now apply float_not_lt_le].
Qed.

Lemma normalized_interval_start_nan a b :
  is_nan a = false -> is_nan b = false ->
  is_nan (normalized_interval (a, b)).1 = false.
Proof.
  intros Ha Hb. destruct (normalized_interval_start a b Ha Hb) as ([->| ->] & _);
    assumption.
Qed.

(** X1. [min] over the starts of the normalized fit intervals, the
    [fit_minimum] of [EELSFitBackground.execute]: it raises [ValueError]
    exactly when there is no fit interval graphic; when the interval
    ends are numbers (no NaN), it is an end of one of the intervals and
    it is [<=] both ends of every interval, in whatever order the ends
    of each interval were given. *)
Theorem fit_minimum_least (fit_interval_graphics : list Graphic) :
  (Py.min (map fst (collect_fit_intervals fit_interval_graphics)) = Raise ValueError
   <-> fit_interval_graphics = [])
  /\ ((forall g, g ∈ fit_interval_graphics ->
         is_nan (interval g).1 = false /\ is_nan (interval g).2 = false) ->
      forall fit_minimum,
        Py.min (map fst (collect_fit_intervals fit_interval_graphics)) = Ret fit_minimum ->
        (exists g, g ∈ fit_interval_graphics
                   /\ (fit_minimum = (interval g).1 \/ fit_minimum = (interval g).2))
        /\ forall g, g ∈ fit_interval_graphics ->
             float_le fit_minimum (interval g).1 = true
             /\ float_le fit_minimum (interval g).2 = true).
Proof.
  split.
  { destruct fit_interval_graphics; simpl; split; congruence. }
  intros Hnum m Hmin.
  destruct fit_interval_graphics as [|g0 gs]; [discriminate|].
  set (starts := map fst (map (fun g => normalized_interval (interval g)) gs)).
  set (start0 := (normalized_interval (interval g0)).1).
  change (Ret (min_from start0 starts) = Ret m) in Hmin.
  injection Hmin as <-.
  assert (forall x, x ∈ start0 :: starts ->
            exists g, g ∈ g0 :: gs /\ x = (normalized_interval (interval g)).1) as Hstarts.
  { intros x Hx. apply elem_of_cons in Hx as [->|Hx].
    - exists g0. split; [apply list_elem_of_here | reflexivity].
    - subst starts. rewrite <- list_fmap_compose in Hx.
      apply list_elem_of_fmap in Hx as (g & -> & Hg).
      exists g. split; [now apply list_elem_of_further | reflexivity]. }
  assert (forall g, g ∈ g0 :: gs -> (normalized_interval (interval g)).1 ∈ start0 :: starts)
    as Hin.
  { intros g Hg. apply elem_of_cons in Hg as [->|Hg]; [apply list_elem_of_here|].
    apply list_elem_of_further. subst starts. rewrite <- list_fmap_compose.
    apply list_elem_of_fmap. now exists g. }
  assert (forall x, x ∈ start0 :: starts -> is_nan x = false) as Hstartnum.
  { intros x Hx. destruct (Hstarts x Hx) as (g & Hg & ->).
    destruct (Hnum g Hg) as [H1 H2]. destruct (interval g) as [a b].
    now apply normalized_interval_start_nan. }
  split.
  - destruct (Hstarts _ (min_from_elem start0 starts)) as (g & Hg & Hm).
    exists g. split; [assumption|]. rewrite Hm.
    destruct (Hnum g Hg) as [H1 H2]. destruct (interval g) as [a b].
    apply (normalized_interval_start a b H1 H2).
  - intros g Hg.
    pose proof (min_from_le start0 starts Hstartnum _ (Hin g Hg)) as Hle.
    destruct (Hnum g Hg) as [H1 H2]. destruct (interval g) as [a b] eqn:Hint.
    destruct (normalized_interval_start a b H1 H2) as (_ & Hla & Hlb).
    split; eapply float_le_trans; eassumption.
Qed.

End FitMinimum.

(* ===================================================================== *)
(** * More on the computation handlers                                     *)
(* ===================================================================== *)

Section LoopExact.
Context `{DataAPI} {Self B : Type}.
Variable the_id : string.
Variable K : Component -> Call.
Variable work : Component -> outcome B.
Variable body : B -> Component -> Method Self B.
Hypothesis body_spec : forall acc c sw,
  body acc c sw =
  if is_selected the_id c
  then (work c, (sw.1, record_call (K c) sw.2))
  else (Ret acc, sw).

(** When every selected component answers, the loop calls them all and
    ends with the answer of the last. *)
Lemma for_fold_all_answer comps : forall acc sw,
  (forall c, c ∈ List.filter (is_selected the_id) comps -> exists b, work c = Ret b) ->
  for_fold comps acc body sw
  = (Ret (last_result work acc (List.filter (is_selected the_id) comps)),
     (sw.1, add_calls (map K (List.filter (is_selected the_id) comps)) sw.2)).
Proof.
  induction comps as [|c comps IH]; intros acc sw Hanswer.
  - simpl. rewrite add_calls_nil. now destruct sw.
  - rewrite for_fold_cons, body_spec. simpl in *.
    destruct (is_selected the_id c) eqn:Hsel.
    + destruct (Hanswer c (list_elem_of_here _ _)) as [b Hb]. rewrite Hb.
      rewrite IH.
      * simpl. rewrite add_calls_record_call. unfold last_result at 2. simpl.
        now rewrite Hb.
      * intros c' Hc'. now apply Hanswer, list_elem_of_further.
    + now apply IH.
Qed.

(** The first selected component that fails ends the loop: the
    components selected after it are not called. *)
Lemma for_fold_first_failure comps : forall before c after e acc sw,
  List.filter (is_selected the_id) comps = before ++ c :: after ->
  (forall c', c' ∈ before -> exists b, work c' = Ret b) ->
  work c = Raise e ->
  for_fold comps acc body sw
  = (Raise e, (sw.1, add_calls (map K (before ++ [c])) sw.2)).
Proof.
  induction comps as [|c0 comps IH]; intros before c after e acc sw Hsplit Hbefore Hc.
  - now destruct before.
  - rewrite for_fold_cons, body_spec. simpl in Hsplit.
    destruct (is_selected the_id c0) eqn:Hsel.
    + destruct before as [|c1 before]; simpl in Hsplit; injection Hsplit as -> Hsplit.
      * now rewrite Hc.
      * destruct (Hbefore c1 (list_elem_of_here _ _)) as [b Hb]. rewrite Hb.
        rewrite (IH before c after e b _ Hsplit); [|
          intros c' Hc'; now apply Hbefore, list_elem_of_further | assumption].
        simpl. now rewrite add_calls_record_call.
    + now apply (IH before c after e).
Qed.

(** The loop looks neither at the handler object nor at the journal:
    its outcome and the calls it makes are the same from every state. *)
Lemma for_fold_uniform comps : forall acc,
  exists o calls, forall sw : Self * World,
    for_fold comps acc body sw = (o, (sw.1, add_calls calls sw.2)).
Proof.
  induction comps as [|c comps IH]; intros acc.
  - exists (Ret acc), []. intros [self w]. simpl. now rewrite add_calls_nil.
  - destruct (is_selected the_id c) eqn:Hsel.
    + destruct (work c) as [b|e] eqn:Hwork.
      * destruct (IH b) as (o & calls & Hfold). exists o, (K c :: calls).
        intros sw. rewrite for_fold_cons, body_spec, Hsel, Hwork, Hfold. simpl.
        now rewrite add_calls_record_call.
      * exists (Raise e), [K c]. intros sw.
        now rewrite for_fold_cons, body_spec, Hsel, Hwork.
    + destruct (IH acc) as (o & calls & Hfold). exists o, calls.
      intros sw. now rewrite for_fold_cons, body_spec, Hsel, Hfold.
Qed.

Lemma last_result_last acc cs c b :
  work c = Ret b -> last_result work acc (cs ++ [c]) = b.
Proof.
  intros Hc. unfold last_result. rewrite fold_left_app. simpl. now rewrite Hc.
Qed.

End LoopExact.

Section HandlerExtras.
Context `{DataAPI}.

(** X2. [EELSFitBackground.execute] needs a fit interval: when the
    spectrum passes the three assertions and the list of fit interval
    graphics is empty, [min] of the empty list raises [ValueError];
    no component is called and nothing is changed. *)
Theorem fit_execute_without_fit_interval
    item model (sw : EELSFitBackground.Self * World) x calibration rest :
  xdata item = Some x -> is_datum_1d x = true ->
  datum_dimensional_calibrations x = calibration :: rest ->
  units calibration = "eV" ->
  EELSFitBackground.execute item model [] sw = (Raise ValueError, sw).
Proof.
  intros Hx H1d Hcal Hunits. apply units_eV in Hunits.
  unfold EELSFitBackground.execute. now run_with_facts.
Qed.

(** X3. The input assertions of [EELSSubtractBackground.execute] and
    [EELSMapBackgroundSubtractedSignal.execute]: each raises an
    assertion error, calling no component and changing nothing, when the
    spectrum image's xdata is missing, is not one-dimensional datum
    data, is not navigable, or its datum calibration units are not
    ["eV"]; the mapping handler also when an [eels_spectrum_data_item]
    is given (the spectrum image being in order) whose xdata is missing,
    is not one-dimensional datum data, or is not calibrated in ["eV"]. *)
Theorem image_execute_assertions :
  (forall item model gs (sw : EELSSubtractBackground.Self * World),
     (xdata item = None
      \/ exists x,
           xdata item = Some x
           /\ (is_datum_1d x = false
               \/ (is_datum_1d x = true /\ is_navigable x = false)
               \/ (is_datum_1d x = true /\ is_navigable x = true
                   /\ exists calibration rest,
                        datum_dimensional_calibrations x = calibration :: rest
                        /\ units calibration <> "eV"))) ->
     EELSSubtractBackground.execute item model gs sw = (Raise AssertionError, sw))
  /\ (forall item model gs g eels (sw : EELSMapBackgroundSubtractedSignal.Self * World),
        (xdata item = None
         \/ exists x,
              xdata item = Some x
              /\ (is_datum_1d x = false
                  \/ (is_datum_1d x = true /\ is_navigable x = false)
                  \/ (is_datum_1d x = true /\ is_navigable x = true
                      /\ exists calibration rest,
                           datum_dimensional_calibrations x = calibration :: rest
                           /\ units calibration <> "eV"))) ->
        EELSMapBackgroundSubtractedSignal.execute item model gs g eels sw
        = (Raise AssertionError, sw))
  /\ (forall item model gs g spectrum_item x
             (sw : EELSMapBackgroundSubtractedSignal.Self * World),
        image_inputs_ok item x ->
        (xdata spectrum_item = None
         \/ exists y,
              xdata spectrum_item = Some y
              /\ (is_datum_1d y = false
                  \/ (is_datum_1d y = true
                      /\ exists calibration rest,
                           datum_dimensional_calibrations y = calibration :: rest
                           /\ units calibration <> "eV"))) ->
        EELSMapBackgroundSubtractedSignal.execute item model gs g (Some spectrum_item) sw
        = (Raise AssertionError, sw)).
Proof.
  assert (forall c : Calibration, units c <> "eV" -> str_eq (units c) "eV" = false)
    as Hne.
  { intros c Hc. destruct (str_eq (units c) "eV") eqn:E; [|reflexivity].
    now apply units_eV in E. }
  repeat apply conj.
  - intros item model gs sw
      [Hx|(x & Hx & [H1d|[[H1d Hnav]|(H1d & Hnav & c0 & rest & Hcal & Hunits)]])];
      try apply Hne in Hunits;
      unfold EELSSubtractBackground.execute; now run_with_facts.
  - intros item model gs g eels sw
      [Hx|(x & Hx & [H1d|[[H1d Hnav]|(H1d & Hnav & c0 & rest & Hcal & Hunits)]])];
      try apply Hne in Hunits;
      unfold EELSMapBackgroundSubtractedSignal.execute; now run_with_facts.
  - intros item model gs g spectrum_item x sw
      (Hx & H1d & Hnav & (c0 & rest & Hcal & Hunits)) Hbad.
    apply units_eV in Hunits.
    assert (EELSMapBackgroundSubtractedSignal.check_eels_spectrum (Some spectrum_item) sw
            = (Raise AssertionError, sw)) as Hcheck.
    { destruct Hbad as [Hy|(y & Hy & [Hy1|(Hy1 & c1 & rest1 & Hcal1 & Hunits1)])];
        try apply Hne in Hunits1;
        unfold EELSMapBackgroundSubtractedSignal.check_eels_spectrum;
        now run_with_facts. }
    clear Hbad. revert Hcheck. generalize (Some spectrum_item). intros eels Hcheck.
    unfold EELSMapBackgroundSubtractedSignal.execute. now run_with_facts.
Qed.

Lemma fit_background_fails_work x fi si c e :
  fit_background_fails x fi si c e -> fit_work x fi si c = Raise e.
Proof.
  unfold fit_work.
  intros [Hfit|[(fr & Hfit & Hbg & ->)|(fr & bg & Hfit & Hbg & Hsub & Hcal)]];
    rewrite Hfit; [reflexivity | now rewrite Hbg |].
  now rewrite Hbg, Hsub, Hcal.
Qed.

Lemma subtract_background_fails_work x fi c e :
  subtract_background_fails x fi c e -> subtract_work x fi c = Raise e.
Proof.
  unfold subtract_work.
  intros [Hsub|(d & Hsub & Hkey & ->)]; rewrite Hsub; [reflexivity | now rewrite Hkey].
Qed.

Lemma integrate_signal_fails_work x ex fi si c e :
  integrate_signal_fails x ex fi si c e -> map_work x ex fi si c = Raise e.
Proof.
  unfold map_work.
  intros [Hint|(d & Hint & Hkey & ->)]; rewrite Hint; [reflexivity | now rewrite Hkey].
Qed.

Lemma subtract_background_answers_work x fi c :
  subtract_background_answers x fi c -> exists b, subtract_work x fi c = Ret b.
Proof. intros (d & v & Hd & Hv). unfold subtract_work. rewrite Hd, Hv. eauto. Qed.

Lemma integrate_signal_answers_work x ex fi si c :
  integrate_signal_answers x ex fi si c -> exists b, map_work x ex fi si c = Ret b.
Proof. intros (d & v & Hd & Hv). unfold map_work. rewrite Hd, Hv. eauto. Qed.

(** X4. A selected component that fails ends [execute] with its
    exception. When the components selected before [c] all answer and
    the turn of [c] fails with [e] (its algorithm raises [e], its result
    lacks the key read by the handler, which is a [KeyError], or, in the
    fitting handler, the subtraction of its background from the spectrum
    raises [e]), [execute] raises [e], the handler's buffers are left as
    they were, and the components selected after [c] are not called. *)
Theorem failing_component_stops_execute :
  (forall item model gs x fm sig (sw : EELSFitBackground.Self * World)
          before c after e,
     fit_inputs_ok item gs x fm sig ->
     matching_components (registry sw.2) (structure_type model) = before ++ c :: after ->
     (forall c', c' ∈ before ->
        fit_background_answers x (collect_fit_intervals gs) (fm, 1%float) c') ->
     fit_background_fails x (collect_fit_intervals gs) (fm, 1%float) c e ->
     EELSFitBackground.execute item model gs sw
     = (Raise e, (sw.1, add_calls (map CallFitBackground (before ++ [c])) sw.2)))
  /\ (forall item model gs x (sw : EELSSubtractBackground.Self * World)
             before c after e,
        image_inputs_ok item x ->
        matching_components (registry sw.2) (structure_type model)
        = before ++ c :: after ->
        (forall c', c' ∈ before ->
           subtract_background_answers x (collect_fit_intervals gs) c') ->
        subtract_background_fails x (collect_fit_intervals gs) c e ->
        EELSSubtractBackground.execute item model gs sw
        = (Raise e, (sw.1, add_calls (map CallSubtractBackground (before ++ [c])) sw.2)))
  /\ (forall item model gs g eels x ex
             (sw : EELSMapBackgroundSubtractedSignal.Self * World) before c after e,
        image_inputs_ok item x -> eels_spectrum_ok eels ex ->
        matching_components (registry sw.2) (structure_type model)
        = before ++ c :: after ->
        (forall c', c' ∈ before ->
           integrate_signal_answers x ex (collect_fit_intervals gs)
             (normalized_interval (interval g)) c') ->
        integrate_signal_fails x ex (collect_fit_intervals gs)
          (normalized_interval (interval g)) c e ->
        EELSMapBackgroundSubtractedSignal.execute item model gs g eels sw
        = (Raise e, (sw.1, add_calls (map CallIntegrateSignal (before ++ [c])) sw.2))).
Proof.
  repeat apply conj.
  - intros item model gs x fm sig sw before c after e Hok Hsplit Hbefore Hc.
    rewrite (fit_execute_run _ _ _ _ _ _ _ Hok). unfold fit_run.
    rewrite (for_fold_first_failure (structure_type model) CallFitBackground
               (fit_work x (collect_fit_intervals gs) (fm, 1%float)) _
               (fit_execute_component_spec _ _ _ _) _ before c after e);
      [reflexivity | exact Hsplit | | now apply fit_background_fails_work].
    intros c' Hc'. now apply fit_background_answers_work, Hbefore.
  - intros item model gs x sw before c after e Hok Hsplit Hbefore Hc.
    rewrite (subtract_execute_run _ _ _ _ _ Hok). unfold subtract_run.
    rewrite (for_fold_first_failure (structure_type model) CallSubtractBackground
               (subtract_work x (collect_fit_intervals gs)) _
               (subtract_execute_component_spec _ _ _) _ before c after e);
      [reflexivity | exact Hsplit | | now apply subtract_background_fails_work].
    intros c' Hc'. now apply subtract_background_answers_work, Hbefore.
  - intros item model gs g eels x ex sw before c after e Hok Hex Hsplit Hbefore Hc.
    rewrite (map_execute_run _ _ _ _ _ _ _ _ Hok Hex). unfold map_run.
    rewrite (for_fold_first_failure (structure_type model) CallIntegrateSignal
               (map_work x ex (collect_fit_intervals gs)
                  (normalized_interval (interval g))) _
               (map_execute_component_spec _ _ _ _ _) _ before c after e);
      [reflexivity | exact Hsplit | | now apply integrate_signal_fails_work].
    intros c' Hc'. now apply integrate_signal_answers_work, Hbefore.
Qed.

(** X5. The last selected component decides the result. When the
    selected components all answer, [execute] returns having called each
    of them, and the buffers hold what the last of them, [c], returned:
    the fitting handler buffers its ["background_model"] and, as the
    subtracted spectrum, its ["subtracted_spectrum"] if the result has
    one and otherwise the spectrum minus that background; the other two
    handlers buffer its ["subtracted"] and its ["integrated"]. The
    results of the components selected before [c] are dropped. *)
Theorem last_selected_component_decides :
  (forall item model gs x fm sig (sw : EELSFitBackground.Self * World)
          before c fit_result background_xdata subtracted_xdata,
     fit_inputs_ok item gs x fm sig ->
     matching_components (registry sw.2) (structure_type model) = before ++ [c] ->
     (forall c', c' ∈ before ->
        fit_background_answers x (collect_fit_intervals gs) (fm, 1%float) c') ->
     fit_background c x (collect_fit_intervals gs) (fm, 1%float) = Ret fit_result ->
     fit_result !! "background_model" = Some background_xdata ->
     (fit_result !! "subtracted_spectrum" = Some subtracted_xdata
      \/ (fit_result !! "subtracted_spectrum" = None
          /\ calibrated_subtract_spectrum x background_xdata = Ret subtracted_xdata)) ->
     EELSFitBackground.execute item model gs sw
     = (Ret tt,
        ({| EELSFitBackground.__background_xdata := Some background_xdata;
            EELSFitBackground.__subtracted_xdata := Some subtracted_xdata |},
         add_calls (map CallFitBackground (before ++ [c])) sw.2)))
  /\ (forall item model gs x (sw : EELSSubtractBackground.Self * World)
             before c integrate_result subtracted,
        image_inputs_ok item x ->
        matching_components (registry sw.2) (structure_type model) = before ++ [c] ->
        (forall c', c' ∈ before ->
           subtract_background_answers x (collect_fit_intervals gs) c') ->
        subtract_background_method c x (collect_fit_intervals gs) = Ret integrate_result ->
        integrate_result !! "subtracted" = Some subtracted ->
        EELSSubtractBackground.execute item model gs sw
        = (Ret tt,
           ({| EELSSubtractBackground.__subtracted_xdata := Some subtracted |},
            add_calls (map CallSubtractBackground (before ++ [c])) sw.2)))
  /\ (forall item model gs g eels x ex
             (sw : EELSMapBackgroundSubtractedSignal.Self * World)
             before c integrate_result integrated,
        image_inputs_ok item x -> eels_spectrum_ok eels ex ->
        matching_components (registry sw.2) (structure_type model) = before ++ [c] ->
        (forall c', c' ∈ before ->
           integrate_signal_answers x ex (collect_fit_intervals gs)
             (normalized_interval (interval g)) c') ->
        integrate_signal c x ex (collect_fit_intervals gs)
          (normalized_interval (interval g)) = Ret integrate_result ->
        integrate_result !! "integrated" = Some integrated ->
        EELSMapBackgroundSubtractedSignal.execute item model gs g eels sw
        = (Ret tt,
           ({| EELSMapBackgroundSubtractedSignal.__mapped_xdata := Some integrated |},
            add_calls (map CallIntegrateSignal (before ++ [c])) sw.2))).
Proof.
  repeat apply conj.
  - intros item model gs x fm sig sw before c fr bg sub Hok Hsplit Hbefore Hfit Hbg Hsub.
    assert (fit_work x (collect_fit_intervals gs) (fm, 1%float) c = Ret (Some bg, Some sub))
      as Hwork.
    { unfold fit_work. rewrite Hfit, Hbg.
      destruct Hsub as [->|[-> ->]]; reflexivity. }
    rewrite (fit_execute_run _ _ _ _ _ _ _ Hok). unfold fit_run.
    unfold matching_components in Hsplit.
    rewrite (for_fold_all_answer (structure_type model) CallFitBackground
               (fit_work x (collect_fit_intervals gs) (fm, 1%float)) _
               (fit_execute_component_spec _ _ _ _)).
    + rewrite Hsplit. cbn [fst snd].
      now rewrite (last_result_last _ _ _ _ _ Hwork).
    + rewrite Hsplit. intros c' Hc'. apply elem_of_app in Hc' as [Hc'|Hc'].
      * now apply fit_background_answers_work, Hbefore.
      * apply list_elem_of_singleton in Hc'. subst c'. eauto.
  - intros item model gs x sw before c d sub Hok Hsplit Hbefore Hd Hsub.
    assert (subtract_work x (collect_fit_intervals gs) c = Ret (Some sub)) as Hwork.
    { unfold subtract_work. now rewrite Hd, Hsub. }
    rewrite (subtract_execute_run _ _ _ _ _ Hok). unfold subtract_run.
    unfold matching_components in Hsplit.
    rewrite (for_fold_all_answer (structure_type model) CallSubtractBackground
               (subtract_work x (collect_fit_intervals gs)) _
               (subtract_execute_component_spec _ _ _)).
    + rewrite Hsplit. cbn [fst snd].
      now rewrite (last_result_last _ _ _ _ _ Hwork).
    + rewrite Hsplit. intros c' Hc'. apply elem_of_app in Hc' as [Hc'|Hc'].
      * now apply subtract_background_answers_work, Hbefore.
      * apply list_elem_of_singleton in Hc'. subst c'. eauto.
  - intros item model gs g eels x ex sw before c d v Hok Hex Hsplit Hbefore Hd Hv.
    assert (map_work x ex (collect_fit_intervals gs) (normalized_interval (interval g)) c
            = Ret (Some v)) as Hwork.
    { unfold map_work. now rewrite Hd, Hv. }
    rewrite (map_execute_run _ _ _ _ _ _ _ _ Hok Hex). unfold map_run.
    unfold matching_components in Hsplit.
    rewrite (for_fold_all_answer (structure_type model) CallIntegrateSignal
               (map_work x ex (collect_fit_intervals gs)
                  (normalized_interval (interval g))) _
               (map_execute_component_spec _ _ _ _ _)).
    + rewrite Hsplit. cbn [fst snd].
      now rewrite (last_result_last _ _ _ _ _ Hwork).
    + rewrite Hsplit. intros c' Hc'. apply elem_of_app in Hc' as [Hc'|Hc'].
      * now apply integrate_signal_answers_work, Hbefore.
      * apply list_elem_of_singleton in Hc'. subst c'. eauto.
Qed.

(** The input checks do not look at the handler or the world: either
    they pass, or they raise the same exception whatever the state. *)
Lemma fit_execute_guard item model gs :
  (exists e, forall sw : EELSFitBackground.Self * World,
     EELSFitBackground.execute item model gs sw = (Raise e, sw))
  \/ (exists x fm sig, fit_inputs_ok item gs x fm sig).
Proof.
  destruct (xdata item) as [x|] eqn:Hx;
    [|left; eexists; intros sw; unfold EELSFitBackground.execute; now run_with_facts].
  destruct (is_datum_1d x) eqn:H1d;
    [|left; eexists; intros sw; unfold EELSFitBackground.execute; now run_with_facts].
  destruct (datum_dimensional_calibrations x) as [|c0 rest] eqn:Hcal;
    [left; eexists; intros sw; unfold EELSFitBackground.execute; now run_with_facts|].
  destruct (str_eq (units c0) "eV") eqn:Hunits;
    [|left; eexists; intros sw; unfold EELSFitBackground.execute; now run_with_facts].
  destruct (Py.min (map fst (collect_fit_intervals gs))) as [fm|e] eqn:Hmin;
    [|left; eexists; intros sw; unfold EELSFitBackground.execute; now run_with_facts].
  destruct (get_calibrated_interval_slice x (fm, 1%float)) as [sig|e] eqn:Hsig;
    [|left; eexists; intros sw; unfold EELSFitBackground.execute; now run_with_facts].
  right. exists x, fm, sig.
  repeat split; try assumption. exists c0, rest. split; [assumption|].
  now apply units_eV.
Qed.

Lemma subtract_execute_guard item model gs :
  (exists e, forall sw : EELSSubtractBackground.Self * World,
     EELSSubtractBackground.execute item model gs sw = (Raise e, sw))
  \/ (exists x, image_inputs_ok item x).
Proof.
  destruct (xdata item) as [x|] eqn:Hx;
    [|left; eexists; intros sw; unfold EELSSubtractBackground.execute;
      now run_with_facts].
  destruct (is_datum_1d x) eqn:H1d;
    [|left; eexists; intros sw; unfold EELSSubtractBackground.execute;
      now run_with_facts].
  destruct (is_navigable x) eqn:Hnav;
    [|left; eexists; intros sw; unfold EELSSubtractBackground.execute;
      now run_with_facts].
  destruct (datum_dimensional_calibrations x) as [|c0 rest] eqn:Hcal;
    [left; eexists; intros sw; unfold EELSSubtractBackground.execute;
     now run_with_facts|].
  destruct (str_eq (units c0) "eV") eqn:Hunits;
    [|left; eexists; intros sw; unfold EELSSubtractBackground.execute;
      now run_with_facts].
  right. exists x.
  repeat split; try assumption. exists c0, rest. split; [assumption|].
  now apply units_eV.
Qed.

Lemma check_eels_spectrum_guard eels :
  (exists e, forall sw : EELSMapBackgroundSubtractedSignal.Self * World,
     EELSMapBackgroundSubtractedSignal.check_eels_spectrum eels sw = (Raise e, sw))
  \/ (exists ex, eels_spectrum_ok eels ex).
Proof.
  destruct eels as [item|]; [|right; exists None; reflexivity].
  destruct (xdata item) as [x|] eqn:Hx;
    [|left; eexists; intros sw;
      unfold EELSMapBackgroundSubtractedSignal.check_eels_spectrum; now run_with_facts].
  destruct (is_datum_1d x) eqn:H1d;
    [|left; eexists; intros sw;
      unfold EELSMapBackgroundSubtractedSignal.check_eels_spectrum; now run_with_facts].
  destruct (datum_dimensional_calibrations x) as [|c0 rest] eqn:Hcal;
    [left; eexists; intros sw;
     unfold EELSMapBackgroundSubtractedSignal.check_eels_spectrum; now run_with_facts|].
  destruct (str_eq (units c0) "eV") eqn:Hunits;
    [|left; eexists; intros sw;
      unfold EELSMapBackgroundSubtractedSignal.check_eels_spectrum; now run_with_facts].
  right. exists (Some x), x.
  repeat split; try assumption. exists c0, rest. split; [assumption|].
  now apply units_eV.
Qed.

Lemma map_execute_guard item model gs g eels :
  (exists e, forall sw : EELSMapBackgroundSubtractedSignal.Self * World,
     EELSMapBackgroundSubtractedSignal.execute item model gs g eels sw = (Raise e, sw))
  \/ (exists x ex, image_inputs_ok item x /\ eels_spectrum_ok eels ex).
Proof.
  destruct (xdata item) as [x|] eqn:Hx;
    [|left; eexists; intros sw; unfold EELSMapBackgroundSubtractedSignal.execute;
      now run_with_facts].
  destruct (is_datum_1d x) eqn:H1d;
    [|left; eexists; intros sw; unfold EELSMapBackgroundSubtractedSignal.execute;
      now run_with_facts].
  destruct (is_navigable x) eqn:Hnav;
    [|left; eexists; intros sw; unfold EELSMapBackgroundSubtractedSignal.execute;
      now run_with_facts].
  destruct (datum_dimensional_calibrations x) as [|c0 rest] eqn:Hcal;
    [left; eexists; intros sw; unfold EELSMapBackgroundSubtractedSignal.execute;
     now run_with_facts|].
  destruct (str_eq (units c0) "eV") eqn:Hunits;
    [|left; eexists; intros sw; unfold EELSMapBackgroundSubtractedSignal.execute;
      now run_with_facts].
  destruct (check_eels_spectrum_guard eels) as [[e He]|[ex Hex]].
  { left. exists e. intros sw. specialize (He sw).
    unfold EELSMapBackgroundSubtractedSignal.execute. now run_with_facts. }
  right. exists x, ex. split; [|exact Hex].
  repeat split; try assumption. exists c0, rest. split; [assumption|].
  now apply units_eV.
Qed.

(** X6. [execute] reads neither the buffers of the handler nor the
    outputs of the computation: with components whose algorithms are
    functions of their arguments, what it does depends on its inputs and
    on the registry of components only. Run on the same inputs from two
    states with the same registry, [execute] has the same outcome, makes
    the same calls of components and, when it returns, leaves the same
    buffers. *)
Theorem execute_depends_on_registry_only :
  (forall item model gs (sw1 sw2 : EELSFitBackground.Self * World),
     registry sw1.2 = registry sw2.2 ->
     let r1 := EELSFitBackground.execute item model gs sw1 in
     let r2 := EELSFitBackground.execute item model gs sw2 in
     r1.1 = r2.1
     /\ (r1.1 = Ret tt -> r1.2.1 = r2.2.1)
     /\ exists calls, r1.2.2 = add_calls calls sw1.2 /\ r2.2.2 = add_calls calls sw2.2)
  /\ (forall item model gs (sw1 sw2 : EELSSubtractBackground.Self * World),
        registry sw1.2 = registry sw2.2 ->
        let r1 := EELSSubtractBackground.execute item model gs sw1 in
        let r2 := EELSSubtractBackground.execute item model gs sw2 in
        r1.1 = r2.1
        /\ (r1.1 = Ret tt -> r1.2.1 = r2.2.1)
        /\ exists calls, r1.2.2 = add_calls calls sw1.2
                         /\ r2.2.2 = add_calls calls sw2.2)
  /\ (forall item model gs g eels
             (sw1 sw2 : EELSMapBackgroundSubtractedSignal.Self * World),
        registry sw1.2 = registry sw2.2 ->
        let r1 := EELSMapBackgroundSubtractedSignal.execute item model gs g eels sw1 in
        let r2 := EELSMapBackgroundSubtractedSignal.execute item model gs g eels sw2 in
        r1.1 = r2.1
        /\ (r1.1 = Ret tt -> r1.2.1 = r2.2.1)
        /\ exists calls, r1.2.2 = add_calls calls sw1.2
                         /\ r2.2.2 = add_calls calls sw2.2).
Proof.
  repeat apply conj.
  - intros item model gs sw1 sw2 Hreg.
    destruct (fit_execute_guard item model gs) as [[e He]|(x & fm & sig & Hok)];
      cbv zeta.
    { rewrite !He. cbn [fst snd]. split; [reflexivity|]. split; [discriminate|].
      exists []. now rewrite !add_calls_nil. }
    rewrite !(fit_execute_run _ _ _ _ _ _ _ Hok). unfold fit_run. rewrite <- Hreg.
    destruct (for_fold_uniform (structure_type model) CallFitBackground
                (fit_work x (collect_fit_intervals gs) (fm, 1%float)) _
                (fit_execute_component_spec _ _ _ _)
                (get_components_by_type (registry sw1.2) "background-model")
                (None, None)) as (o & calls & Hfold).
    rewrite !Hfold. cbn [fst snd].
    destruct o; cbn [fst snd]; repeat split; eauto; discriminate.
  - intros item model gs sw1 sw2 Hreg.
    destruct (subtract_execute_guard item model gs) as [[e He]|(x & Hok)]; cbv zeta.
    { rewrite !He. cbn [fst snd]. split; [reflexivity|]. split; [discriminate|].
      exists []. now rewrite !add_calls_nil. }
    rewrite !(subtract_execute_run _ _ _ _ _ Hok). unfold subtract_run.
    rewrite <- Hreg.
    destruct (for_fold_uniform (structure_type model) CallSubtractBackground
                (subtract_work x (collect_fit_intervals gs)) _
                (subtract_execute_component_spec _ _ _)
                (get_components_by_type (registry sw1.2) "background-model")
                None) as (o & calls & Hfold).
    rewrite !Hfold. cbn [fst snd].
    destruct o; cbn [fst snd]; repeat split; eauto; discriminate.
  - intros item model gs g eels sw1 sw2 Hreg.
    destruct (map_execute_guard item model gs g eels) as [[e He]|(x & ex & Hok & Hex)];
      cbv zeta.
    { rewrite !He. cbn [fst snd]. split; [reflexivity|]. split; [discriminate|].
      exists []. now rewrite !add_calls_nil. }
    rewrite !(map_execute_run _ _ _ _ _ _ _ _ Hok Hex). unfold map_run.
    rewrite <- Hreg.
    destruct (for_fold_uniform (structure_type model) CallIntegrateSignal
                (map_work x ex (collect_fit_intervals gs)
                   (normalized_interval (interval g))) _
                (map_execute_component_spec _ _ _ _ _)
                (get_components_by_type (registry sw1.2) "background-model")
                None) as (o & calls & Hfold).
    rewrite !Hfold. cbn [fst snd].
    destruct o; cbn [fst snd]; repeat split; eauto; discriminate.
Qed.

(** X7. A run of [execute] that raises leaves the buffers of the
    previous run in place, so that a [commit] after it behaves as a
    [commit] before it would have: it has the same outcome and sets the
    outputs of the computation to the same values. *)
Theorem commit_after_failed_execute :
  (forall item model gs (sw : EELSFitBackground.Self * World),
     let r := EELSFitBackground.execute item model gs sw in
     r.1 <> Ret tt ->
     r.2.1 = sw.1
     /\ (EELSFitBackground.commit r.2).1 = (EELSFitBackground.commit sw).1
     /\ referenced_xdata (EELSFitBackground.commit r.2).2.2
        = referenced_xdata (EELSFitBackground.commit sw).2.2)
  /\ (forall item model gs (sw : EELSSubtractBackground.Self * World),
        let r := EELSSubtractBackground.execute item model gs sw in
        r.1 <> Ret tt ->
        r.2.1 = sw.1
        /\ (EELSSubtractBackground.commit r.2).1 = (EELSSubtractBackground.commit sw).1
        /\ referenced_xdata (EELSSubtractBackground.commit r.2).2.2
           = referenced_xdata (EELSSubtractBackground.commit sw).2.2)
  /\ (forall item model gs g eels (sw : EELSMapBackgroundSubtractedSignal.Self * World),
        let r := EELSMapBackgroundSubtractedSignal.execute item model gs g eels sw in
        r.1 <> Ret tt ->
        r.2.1 = sw.1
        /\ (EELSMapBackgroundSubtractedSignal.commit r.2).1
           = (EELSMapBackgroundSubtractedSignal.commit sw).1
        /\ referenced_xdata (EELSMapBackgroundSubtractedSignal.commit r.2).2.2
           = referenced_xdata (EELSMapBackgroundSubtractedSignal.commit sw).2.2).
Proof.
  repeat apply conj.
  - intros item model gs sw r Hfail.
    destruct (fit_execute_world item model gs sw) as (invoked & _ & Hw & _ & Hself).
    fold r in Hw, Hself. specialize (Hself Hfail).
    split; [exact Hself|].
    destruct r as [o [self' w']], sw as [self w]. cbn [fst snd] in *. subst self' w'.
    rewrite !fit_commit_spec.
    destruct (EELSFitBackground.__background_xdata self);
      destruct (EELSFitBackground.__subtracted_xdata self); split; reflexivity.
  - intros item model gs sw r Hfail.
    destruct (subtract_execute_world item model gs sw) as (invoked & _ & Hw & _ & Hself).
    fold r in Hw, Hself. specialize (Hself Hfail).
    split; [exact Hself|].
    destruct r as [o [self' w']], sw as [self w]. cbn [fst snd] in *. subst self' w'.
    rewrite !subtract_commit_spec.
    destruct (EELSSubtractBackground.__subtracted_xdata self); split; reflexivity.
  - intros item model gs g eels sw r Hfail.
    destruct (map_execute_world item model gs g eels sw)
      as (invoked & _ & Hw & _ & Hself).
    fold r in Hw, Hself. specialize (Hself Hfail).
    split; [exact Hself|].
    destruct r as [o [self' w']], sw as [self w]. cbn [fst snd] in *. subst self' w'.
    rewrite !map_commit_spec.
    destruct (EELSMapBackgroundSubtractedSignal.__mapped_xdata self); split; reflexivity.
Qed.

(** X8. [commit] can be repeated: a [commit] that follows a [commit]
    that returned also returns, and leaves the handler and the outputs
    of the computation as the first left them. Each of the two makes its
    calls of [set_referenced_xdata]. *)
Theorem commit_twice :
  (forall (sw : EELSFitBackground.Self * World),
     let c1 := EELSFitBackground.commit sw in
     let c2 := EELSFitBackground.commit c1.2 in
     c1.1 = Ret tt ->
     c2.1 = Ret tt /\ c2.2.1 = sw.1
     /\ referenced_xdata c2.2.2 = referenced_xdata c1.2.2
     /\ exists calls, publications c1.2.2 = publications sw.2 ++ calls
                      /\ publications c2.2.2 = publications sw.2 ++ calls ++ calls)
  /\ (forall (sw : EELSSubtractBackground.Self * World),
        let c1 := EELSSubtractBackground.commit sw in
        let c2 := EELSSubtractBackground.commit c1.2 in
        c1.1 = Ret tt ->
        c2.1 = Ret tt /\ c2.2.1 = sw.1
        /\ referenced_xdata c2.2.2 = referenced_xdata c1.2.2
        /\ exists calls, publications c1.2.2 = publications sw.2 ++ calls
                         /\ publications c2.2.2 = publications sw.2 ++ calls ++ calls)
  /\ (forall (sw : EELSMapBackgroundSubtractedSignal.Self * World),
        let c1 := EELSMapBackgroundSubtractedSignal.commit sw in
        let c2 := EELSMapBackgroundSubtractedSignal.commit c1.2 in
        c1.1 = Ret tt ->
        c2.1 = Ret tt /\ c2.2.1 = sw.1
        /\ referenced_xdata c2.2.2 = referenced_xdata c1.2.2
        /\ exists calls, publications c1.2.2 = publications sw.2 ++ calls
                         /\ publications c2.2.2 = publications sw.2 ++ calls ++ calls).
Proof.
  assert (forall (m : gmap string DataAndMetadata) k v,
            <[k:=v]> (<[k:=v]> m) = <[k:=v]> m)
    as Hsame.
  { intros m k v. apply (map_eq (M:=gmap string)). intros k'.
    destruct (decide (k = k')) as [->|Hne].
    - now rewrite !lookup_insert_eq.
    - now rewrite !lookup_insert_ne. }
  repeat apply conj.
  - intros [self w]. cbn zeta. rewrite fit_commit_spec.
    destruct (EELSFitBackground.__background_xdata self) as [b|] eqn:Hb;
      [|discriminate].
    destruct (EELSFitBackground.__subtracted_xdata self) as [s|] eqn:Hs;
      [|discriminate].
    intros _. cbn [fst snd]. rewrite fit_commit_spec, Hb, Hs. cbn [fst snd].
    split; [reflexivity|]. split; [reflexivity|]. split.
    + unfold publish. cbn. apply (map_eq (M:=gmap string)). intros k.
      destruct (decide ("subtracted" = k)) as [<-|Hk1];
        [now rewrite !lookup_insert_eq|].
      rewrite !(lookup_insert_ne _ "subtracted") by assumption.
      destruct (decide ("background" = k)) as [<-|Hk2];
        [now rewrite !lookup_insert_eq|].
      now repeat rewrite lookup_insert_ne by assumption.
    + exists [CallSetReferencedXData "background" b; CallSetReferencedXData "subtracted" s].
      rewrite !publications_publish, <- !app_assoc. split; reflexivity.
  - intros [self w]. cbn zeta. rewrite subtract_commit_spec.
    destruct (EELSSubtractBackground.__subtracted_xdata self) as [s|] eqn:Hs;
      [|discriminate].
    intros _. cbn [fst snd]. rewrite subtract_commit_spec, Hs. cbn [fst snd].
    split; [reflexivity|]. split; [reflexivity|]. split.
    + unfold publish. cbn. apply Hsame.
    + exists [CallSetReferencedXData "subtracted" s].
      rewrite !publications_publish, <- !app_assoc. split; reflexivity.
  - intros [self w]. cbn zeta. rewrite map_commit_spec.
    destruct (EELSMapBackgroundSubtractedSignal.__mapped_xdata self) as [m|] eqn:Hm;
      [|discriminate].
    intros _. cbn [fst snd]. rewrite map_commit_spec, Hm. cbn [fst snd].
    split; [reflexivity|]. split; [reflexivity|]. split.
    + unfold publish. cbn. apply Hsame.
    + exists [CallSetReferencedXData "map" m].
      rewrite !publications_publish, <- !app_assoc. split; reflexivity.
Qed.

End HandlerExtras.

(* ===================================================================== *)
(** * Components registered before the module is loaded                    *)
(* ===================================================================== *)

Section RegistrationExtras.
Context `{DataAPI}.

Lemma with_background_model_entities_registered (components : list Component) :
  forall entities,
    data_structure_entities (with_background_model_entities components entities)
    = data_structure_entities entities ++ map background_model_entity_of components.
Proof.
  induction components as [|c cs IH]; intros entities; cbn.
  - now rewrite app_nil_r.
  - unfold with_background_model_entities in IH. rewrite IH. cbn.
    now rewrite <- app_assoc.
Qed.

Lemma with_background_model_entities_taken (components : list Component) :
  forall entities id,
    schema_entity_types (with_background_model_entities components entities) !! id
    = None
    <-> schema_entity_types entities !! id = None
        /\ id ∉ map background_model_id components.
Proof.
  induction components as [|c cs IH]; intros entities id; cbn.
  - split; [|tauto]. intros Hid. split; [exact Hid|]. apply not_elem_of_nil.
  - unfold with_background_model_entities in IH. rewrite IH. cbn.
    rewrite lookup_insert_None, not_elem_of_cons. intuition congruence.
Qed.

(** The loop stops at the first component whose id is in use. *)
Lemma replay_clashing_component (before : list Component) :
  forall (c : Component) (after : list Component) (entities : Entities),
    NoDup (map background_model_id before) ->
    (forall c', c' ∈ before ->
       schema_entity_types entities !! background_model_id c' = None) ->
    (background_model_id c ∈ map background_model_id before
     \/ schema_entity_types entities !! background_model_id c <> None) ->
    for_each (before ++ c :: after)
      (fun component => component_registered component {["background-model"]}) entities
    = (Raise AssertionError, with_background_model_entities before entities).
Proof.
  induction before as [|b before IH]; intros c after entities Hnodup Hfresh Hclash.
  - cbn [app]. rewrite for_each_cons, component_registered_spec.
    rewrite bool_decide_eq_true_2 by set_solver.
    destruct Hclash as [Hin|Htaken]; [now apply elem_of_nil in Hin|].
    now destruct (schema_entity_types entities !! background_model_id c).
  - apply NoDup_cons in Hnodup as [Hb Hnodup].
    cbn [app]. rewrite for_each_cons, component_registered_spec.
    rewrite bool_decide_eq_true_2 by set_solver.
    rewrite (Hfresh b) by apply list_elem_of_here.
    apply IH; [exact Hnodup | |].
    + intros c' Hc'. cbn. rewrite lookup_insert_ne.
      * apply Hfresh. now apply list_elem_of_further.
      * intros Heq. apply Hb. rewrite Heq. apply list_elem_of_fmap. eauto.
    + cbn. destruct (decide (background_model_id b = background_model_id c)) as [Heq|Hne].
      * right. rewrite Heq, lookup_insert_eq. discriminate.
      * destruct Hclash as [Hin|Htaken].
        { left. cbn in Hin. apply elem_of_cons in Hin as [Hin|Hin];
            [congruence | exact Hin]. }
        { right. now rewrite lookup_insert_ne. }
Qed.

(** X9. The loop at the end of the module hands every component that
    was registered under ["background-model"] before the module was
    loaded to [component_registered], in registry order. When their ids
    are pairwise different and none is the id of a schema entity yet,
    the loop returns, and one entity is made and registered for each of
    them, in that order, after the entities registered before. When the
    id of one of them is in use, by a schema entity or by a component
    before it, the loop raises the assertion error of [Schema.entity]
    there: the components before it have their entities, this one and
    those after it have none. *)
Theorem module_load_replays_registered_components
    (the_registry : Registry) (entities : Entities) :
  let components := get_components_by_type the_registry "background-model" in
  let r := replay_registered_components the_registry entities in
  (NoDup (map background_model_id components) ->
   (forall c, c ∈ components ->
      schema_entity_types entities !! background_model_id c = None) ->
   r.1 = Ret tt
   /\ data_structure_entities r.2
      = data_structure_entities entities ++ map background_model_entity_of components
   /\ forall id,
        schema_entity_types r.2 !! id = None
        <-> schema_entity_types entities !! id = None
            /\ id ∉ map background_model_id components)
  /\ (forall before c after,
        components = before ++ c :: after ->
        NoDup (map background_model_id before) ->
        (forall c', c' ∈ before ->
           schema_entity_types entities !! background_model_id c' = None) ->
        (background_model_id c ∈ map background_model_id before
         \/ schema_entity_types entities !! background_model_id c <> None) ->
        r.1 = Raise AssertionError
        /\ data_structure_entities r.2
           = data_structure_entities entities ++ map background_model_entity_of before
        /\ forall id,
             schema_entity_types r.2 !! id = None
             <-> schema_entity_types entities !! id = None
                 /\ id ∉ map background_model_id before).
Proof.
  intros components r. subst components r. unfold replay_registered_components.
  split.
  - intros Hnodup Hfresh.
    rewrite (replay_fresh_components _ _ Hnodup Hfresh). cbn [fst snd].
    split; [reflexivity|].
    split; [apply with_background_model_entities_registered|].
    apply with_background_model_entities_taken.
  - intros before c after Hsplit Hnodup Hfresh Hclash.
    rewrite Hsplit, (replay_clashing_component _ _ _ _ Hnodup Hfresh Hclash).
    cbn [fst snd]. split; [reflexivity|].
    split; [apply with_background_model_entities_registered|].
    apply with_background_model_entities_taken.
Qed.

End RegistrationExtras.

(* ===================================================================== *)
(** * More on the menu actions                                             *)
(* ===================================================================== *)

Section DocumentExtras.
Context `{DataAPI}.
Variable gettext : string -> string.
Variable get_source_data_items : DocumentModel -> ref -> list ref.

Ltac step_returns H :=
  rewrite (bind_returns _ _ _ _ _ (returns_after _ _ _ H)); cbv beta.

(** X10. [add_background_subtraction_computation] labels every interval
    graphic passed in with the translation of ["Background"], keeping
    its type and its interval, and makes eight calls on the display
    item, in this order: a display data channel is appended for the new
    background data item and then for the new signal data item, the
    display layers at the indexes 0 and 1 are moved backward, the layers
    0, 1 and 2 are given the labels "Background", "Signal" and "Data"
    with their fill colours, and the legend is put at the top right. No
    call is made on another display item, and the three new objects
    apart, no data item and no data structure is changed. *)
Theorem add_background_subtraction_computation_display :
  forall display_item data_item intervals s,
    let r := add_background_subtraction_computation gettext display_item data_item
               intervals s in
    let d := document_model s in
    let d' := document_model r.2 in
    (forall g, g ∈ intervals ->
       label (graphic_at d' g) = Some (gettext "Background")
       /\ graphic_type (graphic_at d' g) = graphic_type (graphic_at d g)
       /\ interval (graphic_at d' g) = interval (graphic_at d g))
    /\ display_calls (display_item_at d' display_item)
       = display_calls (display_item_at d display_item)
         ++ [ append_display_data_channel_for_data_item (next_ref d);
              append_display_data_channel_for_data_item (S (next_ref d));
              move_display_layer_at_index_backward 0;
              move_display_layer_at_index_backward 1;
              _set_display_layer_properties 0 (gettext "Background")
                "rgba(255, 0, 0, 0.3)";
              _set_display_layer_properties 1 (gettext "Signal") "#0F0";
              _set_display_layer_properties 2 (gettext "Data") "#1E90FF";
              set_display_property "legend_position" "top-right" ]
    /\ (forall other, other <> display_item ->
          display_item_at d' other = display_item_at d other)
    /\ (forall item, item <> next_ref d -> item <> S (next_ref d) ->
          data_item_at d' item = data_item_at d item)
    /\ (forall structure, structure <> S (S (next_ref d)) ->
          data_structure_at d' structure = data_structure_at d structure)
    /\ next_ref d' = S (S (S (next_ref d))).
Proof.
  intros display_item data_item intervals s.
  unfold add_background_subtraction_computation.
  step_returns (create_data_item_value s).
  set (s1 := after create_data_item s).
  step_returns (create_data_item_value s1).
  set (s2 := after create_data_item s1).
  step_returns (new_DataStructure_value "power_law_fit_background_model" s2).
  set (s3 := after (new_DataStructure "power_law_fit_background_model") s2).
  step_returns (append_data_structure_value (next_ref (document_model s2)) s3).
  set (s4 := after (append_data_structure (next_ref (document_model s2))) s3).
  step_returns (set_source_value (next_ref (document_model s2))
                  (next_ref (document_model s)) s4).
  set (s5 := after (set_source (next_ref (document_model s2))
                      (next_ref (document_model s))) s4).
  match goal with |- context [bind (create_computation ?p ?i ?o)] =>
    step_returns (create_computation_value p i o s5);
    set (s6 := after (create_computation p i o) s5)
  end.
  fold (mark_intervals gettext intervals).
  destruct (mark_intervals_spec gettext intervals s6) as (Hret & Hsame & Hat).
  step_returns Hret.
  fold (after (mark_intervals gettext intervals) s6) in Hsame, Hat.
  set (s7 := after (mark_intervals gettext intervals) s6) in *.
  destruct Hsame as (Hw & Hdi & Hds & Hdisp & Hnext & Hitems & Hstructs & Hcomps).
  pose proof (displayed_calls_since_refl s7 display_item) as Hsd.
  repeat match goal with |- context [bind (display_call ?d ?c) ?k ?st] =>
    step_returns (display_call_value d c st);
    apply (displayed_calls_since_step _ _ d _ c) in Hsd
  end.
  match goal with |- context [display_call ?d ?c ?st] =>
    rewrite (returns_after _ _ tt (display_call_value d c st));
    apply (displayed_calls_since_step _ _ d _ c) in Hsd
  end.
  cbv zeta. cbn [fst snd].
  match type of Hsd with displayed_calls_since _ ?final _ _ =>
    set (s8 := final) in *
  end.
  destruct Hsd as (Hdi' & Hds' & Hg' & Hnext' & _ & _ & _ & Hcalls & _ & _ & Hother
                   & _ & _ & _).
  rewrite Hdi', Hds', Hg', Hnext', Hcalls, Hdi, Hds, Hdisp, Hnext.
  assert (forall other, other <> display_item ->
            display_item_at (document_model s8) other
            = display_item_at (document_model s6) other) as Hother'.
  { intros other Hne. rewrite (Hother other Hne). now rewrite Hdisp. }
  clear Hother Hdi' Hds' Hg' Hnext' Hcalls Hw Hdi Hds Hdisp Hnext Hitems Hstructs
        Hcomps Hret.
  clearbody s8.
  clearbody s7. subst s6 s5 s4 s3 s2 s1. unfold after in Hat, Hother' |- *.
  cbn in Hat, Hother' |- *.
  repeat apply conj.
  - intros g Hg. rewrite Hat, bool_decide_eq_true_2 by assumption.
    repeat split.
  - reflexivity.
  - exact Hother'.
  - intros item Hne1 Hne2. unfold update.
    apply Nat.eqb_neq in Hne1, Hne2. now rewrite Hne1, Hne2.
  - intros structure Hne. unfold update.
    apply Nat.eqb_neq in Hne. now rewrite Hne.
  - reflexivity.
Qed.

(** ** The loop over the computations *)

Lemma subtract_background_body_shape c :
  subtract_background_body get_source_data_items c
  = found_body get_source_data_items (subtract_background_build c) c.
Proof. reflexivity. Qed.

Lemma use_signal_for_map_body_shape g c :
  use_signal_for_map_body get_source_data_items g c
  = found_body get_source_data_items (use_signal_for_map_build g c) c.
Proof. reflexivity. Qed.

Lemma new_computation_built p (i : ref -> ComputationInputs) (o : ref -> dict ref) x s :
  (let* r := create_data_item_from_data (numpy_zeros (navigation_dimension_shape x)) in
   create_computation p (i r) (o r) ;; display_data_item r) s
  = (Ret tt,
     with_new_computation s x
       {| processing_id := p;
          inputs := i (next_ref (document_model s));
          outputs := o (next_ref (document_model s)) |}).
Proof. reflexivity. Qed.

(** The three ways in which the body run for the first displayed
    background subtraction ends. *)
Lemma found_body_outcomes (build : Computation -> ref -> ref -> DataAndMetadata
                                   -> M Session unit) s disp c :
  target_display (window s) = Some disp ->
  List.find (is_displayed_background_subtraction
               (display_data_items (display_item_at (document_model s) disp)))
            (computations (document_model s)) = Some c ->
  let run := found_body get_source_data_items (build c) c s in
  (exists e si x,
     background_subtraction_found get_source_data_items s c si x
     /\ in_eels_spectrum_data_item (inputs c) = Some e
     /\ run = build c e si x s)
  \/ (source_xdata_missing get_source_data_items s
      /\ (forall c' si x, ~ background_subtraction_found get_source_data_items s c' si x)
      /\ run = (Raise AssertionError, s))
  \/ ((forall c' si x, ~ background_subtraction_found get_source_data_items s c' si x)
      /\ ~ source_xdata_missing get_source_data_items s
      /\ run = (Ret tt, s)).
Proof.
  intros Hdisp Hfind run. subst run.
  set (items := display_data_items (display_item_at (document_model s) disp)) in *.
  assert (forall c', first_passing (is_displayed_background_subtraction items)
                       (computations (document_model s)) c' -> c' = c) as Hunique.
  { intros c' Hc'. apply find_first_passing in Hc'. congruence. }
  pose proof Hfind as Hfound. apply find_first_passing in Hfound.
  pose proof Hfound as (_ & _ & _ & _ & Htest).
  apply is_displayed_background_subtraction_spec in Htest
    as (Hpid & (e & He & Hein) & (o & Ho & Hoin)).
  assert (forall P : Prop,
            (forall e' si' x',
               in_eels_spectrum_data_item (inputs c) = Some e' ->
               get_source_data_items (document_model s) e' = [si'] ->
               xdata (data_item_at (document_model s) si') = Some x' ->
               is_navigable x' = true ->
               datum_dimension_count (data_item_at (document_model s) si') = 1 -> P) ->
            (forall c' si x,
               background_subtraction_found get_source_data_items s c' si x -> P))
    as Hno_found.
  { intros P HP c' si' x'
      (disp' & e' & o' & Hd' & Hfirst & _ & He' & _ & _ & _ & Hsrc' & Hx' & Hnav' & Hcount').
    rewrite Hdisp in Hd'. injection Hd' as <-. apply Hunique in Hfirst. subst c'.
    now apply (HP e' si' x'). }
  assert (forall P : Prop,
            (forall e' si',
               in_eels_spectrum_data_item (inputs c) = Some e' ->
               get_source_data_items (document_model s) e' = [si'] ->
               xdata (data_item_at (document_model s) si') = None -> P) ->
            source_xdata_missing get_source_data_items s -> P) as Hno_missing.
  { intros P HP (disp' & c' & e' & si' & Hd' & Hfirst & He' & Hsrc' & Hx').
    rewrite Hdisp in Hd'. injection Hd' as <-. apply Hunique in Hfirst. subst c'.
    now apply (HP e' si'). }
  unfold found_body. rewrite He.
  rewrite (bind_returns document _ s s (document_model s) eq_refl). cbv beta.
  destruct (get_source_data_items (document_model s) e) as [|si [|si' rest]] eqn:Hsrc.
  { right; right. split; [|split; [|reflexivity]].
    - intros c' si x. refine (Hno_found False _ c' si x). intros; congruence.
    - refine (Hno_missing False _). intros; congruence. }
  2:{ right; right. split; [|split; [|reflexivity]].
      - intros c' si0 x. refine (Hno_found False _ c' si0 x). intros; congruence.
      - refine (Hno_missing False _). intros; congruence. }
  destruct (xdata (data_item_at (document_model s) si)) as [x|] eqn:Hx.
  2:{ right; left. split; [|split; [|reflexivity]].
      - exists disp, c, e, si. repeat split; try assumption; apply Hfound.
      - intros c' si0 x. refine (Hno_found False _ c' si0 x). intros; congruence. }
  rewrite (bind_returns (assert_object (Some x)) _ s s x eq_refl). cbv beta.
  destruct (is_navigable x) eqn:Hnav.
  2:{ right; right. split; [|split; [|reflexivity]].
      - intros c' si0 x'. refine (Hno_found False _ c' si0 x'). intros; congruence.
      - refine (Hno_missing False _). intros; congruence. }
  rewrite andb_true_l.
  destruct (Nat.eqb_spec (datum_dimension_count (data_item_at (document_model s) si)) 1)
    as [Hcount|Hcount].
  2:{ right; right. split; [|split; [|reflexivity]].
      - intros c' si0 x'. refine (Hno_found False _ c' si0 x'). intros; congruence.
      - refine (Hno_missing False _). intros; congruence. }
  left. exists e, si, x. split; [|split; reflexivity].
  exists disp, e, o. repeat split; try assumption; try reflexivity; apply Hfound.
Qed.

Lemma nothing_displayed_found s disp :
  target_display (window s) = Some disp ->
  List.find (is_displayed_background_subtraction
               (display_data_items (display_item_at (document_model s) disp)))
            (computations (document_model s)) = None ->
  (forall c si x, ~ background_subtraction_found get_source_data_items s c si x)
  /\ ~ source_xdata_missing get_source_data_items s.
Proof.
  intros Hdisp Hfind. split.
  - intros c si x (disp' & e & o & Hd' & Hfirst & _).
    rewrite Hdisp in Hd'. injection Hd' as <-.
    apply find_first_passing in Hfirst. congruence.
  - intros (disp' & c & e & si & Hd' & Hfirst & _).
    rewrite Hdisp in Hd'. injection Hd' as <-.
    apply find_first_passing in Hfirst. congruence.
Qed.

Lemma no_target_display_found s :
  target_display (window s) = None ->
  (forall c si x, ~ background_subtraction_found get_source_data_items s c si x)
  /\ ~ source_xdata_missing get_source_data_items s
  /\ forall g, ~ signal_interval_selected s g.
Proof.
  intros Hdisp. repeat split.
  - intros c si x (disp' & e & o & Hd' & _). congruence.
  - intros (disp' & c & e & si & Hd' & _). congruence.
  - intros g (disp' & Hd' & _). congruence.
Qed.

Lemma subtract_background_outcomes s :
  let run := subtract_background get_source_data_items s in
  (exists c si x new_computation,
     background_subtraction_found get_source_data_items s c si x
     /\ run = (Ret tt, with_new_computation s x new_computation))
  \/ (source_xdata_missing get_source_data_items s
      /\ run = (Raise AssertionError, s))
  \/ (~ source_xdata_missing get_source_data_items s
      /\ run = (Ret tt, s)).
Proof.
  intros run. subst run. unfold subtract_background.
  rewrite (bind_returns get _ s s s eq_refl). cbv beta.
  destruct (target_display (window s)) as [disp|] eqn:Hdisp.
  2:{ right; right. split; [|reflexivity]. now apply no_target_display_found. }
  rewrite for_first_find.
  destruct (List.find _ (computations (document_model s))) as [c|] eqn:Hfind.
  2:{ right; right. split; [|reflexivity]. now apply (nothing_displayed_found s disp). }
  rewrite subtract_background_body_shape.
  destruct (found_body_outcomes subtract_background_build s disp c Hdisp Hfind)
    as [(e & si & x & Hfound & He & Hrun)|[(Hmiss & _ & Hrun)|(_ & Hmiss & Hrun)]];
    cbv zeta in Hrun; rewrite Hrun.
  - left. exists c, si, x. eexists. split; [exact Hfound|].
    unfold subtract_background_build.
    apply (new_computation_built "eels.subtract_background"
             (fun _ => _) (fun r => {[ "subtracted" := r ]}) x s).
  - right; left. now split.
  - right; right. now split.
Qed.

Lemma signal_interval_selected_unique s g g' :
  signal_interval_selected s g -> signal_interval_selected s g' -> g' = g.
Proof. intros (disp & Hd & Hsel & _) (disp' & Hd' & Hsel' & _). congruence. Qed.

Lemma use_signal_for_map_outcomes s :
  let run := use_signal_for_map get_source_data_items s in
  (exists g c si x,
     signal_interval_selected s g
     /\ background_subtraction_found get_source_data_items s c si x
     /\ run = (Ret tt,
               with_new_computation s x
                 (mapping_computation c si g (next_ref (document_model s)))))
  \/ ((exists g, signal_interval_selected s g)
      /\ source_xdata_missing get_source_data_items s
      /\ (forall c si x, ~ background_subtraction_found get_source_data_items s c si x)
      /\ run = (Raise AssertionError, s))
  \/ (((forall g, ~ signal_interval_selected s g)
       \/ ((forall c si x, ~ background_subtraction_found get_source_data_items s c si x)
           /\ ~ source_xdata_missing get_source_data_items s))
      /\ run = (Ret tt, s)).
Proof.
  intros run. subst run. unfold use_signal_for_map.
  rewrite (bind_returns get _ s s s eq_refl). cbv beta zeta.
  destruct (target_display (window s)) as [disp|] eqn:Hdisp.
  2:{ right; right. split; [|reflexivity]. left. now apply no_target_display_found. }
  assert (forall P : Prop,
            (forall g, selected_graphics (display_item_at (document_model s) disp) = [g] ->
                       graphic_type (graphic_at (document_model s) g) = "interval-graphic" ->
                       P) ->
            forall g, signal_interval_selected s g -> P) as Hno_selected.
  { intros P HP g (disp' & Hd' & Hsel & Hty).
    rewrite Hdisp in Hd'. injection Hd' as <-. now apply (HP g). }
  destruct (selected_graphics (display_item_at (document_model s) disp))
    as [|g [|g' rest]] eqn:Hsel.
  { right; right. split; [|reflexivity]. left.
    intros g. refine (Hno_selected False _ g). intros; congruence. }
  2:{ right; right. split; [|reflexivity]. left.
      intros g0. refine (Hno_selected False _ g0). intros; congruence. }
  destruct (str_eq (graphic_type (graphic_at (document_model s) g)) "interval-graphic")
    eqn:Hty.
  2:{ right; right. split; [|reflexivity]. left.
      intros g0. refine (Hno_selected False _ g0). intros g1 [= <-] Hty'.
      unfold str_eq in Hty. apply String.eqb_neq in Hty. contradiction. }
  assert (signal_interval_selected s g) as Hselected.
  { exists disp. repeat split; try assumption. now apply String.eqb_eq. }
  rewrite for_first_find.
  destruct (List.find _ (computations (document_model s))) as [c|] eqn:Hfind.
  2:{ right; right. split; [|reflexivity]. right.
      now apply (nothing_displayed_found s disp). }
  rewrite use_signal_for_map_body_shape.
  destruct (found_body_outcomes (use_signal_for_map_build g) s disp c Hdisp Hfind)
    as [(e & si & x & Hfound & He & Hrun)|[(Hmiss & Hnone & Hrun)|(Hnone & Hmiss & Hrun)]];
    cbv zeta in Hrun; rewrite Hrun.
  - left. exists g, c, si, x. split; [exact Hselected|]. split; [exact Hfound|].
    unfold mapping_computation, use_signal_for_map_build. rewrite He.
    apply (new_computation_built "eels.mapping3"
             (fun _ => _) (fun r => {[ "map" := r ]}) x s).
  - right; left. repeat split; eauto.
  - right; right. split; [|reflexivity]. now right.
Qed.

(** X11. When the [use_signal_for_map] menu action is triggered, a new
    ["eels.mapping3"] computation is created if and only if the target
    display has exactly one selected graphic, which is an interval
    graphic, and the display contains both the spectrum and the
    ["subtracted"] output of an ["eels.background_subtraction3"]
    computation (the first such computation being the one considered)
    whose spectrum has exactly one source data item, which is navigable
    and has one datum dimension. The new computation takes that source
    as its spectrum image, the spectrum, the fit interval graphics and
    the background model of the computation found, and the selected
    interval graphic as its signal interval; its ["map"] output is a new
    data item of zeros over the navigation dimensions, which the window
    then displays. Otherwise the session is left as it was. *)
Theorem use_signal_for_map_creates_computation :
  forall s,
    let r := use_signal_for_map get_source_data_items s in
    let d := document_model s in
    let d' := document_model r.2 in
    ((exists g c spectrum_image x,
        signal_interval_selected s g
        /\ background_subtraction_found get_source_data_items s c spectrum_image x)
     <-> exists new_computation,
           computations d' = computations d ++ [new_computation]
           /\ processing_id new_computation = "eels.mapping3")
    /\ (forall g c spectrum_image x,
          signal_interval_selected s g ->
          background_subtraction_found get_source_data_items s c spectrum_image x ->
          r.1 = Ret tt
          /\ computations d'
             = computations d
               ++ [ {| processing_id := "eels.mapping3";
                       inputs :=
                         {| in_eels_spectrum_data_item :=
                              in_eels_spectrum_data_item (inputs c);
                            in_spectrum_image_data_item := Some spectrum_image;
                            in_background_model := in_background_model (inputs c);
                            in_fit_interval_graphics :=
                              in_fit_interval_graphics (inputs c);
                            in_signal_interval_graphic := Some g |};
                       outputs := {[ "map" := next_ref d ]} |} ]
          /\ data_items d' = data_items d ++ [next_ref d]
          /\ data_item_at d' (next_ref d)
             = new_data_item_from_data (numpy_zeros (navigation_dimension_shape x))
          /\ displayed (window r.2) = displayed (window s) ++ [next_ref d])
    /\ ((forall g c spectrum_image x,
           ~ (signal_interval_selected s g
              /\ background_subtraction_found get_source_data_items s c spectrum_image x)) ->
        r.2 = s).
Proof.
  intros s r d d'. subst r d d'.
  assert (forall new_computation,
            computations (document_model s)
            = computations (document_model s) ++ [new_computation] -> False) as Hgrow.
  { intros comp Hcomp. apply (f_equal length) in Hcomp.
    rewrite length_app in Hcomp. simpl in Hcomp. lia. }
  destruct (use_signal_for_map_outcomes s)
    as [(g & c & si & x & Hsel & Hfound & Hrun)
       |[(_ & _ & Hnone & Hrun)|([Hnone|[Hnone _]] & Hrun)]];
    rewrite Hrun; cbn [fst snd].
  - split; [|split].
    + split; [|eauto 10].
      intros _. eexists. split; reflexivity.
    + intros g' c' si' x' Hsel' Hfound'.
      destruct (background_subtraction_found_unique _ _ _ _ _ _ _ _ Hfound Hfound')
        as (-> & -> & ->).
      rewrite (signal_interval_selected_unique _ _ _ Hsel Hsel').
      unfold with_new_computation, mapping_computation, update. cbn.
      rewrite Nat.eqb_refl. repeat split.
    + intros Hno. exfalso. now apply (Hno g c si x).
  - split; [|split; [|reflexivity]].
    + split.
      * intros (g & c & si & x & _ & Hfound). exfalso. now apply (Hnone c si x).
      * intros (comp & Hcomp & _). exfalso. now apply (Hgrow comp).
    + intros g c si x _ Hfound. exfalso. now apply (Hnone c si x).
  - split; [|split; [|reflexivity]].
    + split.
      * intros (g & c & si & x & Hsel & _). exfalso. now apply (Hnone g).
      * intros (comp & Hcomp & _). exfalso. now apply (Hgrow comp).
    + intros g c si x Hsel _. exfalso. now apply (Hnone g).
  - split; [|split; [|reflexivity]].
    + split.
      * intros (g & c & si & x & _ & Hfound). exfalso. now apply (Hnone c si x).
      * intros (comp & Hcomp & _). exfalso. now apply (Hgrow comp).
    + intros g c si x _ Hfound. exfalso. now apply (Hnone c si x).
Qed.

(** X12. With the calls of the host returning, the only exception of
    [subtract_background] and of [use_signal_for_map] is the assertion
    error of [assert source_xdata]: either action raises it exactly
    when it reaches a displayed background subtraction whose spectrum
    has a single source data item without xdata ([use_signal_for_map]
    reaches it only with a single selected interval graphic), and then
    it has changed nothing. In every other case the action returns. *)
Theorem menu_actions_assert_source_xdata :
  forall s,
    (let r := subtract_background get_source_data_items s in
     (r.1 = Ret tt \/ r.1 = Raise AssertionError)
     /\ (r.1 = Raise AssertionError <-> source_xdata_missing get_source_data_items s)
     /\ (r.1 = Raise AssertionError -> r.2 = s))
    /\ (let r := use_signal_for_map get_source_data_items s in
        (r.1 = Ret tt \/ r.1 = Raise AssertionError)
        /\ (r.1 = Raise AssertionError
            <-> (exists g, signal_interval_selected s g)
                /\ source_xdata_missing get_source_data_items s)
        /\ (r.1 = Raise AssertionError -> r.2 = s)).
Proof.
  intros s. split; cbv zeta.
  - destruct (subtract_background_outcomes s)
      as [(c & si & x & comp & Hfound & Hrun)|[(Hmiss & Hrun)|(Hmiss & Hrun)]];
      rewrite Hrun; cbn [fst snd].
    + split; [now left|]. split; [|discriminate]. split; [discriminate|].
      intros (disp & c' & e & si' & Hd & Hfirst & He & Hsrc & Hx). exfalso.
      destruct Hfound as (disp' & e' & o' & Hd' & Hfirst' & _ & He' & _ & _ & _ & Hsrc'
                          & Hx' & _).
      assert (disp' = disp) as -> by congruence.
      apply find_first_passing in Hfirst, Hfirst'.
      assert (c' = c) as -> by congruence. congruence.
    + split; [now right|]. split; [tauto | reflexivity].
    + split; [now left|]. split; [|discriminate]. split; [discriminate|].
      intros Hmiss'. exfalso. tauto.
  - destruct (use_signal_for_map_outcomes s)
      as [(g & c & si & x & Hsel & Hfound & Hrun)
         |[(Hsel & Hmiss & _ & Hrun)|(Hnone & Hrun)]];
      rewrite Hrun; cbn [fst snd].
    + split; [now left|]. split; [|discriminate]. split; [discriminate|].
      intros (_ & disp & c' & e & si' & Hd & Hfirst & He & Hsrc & Hx). exfalso.
      destruct Hfound as (disp' & e' & o' & Hd' & Hfirst' & _ & He' & _ & _ & _ & Hsrc'
                          & Hx' & _).
      assert (disp' = disp) as -> by congruence.
      apply find_first_passing in Hfirst, Hfirst'.
      assert (c' = c) as -> by congruence. congruence.
    + split; [now right|]. split; [tauto | reflexivity].
    + split; [now left|]. split; [|discriminate]. split; [discriminate|].
      intros [[g Hsel] Hmiss]. exfalso. destruct Hnone as [Hnone|[_ Hnone]].
      * now apply (Hnone g).
      * contradiction.
Qed.

End DocumentExtras.

(* ===================================================================== *)
(** * The further statements on the sample data                            *)
(* ===================================================================== *)

(** The least start of the fit intervals [(0.5, 0.25)] and
    [(0.625, 0.75)] is [0.25]. *)
Lemma fit_minimum_least_witness :
  (exists g, g ∈ [Sample.fit_graphic; Sample.signal_graphic]
             /\ (0.25%float = (interval g).1 \/ 0.25%float = (interval g).2))
  /\ forall g, g ∈ [Sample.fit_graphic; Sample.signal_graphic] ->
       float_le 0.25 (interval g).1 = true /\ float_le 0.25 (interval g).2 = true.
Proof.
  apply (proj2 (fit_minimum_least [Sample.fit_graphic; Sample.signal_graphic])).
  - intros g Hg. apply elem_of_cons in Hg as [->|Hg]; [split; reflexivity|].
    apply list_elem_of_singleton in Hg. subst g. split; reflexivity.
  - reflexivity.
Defined.

(** The sample spectrum passes the assertions; without a fit interval
    the fitting handler raises the error of [min]. *)
Lemma fit_execute_without_fit_interval_witness :
  EELSFitBackground.execute Sample.spectrum_item Sample.power_law []
    (EELSFitBackground.__init__, Sample.world Sample.power_law_registry)
  = (Raise ValueError,
     (EELSFitBackground.__init__, Sample.world Sample.power_law_registry)).
Proof.
  apply (@fit_execute_without_fit_interval Sample.api Sample.spectrum_item
           Sample.power_law
           (EELSFitBackground.__init__, Sample.world Sample.power_law_registry)
           Sample.spectrum "eV" []); reflexivity.
Defined.

(** The sample spectrum is not navigable, so the subtracting handler
    refuses it; and the mapping handler refuses a spectrum without
    xdata. *)
Lemma image_execute_assertions_witness :
  EELSSubtractBackground.execute Sample.spectrum_item Sample.power_law
    [Sample.fit_graphic]
    (EELSSubtractBackground.__init__, Sample.world Sample.power_law_registry)
  = (Raise AssertionError,
     (EELSSubtractBackground.__init__, Sample.world Sample.power_law_registry))
  /\ EELSMapBackgroundSubtractedSignal.execute Sample.spectrum_image_item
       Sample.power_law [Sample.fit_graphic] Sample.signal_graphic
       (Some Sample.empty_item)
       (EELSMapBackgroundSubtractedSignal.__init__,
        Sample.world Sample.power_law_registry)
     = (Raise AssertionError,
        (EELSMapBackgroundSubtractedSignal.__init__,
         Sample.world Sample.power_law_registry)).
Proof.
  split.
  - apply (proj1 (@image_execute_assertions Sample.api)).
    right. exists Sample.spectrum. split; [reflexivity|].
    right; left. split; reflexivity.
  - apply (proj2 (proj2 (@image_execute_assertions Sample.api))
             Sample.spectrum_image_item Sample.power_law [Sample.fit_graphic]
             Sample.signal_graphic Sample.empty_item Sample.spectrum_image
             _ sample_image_inputs_ok).
    now left.
Defined.

Lemma sample_echo_answers :
  forall c : Component,
    c ∈ [SampleComponents.echo] ->
    fit_background_answers Sample.spectrum
      (collect_fit_intervals [Sample.fit_graphic]) (0.25%float, 1%float) c.
Proof.
  intros c Hc. apply list_elem_of_singleton in Hc. subst c.
  exists {[ "background_model" := Sample.spectrum ]}, Sample.spectrum.
  repeat split.
Qed.

(** Of three selected components the second returns a result without
    ["background_model"]: the run ends with the [KeyError], and the
    third component is not called. *)
Lemma failing_component_stops_execute_witness :
  EELSFitBackground.execute Sample.spectrum_item Sample.power_law [Sample.fit_graphic]
    (EELSFitBackground.__init__, Sample.world SampleComponents.failing_registry)
  = (Raise (KeyError "background_model"),
     (EELSFitBackground.__init__,
      add_calls [ CallFitBackground SampleComponents.echo;
                  CallFitBackground SampleComponents.keyless ]
        (Sample.world SampleComponents.failing_registry))).
Proof.
  apply (proj1 (@failing_component_stops_execute Sample.api)
           Sample.spectrum_item Sample.power_law [Sample.fit_graphic]
           Sample.spectrum 0.25%float Sample.spectrum
           (EELSFitBackground.__init__, Sample.world SampleComponents.failing_registry)
           [SampleComponents.echo] SampleComponents.keyless
           [SampleComponents.constant] (KeyError "background_model")
           sample_fit_inputs_ok eq_refl sample_echo_answers).
  right; left. exists ∅. repeat split.
Defined.

(** Of two selected components that answer, the second decides: the
    buffers hold its flat background and the spectrum minus it. *)
Lemma last_selected_component_decides_witness :
  EELSFitBackground.execute Sample.spectrum_item Sample.power_law [Sample.fit_graphic]
    (EELSFitBackground.__init__, Sample.world SampleComponents.answering_registry)
  = (Ret tt,
     ({| EELSFitBackground.__background_xdata := Some SampleComponents.flat;
         EELSFitBackground.__subtracted_xdata := Some Sample.spectrum |},
      add_calls [ CallFitBackground SampleComponents.echo;
                  CallFitBackground SampleComponents.constant ]
        (Sample.world SampleComponents.answering_registry))).
Proof.
  apply (proj1 (@last_selected_component_decides Sample.api)
           Sample.spectrum_item Sample.power_law [Sample.fit_graphic]
           Sample.spectrum 0.25%float Sample.spectrum
           (EELSFitBackground.__init__, Sample.world SampleComponents.answering_registry)
           [SampleComponents.echo] SampleComponents.constant
           {[ "background_model" := SampleComponents.flat ]}
           SampleComponents.flat Sample.spectrum
           sample_fit_inputs_ok eq_refl sample_echo_answers eq_refl eq_refl).
  right. split; reflexivity.
Defined.

(** A fresh handler in a fresh world and a handler that holds and has
    published the flat background run alike on the sample spectrum. *)
Lemma execute_depends_on_registry_only_witness :
  let sw1 := (EELSFitBackground.__init__, Sample.world Sample.power_law_registry) in
  let sw2 := ({| EELSFitBackground.__background_xdata := Some SampleComponents.flat;
                 EELSFitBackground.__subtracted_xdata := Some SampleComponents.flat |},
              publish "background" SampleComponents.flat
                (Sample.world Sample.power_law_registry)) in
  let r1 := EELSFitBackground.execute Sample.spectrum_item Sample.power_law
              [Sample.fit_graphic] sw1 in
  let r2 := EELSFitBackground.execute Sample.spectrum_item Sample.power_law
              [Sample.fit_graphic] sw2 in
  r1.1 = r2.1
  /\ (r1.1 = Ret tt -> r1.2.1 = r2.2.1)
  /\ exists calls, r1.2.2 = add_calls calls sw1.2 /\ r2.2.2 = add_calls calls sw2.2.
Proof.
  apply (proj1 (@execute_depends_on_registry_only Sample.api)
           Sample.spectrum_item Sample.power_law [Sample.fit_graphic]
           (EELSFitBackground.__init__, Sample.world Sample.power_law_registry)
           ({| EELSFitBackground.__background_xdata := Some SampleComponents.flat;
               EELSFitBackground.__subtracted_xdata := Some SampleComponents.flat |},
            publish "background" SampleComponents.flat
              (Sample.world Sample.power_law_registry))).
  reflexivity.
Defined.

(** A handler that holds the flat background is run on a data item
    without xdata: the run raises, and a commit still publishes the flat
    background. *)
Lemma commit_after_failed_execute_witness :
  let sw := ({| EELSFitBackground.__background_xdata := Some SampleComponents.flat;
                EELSFitBackground.__subtracted_xdata := Some SampleComponents.flat |},
             Sample.world Sample.power_law_registry) in
  let r := EELSFitBackground.execute Sample.empty_item Sample.power_law
             [Sample.fit_graphic] sw in
  r.1 = Raise AssertionError
  /\ r.2.1 = sw.1
  /\ (EELSFitBackground.commit r.2).1 = (EELSFitBackground.commit sw).1
  /\ referenced_xdata (EELSFitBackground.commit r.2).2.2
     = referenced_xdata (EELSFitBackground.commit sw).2.2.
Proof.
  split; [reflexivity|].
  apply (proj1 (@commit_after_failed_execute Sample.api) Sample.empty_item
           Sample.power_law [Sample.fit_graphic]
           ({| EELSFitBackground.__background_xdata := Some SampleComponents.flat;
               EELSFitBackground.__subtracted_xdata := Some SampleComponents.flat |},
            Sample.world Sample.power_law_registry)).
  discriminate.
Defined.

(** Two commits of the flat background in a row. *)
Lemma commit_twice_witness :
  let sw := ({| EELSFitBackground.__background_xdata := Some SampleComponents.flat;
                EELSFitBackground.__subtracted_xdata := Some SampleComponents.flat |},
             Sample.world Sample.power_law_registry) in
  let c1 := EELSFitBackground.commit sw in
  let c2 := EELSFitBackground.commit c1.2 in
  c2.1 = Ret tt /\ c2.2.1 = sw.1
  /\ referenced_xdata c2.2.2 = referenced_xdata c1.2.2
  /\ exists calls, publications c1.2.2 = publications sw.2 ++ calls
                   /\ publications c2.2.2 = publications sw.2 ++ calls ++ calls.
Proof.
  apply (proj1 (@commit_twice Sample.api)
           ({| EELSFitBackground.__background_xdata := Some SampleComponents.flat;
               EELSFitBackground.__subtracted_xdata := Some SampleComponents.flat |},
            Sample.world Sample.power_law_registry)).
  reflexivity.
Defined.

(** Of three components registered under ["background-model"] the
    third has the id of the first: the loop registers the entities of
    the first two and stops at the third with the assertion error. *)
Lemma module_load_replays_registered_components_witness :
  let r := replay_registered_components SampleComponents.clashing_registry
             SampleComponents.loaded_entities in
  r.1 = Raise AssertionError
  /\ data_structure_entities r.2
     = [ background_model_entity_of SampleComponents.echo;
         background_model_entity_of
           (Sample.echo_component "polynomial_background_model") ].
Proof.
  destruct (proj2 (@module_load_replays_registered_components Sample.api
                     SampleComponents.clashing_registry
                     SampleComponents.loaded_entities)
              [ SampleComponents.echo;
                Sample.echo_component "polynomial_background_model" ]
              SampleComponents.constant [] eq_refl)
    as (Hraise & Hregistered & _).
  - apply NoDup_cons. split; [|apply NoDup_singleton].
    intros Hin. apply list_elem_of_singleton in Hin. discriminate.
  - intros c Hc. apply elem_of_cons in Hc as [->|Hc]; [reflexivity|].
    apply list_elem_of_singleton in Hc. now subst c.
  - left. apply list_elem_of_here.
  - split; [exact Hraise | exact Hregistered].
Defined.

Lemma sample_signal_interval_selected : signal_interval_selected Sample.session 7.
Proof. exists 4. repeat split. Qed.

(** On the sample document, whose display has the single interval
    graphic [7] selected, [use_signal_for_map] adds the mapping
    computation. *)
Lemma use_signal_for_map_creates_computation_witness :
  let r := use_signal_for_map Sample.sources Sample.session in
  r.1 = Ret tt
  /\ computations (document_model r.2)
     = [ Sample.background_subtraction;
         {| processing_id := "eels.mapping3";
            inputs := {| in_eels_spectrum_data_item := Some 1;
                         in_spectrum_image_data_item := Some 0;
                         in_background_model := Some 5;
                         in_fit_interval_graphics := [7];
                         in_signal_interval_graphic := Some 7 |};
            outputs := {[ "map" := 10 ]} |} ]
  /\ data_items (document_model r.2) = [0; 1; 2; 3; 10]
  /\ data_item_at (document_model r.2) 10
     = new_data_item_from_data
         (numpy_zeros (navigation_dimension_shape Sample.spectrum_image))
  /\ displayed (window r.2) = [10].
Proof.
  apply (proj1 (proj2 (@use_signal_for_map_creates_computation Sample.api
                         Sample.sources Sample.session))
           7 Sample.background_subtraction 0 Sample.spectrum_image
           sample_signal_interval_selected sample_background_subtraction_found).
Defined.

